(** * ThonLabs auth services: token lifecycle of the [AuthController]

    A shallow embedding of the authentication controller
    ([AuthController], revision with the invitation flow), of the user
    service ([UserService]) and of the collaborators they call, followed by
    the properties of the reset-password, confirm-email, refresh and signup
    flows.

    Handlers are state-passing functions over a [World] (the database
    tables, the outbox of the email service, the clock); a thrown
    exception is a result of the handler and keeps the writes made before
    it, as in the source. *)

From Stdlib Require Import ZArith.
From stdpp Require Import base option list gmap strings pretty.

Local Open Scope string_scope.
Local Open Scope list_scope.

(** ** Enumerations of [@prisma/client] and of [errors-metadata]

    The declarations are generated or live in files that are not among the
    sources; the members below are the ones the sources name. *)

Module TokenTypes.
Inductive t := ConfirmEmail | MagicLogin | ResetPassword | InviteUser.
#[global] Instance eq_dec : EqDecision t.
Proof. solve_decision. Defined.
End TokenTypes.

(** The source tests [authProvider] against two members and keeps a branch
    for a value that is neither; [Other] stands for any such value. *)
Module AuthProviders.
Inductive t := EmailAndPassword | MagicLogin | Other.
#[global] Instance eq_dec : EqDecision t.
Proof. solve_decision. Defined.
End AuthProviders.

Module EmailTemplates.
Inductive t := ConfirmEmail | Welcome | MagicLink | ForgotPassword.
#[global] Instance eq_dec : EqDecision t.
Proof. solve_decision. Defined.
End EmailTemplates.

(** Modelled from the spec: the [StatusCodes] enum of [errors-metadata] is
    not among the sources; its members are the ones the controller names,
    and [Expired] is the failure kind the spec gives to a token past its
    expiry. *)
Module StatusCodes.
Inductive t :=
  | OK | BadRequest | Unauthorized | Forbidden | NotFound
  | NotAcceptable | Conflict | Internal | Expired.
#[global] Instance eq_dec : EqDecision t.
Proof. solve_decision. Defined.
End StatusCodes.

(** Modelled from the spec: the [ErrorMessages] enum is not among the
    sources; [InvalidToken] and [TokenExpired] are the messages of the two
    failures of token validation (section 4.4), the others are named by the
    controller and the user service. *)
Module ErrorMessages.
Inductive t :=
  | Unauthorized | Forbidden | InvalidCredentials | InvalidUser
  | InternalError | EnvironmentNotFound | EmailInUse | UserNotFound
  | InvalidToken | TokenExpired.
#[global] Instance eq_dec : EqDecision t.
Proof. solve_decision. Defined.
End ErrorMessages.

Module ErrorCodes.
Inductive t := ResourceNotFound | EmailInUse.
#[global] Instance eq_dec : EqDecision t.
Proof. solve_decision. Defined.
End ErrorCodes.

(** ** JavaScript values and objects *)

Inductive JsVal :=
  | JNull
  | JBool (b : bool)
  | JStr (s : string)
  | JNum (z : Z).

#[global] Instance JsVal_eq_dec : EqDecision JsVal.
Proof. solve_decision. Defined.

(** An object is a finite map from property names to values; a property
    that was deleted (or never set) has no entry. *)
Abbreviation JsObject := (gmap string JsVal).

(** Truthiness, as [if (x)] and [!x] read it. *)
Definition truthy_string (s : string) : bool := negb (bool_decide (s = "")).

Definition truthy_opt_string (o : option string) : bool :=
  match o with
  | Some s => truthy_string s
  | None => false
  end.

Definition truthy (v : option JsVal) : bool :=
  match v with
  | None | Some JNull => false
  | Some (JBool b) => b
  | Some (JStr s) => truthy_string s
  | Some (JNum z) => negb (Z.eqb z 0)
  end.

(** A reference to an object is truthy, whatever the object holds. *)
Definition object_truthy {T} (o : T) : bool := true.

(** [DataReturn<T>] of [utils/interfaces/data-return]: every field is
    optional. *)
Record DataReturn (T : Type) := mkDataReturn {
  data : option T;
  statusCode : option StatusCodes.t;
  error : option ErrorMessages.t;
  code : option ErrorCodes.t;
}.
Arguments mkDataReturn {T} _ _ _ _.
Arguments data {T} _.
Arguments statusCode {T} _.
Arguments error {T} _.
Arguments code {T} _.

Definition withData {T} (x : T) : DataReturn T := mkDataReturn (Some x) None None None.

Definition withError {T} (s : StatusCodes.t) (e : ErrorMessages.t) : DataReturn T :=
  mkDataReturn None (Some s) (Some e) None.

(** ** Rows of the database *)

Record User := mkUser {
  id : string;
  email : string;
  fullName : string;
  password : option string;
  thonLabsUser : bool;
  emailConfirmed : bool;
  active : bool;
  lastSignIn : option Z;
  environmentId : option string;
}.

Record Environment := mkEnvironment {
  env_id : string;
  publicKey : string;
  authProvider : AuthProviders.t;
  refreshTokenExpiration : option string;
  appURL : string;
  appName : string;
}.

Record TokenStorage := mkTokenStorage {
  token : string;
  type : TokenTypes.t;
  relationId : string;
  tok_environmentId : option string;
  expires : Z;
  createdAt : Z;
}.

(** One call of [emailService.send]. *)
Record Email := mkEmail {
  mail_userId : option string;
  to : string;
  emailTemplateType : EmailTemplates.t;
  mail_environmentId : string;
  mail_data : option JsObject;
  scheduledAt : option Z;
}.

(** ** The world a handler runs in *)

Record World := mkWorld {
  users : list User;
  tokenStorage : gmap string TokenStorage;
  environments : list Environment;
  environmentData : gmap (string * string) JsVal;
  outbox : list Email;
  now : Z;
  entropy : nat;
}.

Definition set_users (f : list User → list User) (w : World) : World :=
  mkWorld (f (users w)) (tokenStorage w) (environments w) (environmentData w)
          (outbox w) (now w) (entropy w).

Definition set_tokenStorage (f : gmap string TokenStorage → gmap string TokenStorage)
    (w : World) : World :=
  mkWorld (users w) (f (tokenStorage w)) (environments w) (environmentData w)
          (outbox w) (now w) (entropy w).

Definition set_outbox (f : list Email → list Email) (w : World) : World :=
  mkWorld (users w) (tokenStorage w) (environments w) (environmentData w)
          (f (outbox w)) (now w) (entropy w).

Definition set_entropy (f : nat → nat) (w : World) : World :=
  mkWorld (users w) (tokenStorage w) (environments w) (environmentData w)
          (outbox w) (now w) (f (entropy w)).

(** ** Exceptions and the handler monad *)

Inductive ExceptionBody :=
  | Message (m : option ErrorMessages.t)
  | EmailResent.

Inductive Exception :=
  | HttpException (status : StatusCodes.t) (response : ExceptionBody)
  | TypeError
  | RecordNotFound.

Inductive Result (A : Type) :=
  | Returns (a : A)
  | Throws (e : Exception).
Arguments Returns {A} _.
Arguments Throws {A} _.

Definition Handler (A : Type) : Type := World → Result A * World.

Definition ret {A} (a : A) : Handler A := λ w, (Returns a, w).

Definition throw {A} (e : Exception) : Handler A := λ w, (Throws e, w).

Definition bind {A B} (m : Handler A) (k : A → Handler B) : Handler B :=
  λ w, match m w with
       | (Returns a, w') => k a w'
       | (Throws e, w') => (Throws e, w')
       end.

Definition gets {A} (f : World → A) : Handler A := λ w, (Returns (f w), w).

Definition modify (f : World → World) : Handler unit := λ w, (Returns tt, f w).

Declare Scope handler_scope.
Delimit Scope handler_scope with handler.
Notation "x <- m ;; k" := (bind m (λ x, k))
  (at level 100, m at next level, right associativity) : handler_scope.
Notation "m ;;; k" := (bind m (λ _, k))
  (at level 100, right associativity) : handler_scope.

(** [throw new exceptionsMapper[statusCode](error)]: indexing the mapper
    with an undefined status code is a [TypeError]. *)
Definition exceptionsMapper {A} (sc : option StatusCodes.t)
    (e : option ErrorMessages.t) : Handler A :=
  match sc with
  | Some s => throw (HttpException s (Message e))
  | None => throw TypeError
  end.

Definition catch {A} (m : Handler A) (h : Exception → Handler A) : Handler A :=
  λ w, match m w with
       | (Returns a, w') => (Returns a, w')
       | (Throws e, w') => h e w'
       end.

(** ** Operations the sources import but do not define

    [Crypt.hash], [getFirstName] and the signing of session tokens are
    taken as they come: nothing below depends on what they compute. *)

Record Claims := mkClaims {
  sub : string;
  claims_environmentId : string;
  iat : Z;
}.

Inductive SessionKind := AccessToken | RefreshToken.

Class Platform := {
  Crypt_hash : string → string;
  getFirstName : string → string;
  signSession : SessionKind → Claims → Environment → string;
  verifySession : string → Environment → Z → option Claims;
}.

(** [expiresIn] literals: ['30m'] is [Minutes 30], ['5h'] is [Hours 5]. *)
Inductive Duration :=
  | Minutes (n : Z)
  | Hours (n : Z)
  | Days (n : Z).

Definition ms (d : Duration) : Z :=
  match d with
  | Minutes n => n * 60000
  | Hours n => n * 3600000
  | Days n => n * 86400000
  end%Z.

(** Modelled from the spec: [newOpaqueToken] (section 4.1) is not among the
    sources; an opaque value never collides with an earlier one, which the
    model gets by numbering the values issued so far. The database's row
    identifiers are drawn from the same supply. *)
Definition newOpaqueToken (n : nat) : string := pretty n.

(** ** [databaseService.user] (Prisma) *)

Record UserCreateInput := mkUserCreateInput {
  in_email : string;
  in_fullName : string;
  in_password : option string;
  in_thonLabsUser : bool;
  in_emailConfirmed : option bool;
}.

(** Modelled from the spec: the Prisma schema is not among the sources.
    Columns absent from [data] take their defaults: [emailConfirmed] false,
    [active] true, [lastSignIn] and [environmentId] null. *)
Definition user_create (d : UserCreateInput) : Handler User :=
  λ w,
    let u := {| id := newOpaqueToken (entropy w);
                email := in_email d;
                fullName := in_fullName d;
                password := in_password d;
                thonLabsUser := in_thonLabsUser d;
                emailConfirmed := default false (in_emailConfirmed d);
                active := true;
                lastSignIn := None;
                environmentId := None |} in
    (Returns u, set_entropy S (set_users (λ us, us ++ [u]) w)).

Definition with_environmentId (e : option string) (u : User) : User :=
  mkUser (id u) (email u) (fullName u) (password u) (thonLabsUser u)
         (emailConfirmed u) (active u) (lastSignIn u) e.

Definition with_password (p : option string) (u : User) : User :=
  mkUser (id u) (email u) (fullName u) p (thonLabsUser u)
         (emailConfirmed u) (active u) (lastSignIn u) (environmentId u).

Definition with_emailConfirmed (b : bool) (u : User) : User :=
  mkUser (id u) (email u) (fullName u) (password u) (thonLabsUser u)
         b (active u) (lastSignIn u) (environmentId u).

(** [user.update({ where: { id }, data })] rejects when no row matches. *)
Definition user_update (uid : string) (f : User → User) : Handler unit :=
  λ w,
    if existsb (λ u, bool_decide (id u = uid)) (users w)
    then (Returns tt,
          set_users (map (λ u, if bool_decide (id u = uid) then f u else u)) w)
    else (Throws RecordNotFound, w).

Definition opt_str (o : option string) : JsVal :=
  match o with Some s => JStr s | None => JNull end.

Definition opt_num (o : option Z) : JsVal :=
  match o with Some z => JNum z | None => JNull end.

(** The object Prisma hands back for a row: one property per column. *)
Definition toObject (u : User) : JsObject :=
  <["id" := JStr (id u)]>
  (<["email" := JStr (email u)]>
  (<["fullName" := JStr (fullName u)]>
  (<["password" := opt_str (password u)]>
  (<["thonLabsUser" := JBool (thonLabsUser u)]>
  (<["emailConfirmed" := JBool (emailConfirmed u)]>
  (<["active" := JBool (active u)]>
  (<["lastSignIn" := opt_num (lastSignIn u)]>
  (<["environmentId" := opt_str (environmentId u)]> ∅)))))))).

(** Reading a string property of an object ([user.id], [user.email]). *)
Definition prop_str (o : JsObject) (k : string) : string :=
  match o !! k with
  | Some (JStr s) => s
  | _ => ""
  end.

(** ** [EnvironmentService] and [EnvironmentDataService] *)

Record Request := mkRequest {
  headers : gmap string string;
}.

Module EnvironmentService.

(** Modelled from the spec: [TenantDirectory.getById] (section 6); the
    service is not among the sources. *)
Definition getById (eid : option string) : Handler (DataReturn Environment) :=
  gets (λ w,
    match find (λ e, bool_decide (Some (env_id e) = eid)) (environments w) with
    | Some e => withData e
    | None => withError StatusCodes.NotFound ErrorMessages.EnvironmentNotFound
    end).

(** Modelled from the spec: [TenantDirectory.getByPublicKey]; a missing or
    unknown key is [Unauthorized] (section 7). The key is read from the
    request's [tl-public-key] header. *)
Definition getByPublicKeyFromRequest (req : Request) : Handler (DataReturn Environment) :=
  gets (λ w,
    match headers req !! "tl-public-key" with
    | Some k =>
        match find (λ e, bool_decide (publicKey e = k)) (environments w) with
        | Some e => withData e
        | None => withError StatusCodes.Unauthorized ErrorMessages.Unauthorized
        end
    | None => withError StatusCodes.Unauthorized ErrorMessages.Unauthorized
    end).

End EnvironmentService.

Module EnvironmentDataService.

(** Modelled from the spec: the per-tenant settings ([enableSignUp]) are a
    key-value store read by tenant id and key. *)
Definition get (eid key : string) : Handler (DataReturn JsVal) :=
  gets (λ w, mkDataReturn (environmentData w !! (eid, key)) None None None).

End EnvironmentDataService.

(** ** [EmailService] *)

Module EmailService.

(** Modelled from the spec: [EmailTrigger.send] (section 6); delivery is
    out of scope, the trigger is recorded. *)
Definition send (m : Email) : Handler unit :=
  modify (set_outbox (λ o, o ++ [m])).

End EmailService.

(** ** [TokenStorageService] *)

Record TokenCreate := mkTokenCreate {
  tc_relationId : string;
  tc_type : TokenTypes.t;
  tc_expiresIn : Duration;
  tc_environmentId : option string;
}.

Record AuthTokens := mkAuthTokens {
  accessToken : string;
  refreshToken : option string;
}.

Module TokenStorageService.
Section WithPlatform.
Context {platform : Platform}.

(** Modelled from the spec: Token Store [create] (section 4.2). *)
Definition create (p : TokenCreate) : Handler (DataReturn TokenStorage) :=
  λ w,
    let row := {| token := newOpaqueToken (entropy w);
                  type := tc_type p;
                  relationId := tc_relationId p;
                  tok_environmentId := tc_environmentId p;
                  expires := (now w + ms (tc_expiresIn p))%Z;
                  createdAt := now w |} in
    (Returns (withData row),
     set_entropy S (set_tokenStorage (insert (token row) row) w)).

(** Modelled from the spec: Token Store [delete], idempotent. *)
Definition delete (tok : string) : Handler unit :=
  modify (set_tokenStorage (base.delete tok)).

(** Modelled from the spec: Token Store [deleteAllOfKind]. *)
Definition deleteMany (ty : TokenTypes.t) (rid : string) : Handler unit :=
  modify (set_tokenStorage
            (filter (λ kv, ¬ (type kv.2 = ty ∧ relationId kv.2 = rid)))).

(** Modelled from the spec: Session Issuer [createSessionPair] (section
    4.3): the access token always, the refresh token only when the tenant's
    refresh lifetime is non-null. *)
Definition createAuthTokens (user : JsObject) (environment : Environment)
    : Handler (DataReturn AuthTokens) :=
  gets (λ w,
    let claims := mkClaims (prop_str user "id") (env_id environment) (now w) in
    withData
      {| accessToken := signSession AccessToken claims environment;
         refreshToken :=
           match refreshTokenExpiration environment with
           | Some _ => Some (signSession RefreshToken claims environment)
           | None => None
           end |}).

End WithPlatform.
End TokenStorageService.

(** ** [UserService] *)

Record CreatePayload := mkCreatePayload {
  cp_fullName : string;
  cp_email : string;
  cp_password : option string;
  cp_environmentId : string;
}.

Module UserService.
Section WithPlatform.
Context {platform : Platform}.

Definition getOurByEmail (mail : string) : Handler (option User) :=
  gets (λ w, find (λ u, bool_decide (email u = mail) && thonLabsUser u) (users w)).

Definition getByEmail (mail eid : string) : Handler (option User) :=
  gets (λ w,
    find (λ u, bool_decide (email u = mail) && bool_decide (environmentId u = Some eid))
         (users w)).

Definition getById (uid : string) : Handler (option User) :=
  gets (λ w, find (λ u, bool_decide (id u = uid)) (users w)).

Definition createOwner (payload_password : string) : Handler (DataReturn JsObject) :=
  (owner <- getOurByEmail "gustavo@gsales.io";;
   match owner with
   | Some o => ret (withData (toObject o))
   | None =>
       let password := Crypt_hash payload_password in
       user <- user_create {| in_email := "gustavo@gsales.io";
                              in_fullName := "Gustavo Owner";
                              in_password := Some password;
                              in_thonLabsUser := true;
                              in_emailConfirmed := Some true |};;
       let user := base.delete "password" (toObject user) in
       ret (withData user)
   end)%handler.

(** [environmentExists] holds the object the environment service returns,
    and the guard reads its truthiness. *)
Definition create (payload : CreatePayload) : Handler (DataReturn JsObject) :=
  (environmentExists <- EnvironmentService.getById (Some (cp_environmentId payload));;
   if negb (object_truthy environmentExists)
   then ret (mkDataReturn None (Some StatusCodes.NotFound)
               (Some ErrorMessages.EnvironmentNotFound)
               (Some ErrorCodes.ResourceNotFound))
   else
     emailExists <- getByEmail (cp_email payload) (cp_environmentId payload);;
     match emailExists with
     | Some _ =>
         ret (mkDataReturn None (Some StatusCodes.Conflict)
                (Some ErrorMessages.EmailInUse) (Some ErrorCodes.EmailInUse))
     | None =>
         let password :=
           if truthy_opt_string (cp_password payload)
           then Crypt_hash <$> cp_password payload
           else None in
         catch
           (user <- user_create {| in_email := cp_email payload;
                                   in_fullName := cp_fullName payload;
                                   in_password := password;
                                   in_thonLabsUser := false;
                                   in_emailConfirmed := None |};;
            let user := base.delete "password" (toObject user) in
            ret (withData user))
           (λ _, ret (withError StatusCodes.Internal ErrorMessages.InternalError))
     end)%handler.

Definition setEnvironment (userId eid : string) : Handler unit :=
  user_update userId (with_environmentId (Some eid)).

(** The methods below are called by the controller but are not in the
    revision of the service among the sources. *)

(** Modelled from the spec: a user is looked up by id within one tenant
    (cross-tenant lookups fail closed, section 3). *)
Definition in_tenant (uid : string) (eid : option string) (u : User) : bool :=
  bool_decide (id u = uid) && bool_decide (environmentId u = eid).

(** Modelled from the spec: [UserDirectory.updatePassword]; the lookup is
    tenant-scoped and fails closed, a success returns nothing. *)
Definition updatePassword (userId : string) (eid : option string) (newPassword : string)
    : Handler (option (DataReturn unit)) :=
  λ w,
    if existsb (in_tenant userId eid) (users w)
    then (Returns None,
          set_users (map (λ u, if in_tenant userId eid u
                               then with_password (Some (Crypt_hash newPassword)) u
                               else u)) w)
    else (Returns (Some (withError StatusCodes.NotFound ErrorMessages.UserNotFound)), w).

(** Modelled from the spec: [UserDirectory.setEmailConfirmed]: marks the
    user's email-confirmed flag. *)
Definition updateEmailConfirmation (userId : string) (eid : option string)
    : Handler (option (DataReturn unit)) :=
  λ w,
    if existsb (in_tenant userId eid) (users w)
    then (Returns None,
          set_users (map (λ u, if in_tenant userId eid u
                               then with_emailConfirmed true u
                               else u)) w)
    else (Returns (Some (withError StatusCodes.NotFound ErrorMessages.UserNotFound)), w).

(** Modelled from the spec: the expired-confirmation retry (section 4.4):
    when the record still resolves to a user, a fresh confirm-email token
    is issued and the confirmation email is sent again. *)
Definition sendConfirmationEmail (userId : string) (eid : option string)
    : Handler (DataReturn User) :=
  (user <- getById userId;;
   match user with
   | None => ret (withError StatusCodes.NotFound ErrorMessages.UserNotFound)
   | Some u =>
       tokenR <- TokenStorageService.create
                   {| tc_relationId := id u;
                      tc_type := TokenTypes.ConfirmEmail;
                      tc_expiresIn := Hours 5;
                      tc_environmentId := eid |};;
       EmailService.send
         {| mail_userId := Some (id u);
            to := email u;
            emailTemplateType := EmailTemplates.ConfirmEmail;
            mail_environmentId := default "" eid;
            mail_data :=
              Some (<["token" := opt_str (token <$> data tokenR)]>
                    (<["userFirstName" := JStr (getFirstName (fullName u))]> ∅));
            scheduledAt := None |};;;
       ret (withData u)
   end)%handler.

(** Modelled from the spec: the owning user "is still active". *)
Definition isActiveUser (userId : string) (eid : option string) : Handler bool :=
  gets (λ w,
    match find (in_tenant userId eid) (users w) with
    | Some u => active u
    | None => false
    end).

End WithPlatform.
End UserService.

(** ** [AuthService] *)

Module AuthService.
Section WithPlatform.
Context {platform : Platform}.

(** Modelled from the spec: [validateAndConsumeToken] (section 4.4), steps
    1 to 4. An absent token and a token of another kind give the same
    [NotFound]; a token past its expiry gives [Expired] and the answer
    still carries the record; nothing is deleted. *)
Definition validation (w : World) (tok : string) (ty : TokenTypes.t)
    : DataReturn TokenStorage :=
  match tokenStorage w !! tok with
  | None => withError StatusCodes.NotFound ErrorMessages.InvalidToken
  | Some row =>
      if bool_decide (type row = ty)
      then if (expires row <? now w)%Z
           then mkDataReturn (Some row) (Some StatusCodes.Expired)
                  (Some ErrorMessages.TokenExpired) None
           else withData row
      else withError StatusCodes.NotFound ErrorMessages.InvalidToken
  end.

(** Modelled from the spec: the validation is a read of the store. *)
Definition validateUserTokenExpiration (tok : string) (ty : TokenTypes.t)
    : Handler (DataReturn TokenStorage) :=
  gets (λ w, validation w tok ty).

(** Modelled from the spec: the follow-up credentials of the invitation
    flow (section 4.5) are minted in the Token Store. *)
Definition generateResetPasswordToken (userId : string) (eid : option string)
    : Handler (DataReturn TokenStorage) :=
  TokenStorageService.create
    {| tc_relationId := userId;
       tc_type := TokenTypes.ResetPassword;
       tc_expiresIn := Minutes 30;
       tc_environmentId := eid |}.

(** Modelled from the spec: the magic-login follow-up credential. *)
Definition generateMagicLoginToken (userId : string) (eid : option string)
    : Handler (DataReturn TokenStorage) :=
  TokenStorageService.create
    {| tc_relationId := userId;
       tc_type := TokenTypes.MagicLogin;
       tc_expiresIn := Minutes 30;
       tc_environmentId := eid |}.

(** Modelled from the spec: Session Issuer [rotateRefresh] (section 4.3):
    the old refresh token is verified against the tenant, then a fresh
    pair is minted. *)
Definition reAuthenticateFromRefreshToken (tok : string) (eid : string)
    : Handler (DataReturn AuthTokens) :=
  (envR <- EnvironmentService.getById (Some eid);;
   match data envR with
   | None => ret (withError StatusCodes.Unauthorized ErrorMessages.Unauthorized)
   | Some environment =>
       t <- gets now;;
       match verifySession tok environment t with
       | None => ret (withError StatusCodes.Unauthorized ErrorMessages.InvalidToken)
       | Some claims =>
           user <- UserService.getById (sub claims);;
           match user with
           | None => ret (withError StatusCodes.Unauthorized ErrorMessages.Unauthorized)
           | Some u => TokenStorageService.createAuthTokens (toObject u) environment
           end
       end
   end)%handler.

End WithPlatform.
End AuthService.

(** ** [AuthController] *)

Record SignUpPayload := mkSignUpPayload {
  sp_fullName : string;
  sp_email : string;
  sp_password : option string;
}.

Record FollowUp := mkFollowUp {
  tokenType : TokenTypes.t;
  followUp_token : option string;
  followUp_email : option string;
}.

(** What a handler hands back to the framework. *)
Inductive Response :=
  | NoContent
  | Tokens (t : option AuthTokens)
  | Refreshed (d : DataReturn AuthTokens)
  | Json (status : StatusCodes.t) (body : option FollowUp).

Definition UnauthorizedException {A} (m : option ErrorMessages.t) : Handler A :=
  throw (HttpException StatusCodes.Unauthorized (Message m)).

Definition minutes_from (t : Z) (n : Z) : Z := (t + n * 60000)%Z.

Module AuthController.
Section WithPlatform.
Context {platform : Platform}.

Definition signUp (payload : SignUpPayload) (req : Request) : Handler Response :=
  (envR <- EnvironmentService.getByPublicKeyFromRequest req;;
   match data envR with
   | None => UnauthorizedException (Some ErrorMessages.Unauthorized)
   | Some environment =>
       enableSignUp <- EnvironmentDataService.get (env_id environment) "enableSignUp";;
       if negb (truthy (data enableSignUp))
       then throw (HttpException StatusCodes.Forbidden
                     (Message (Some ErrorMessages.Forbidden)))
       else
         userR <- UserService.create
                    {| cp_fullName := sp_fullName payload;
                       cp_email := sp_email payload;
                       cp_password := sp_password payload;
                       cp_environmentId := env_id environment |};;
         if bool_decide (is_Some (error userR))
         then exceptionsMapper (statusCode userR) (error userR)
         else
           match data userR with
           | None => throw TypeError
           | Some user =>
               tokenR <- TokenStorageService.create
                           {| tc_relationId := prop_str user "id";
                              tc_type := if truthy_opt_string (sp_password payload)
                                         then TokenTypes.ConfirmEmail
                                         else TokenTypes.MagicLogin;
                              tc_expiresIn := if truthy_opt_string (sp_password payload)
                                              then Hours 5 else Minutes 30;
                              tc_environmentId := Some (env_id environment) |};;
               match data tokenR with
               | None => throw TypeError
               | Some row =>
                   if bool_decide (is_Some (error tokenR))
                   then exceptionsMapper (statusCode tokenR) (error tokenR)
                   else
                     let emailData : JsObject :=
                       <["token" := JStr (token row)]>
                       (<["userFirstName" := JStr (getFirstName (prop_str user "fullName"))]> ∅) in
                     if truthy_opt_string (sp_password payload)
                     then
                       tokensR <- TokenStorageService.createAuthTokens user environment;;
                       EmailService.send
                         {| mail_userId := Some (prop_str user "id");
                            to := prop_str user "email";
                            emailTemplateType := EmailTemplates.ConfirmEmail;
                            mail_environmentId := env_id environment;
                            mail_data := Some emailData;
                            scheduledAt := None |};;;
                       t <- gets now;;
                       EmailService.send
                         {| mail_userId := Some (prop_str user "id");
                            to := prop_str user "email";
                            emailTemplateType := EmailTemplates.Welcome;
                            mail_environmentId := env_id environment;
                            mail_data := None;
                            scheduledAt := Some (minutes_from t 5) |};;;
                       ret (Tokens (data tokensR))
                     else
                       EmailService.send
                         {| mail_userId := Some (prop_str user "id");
                            to := prop_str user "email";
                            emailTemplateType := EmailTemplates.MagicLink;
                            mail_environmentId := env_id environment;
                            mail_data := Some emailData;
                            scheduledAt := None |};;;
                       t <- gets now;;
                       EmailService.send
                         {| mail_userId := Some (prop_str user "id");
                            to := prop_str user "email";
                            emailTemplateType := EmailTemplates.Welcome;
                            mail_environmentId := env_id environment;
                            mail_data := None;
                            scheduledAt := Some (minutes_from t 5) |};;;
                       ret NoContent
               end
           end
   end)%handler.

Definition reAuthenticateFromRefreshToken (tok : string) (req : Request)
    : Handler Response :=
  (let environmentId := headers req !! "tl-env-id" in
   envR <- EnvironmentService.getById environmentId;;
   if bool_decide (is_Some (error envR))
   then exceptionsMapper (statusCode envR) (error envR)
   else
     match data envR with
     | None => throw TypeError
     | Some environment =>
         if negb (truthy_opt_string (refreshTokenExpiration environment))
         then throw (HttpException StatusCodes.Unauthorized (Message None))
         else
           d <- AuthService.reAuthenticateFromRefreshToken tok (env_id environment);;
           if bool_decide (is_Some (error d))
           then exceptionsMapper (statusCode d) (error d)
           else ret (Refreshed d)
     end)%handler.

Definition requestResetPassword (req : Request) (payload_email : string)
    : Handler Response :=
  (envR <- EnvironmentService.getByPublicKeyFromRequest req;;
   match data envR with
   | None => UnauthorizedException (Some ErrorMessages.Unauthorized)
   | Some environment =>
       user <- UserService.getByEmail payload_email (env_id environment);;
       match user with
       | Some u =>
           if active u
           then
             TokenStorageService.deleteMany TokenTypes.ResetPassword (id u);;;
             tokenR <- TokenStorageService.create
                         {| tc_expiresIn := Minutes 30;
                            tc_relationId := id u;
                            tc_type := TokenTypes.ResetPassword;
                            tc_environmentId := Some (env_id environment) |};;
             if bool_decide (is_Some (error tokenR))
             then exceptionsMapper (statusCode tokenR) (error tokenR)
             else
               match data tokenR with
               | None => throw TypeError
               | Some row =>
                   EmailService.send
                     {| emailTemplateType := EmailTemplates.ForgotPassword;
                        mail_environmentId := env_id environment;
                        mail_userId := Some (id u);
                        to := email u;
                        mail_data := Some (<["token" := JStr (token row)]> ∅);
                        scheduledAt := None |};;;
                   ret NoContent
               end
           else ret NoContent
       | None => ret NoContent
       end
   end)%handler.

Definition validateTokenResetPassword (tok : string) : Handler Response :=
  (tokenValidation <- AuthService.validateUserTokenExpiration tok TokenTypes.ResetPassword;;
   if bool_decide (is_Some (statusCode tokenValidation))
   then exceptionsMapper (statusCode tokenValidation) (error tokenValidation)
   else
     match data tokenValidation with
     | None => throw TypeError
     | Some row =>
         isActiveUser <- UserService.isActiveUser (relationId row) (tok_environmentId row);;
         if negb isActiveUser
         then throw (HttpException StatusCodes.NotAcceptable
                       (Message (Some ErrorMessages.InvalidUser)))
         else ret NoContent
     end)%handler.

(** [Promise.all] starts the deletion, then the password update, and waits
    for both; neither rejects, so both have run when it resumes. The
    argument of the update is read after the deletion has started. *)
Definition updateTokenResetPassword (req : Request) (tok : string)
    (payload_password : string) : Handler Response :=
  (envR <- EnvironmentService.getByPublicKeyFromRequest req;;
   match data envR with
   | None => UnauthorizedException (Some ErrorMessages.Unauthorized)
   | Some environment =>
       tokenValidation <- AuthService.validateUserTokenExpiration tok TokenTypes.ResetPassword;;
       if bool_decide (is_Some (statusCode tokenValidation))
       then exceptionsMapper (statusCode tokenValidation) (error tokenValidation)
       else
         match data tokenValidation with
         | None => TokenStorageService.delete tok;;; throw TypeError
         | Some row =>
             TokenStorageService.delete tok;;;
             updatePassword <- UserService.updatePassword (relationId row)
                                 (Some (env_id environment)) payload_password;;
             if bool_decide (is_Some (updatePassword ≫= statusCode))
             then exceptionsMapper (updatePassword ≫= statusCode)
                                   (updatePassword ≫= error)
             else ret NoContent
         end
   end)%handler.

(** [confirmEmail] calls the validator of the injected auth service, once
    or twice; to tell which calls it makes and in which order, the handler
    is written over any validator, one that writes included, and the
    controller's handler is the one over the auth service's. *)
Section OverValidator.
Variable validateUserTokenExpiration :
  string → TokenTypes.t → Handler (DataReturn TokenStorage).

(** The value of [tokenValidation] once both kinds have been tried. *)
Definition confirmEmail_tokenValidation_over (tok : string)
    : Handler (DataReturn TokenStorage) :=
  (tokenValidation <- validateUserTokenExpiration tok TokenTypes.ConfirmEmail;;
   if bool_decide (statusCode tokenValidation = Some StatusCodes.NotFound)
   then validateUserTokenExpiration tok TokenTypes.InviteUser
   else ret tokenValidation)%handler.

Definition confirmEmail_over (tok : string) : Handler Response :=
  (tokenValidation <- confirmEmail_tokenValidation_over tok;;
   if bool_decide (is_Some (statusCode tokenValidation))
   then
     (if bool_decide (type <$> data tokenValidation = Some TokenTypes.ConfirmEmail)
         && truthy_opt_string (relationId <$> data tokenValidation)
      then
        emailSent <- UserService.sendConfirmationEmail
                       (default "" (relationId <$> data tokenValidation))
                       (data tokenValidation ≫= tok_environmentId);;
        TokenStorageService.delete tok;;;
        if bool_decide (is_Some (data emailSent))
        then throw (HttpException StatusCodes.NotAcceptable EmailResent)
        else ret tt
      else ret tt);;;
     exceptionsMapper (statusCode tokenValidation) (error tokenValidation)
   else
     match data tokenValidation with
     | None => throw TypeError
     | Some row =>
         let userId := relationId row in
         let environmentId := tok_environmentId row in
         updateEmailConfirmation <- UserService.updateEmailConfirmation userId environmentId;;
         TokenStorageService.delete tok;;;
         if bool_decide (is_Some (updateEmailConfirmation ≫= statusCode))
         then exceptionsMapper (updateEmailConfirmation ≫= statusCode)
                               (updateEmailConfirmation ≫= error)
         else
           user <- UserService.getById userId;;
           envR <- EnvironmentService.getById environmentId;;
           if bool_decide (type row = TokenTypes.InviteUser)
           then
             match user with
             | None => throw TypeError
             | Some u =>
                 if negb (bool_decide (is_Some (lastSignIn u)))
                 then
                   match data envR with
                   | None => throw TypeError
                   | Some environment =>
                       if bool_decide (authProvider environment = AuthProviders.EmailAndPassword)
                       then
                         resetPasswordToken <-
                           AuthService.generateResetPasswordToken (id u) environmentId;;
                         if bool_decide (is_Some (statusCode resetPasswordToken))
                         then exceptionsMapper (statusCode resetPasswordToken)
                                               (error resetPasswordToken)
                         else ret (Json StatusCodes.OK
                                     (Some {| tokenType := TokenTypes.ResetPassword;
                                              followUp_token := token <$> data resetPasswordToken;
                                              followUp_email := Some (email u) |}))
                       else if bool_decide (authProvider environment = AuthProviders.MagicLogin)
                       then
                         magicLoginToken <-
                           AuthService.generateMagicLoginToken (id u) environmentId;;
                         if bool_decide (is_Some (statusCode magicLoginToken))
                         then exceptionsMapper (statusCode magicLoginToken)
                                               (error magicLoginToken)
                         else ret (Json StatusCodes.OK
                                     (Some {| tokenType := TokenTypes.MagicLogin;
                                              followUp_token := token <$> data magicLoginToken;
                                              followUp_email := None |}))
                       else
                         throw (HttpException StatusCodes.Internal
                                  (Message (Some ErrorMessages.InternalError)))
                   end
                 else ret (Json StatusCodes.OK None)
             end
           else ret (Json StatusCodes.OK None)
     end)%handler.

End OverValidator.

Definition confirmEmail_tokenValidation (tok : string)
    : Handler (DataReturn TokenStorage) :=
  confirmEmail_tokenValidation_over AuthService.validateUserTokenExpiration tok.

Definition confirmEmail (tok : string) : Handler Response :=
  confirmEmail_over AuthService.validateUserTokenExpiration tok.

End WithPlatform.
End AuthController.

(** ** The earlier revision of the controller

    [auth-services/.../auth.controller.ts] holds an earlier revision of the
    same class; its reset-password request is kept here to compare. *)

Module Legacy.
Section WithPlatform.
Context {platform : Platform}.

Definition requestResetPassword (req : Request) (payload_email : string)
    : Handler Response :=
  (envR <- EnvironmentService.getByPublicKeyFromRequest req;;
   match data envR with
   | None => UnauthorizedException (Some ErrorMessages.Unauthorized)
   | Some environment =>
       user <- UserService.getByEmail payload_email (env_id environment);;
       match user with
       | None => throw (HttpException StatusCodes.NotFound
                          (Message (Some ErrorMessages.UserNotFound)))
       | Some u =>
           TokenStorageService.deleteMany TokenTypes.ResetPassword (id u);;;
           tokenR <- TokenStorageService.create
                       {| tc_expiresIn := Minutes 30;
                          tc_relationId := id u;
                          tc_type := TokenTypes.ResetPassword;
                          tc_environmentId := None |};;
           if bool_decide (is_Some (error tokenR))
           then exceptionsMapper (statusCode tokenR) (error tokenR)
           else
             match data tokenR with
             | None => throw TypeError
             | Some row =>
                 EmailService.send
                   {| emailTemplateType := EmailTemplates.ForgotPassword;
                      mail_environmentId := env_id environment;
                      mail_userId := None;
                      to := email u;
                      mail_data :=
                        Some (<["userFirstName" := JStr (getFirstName (fullName u))]>
                              (<["appURL" := JStr (appURL environment)]>
                              (<["appName" := JStr (appName environment)]>
                              (<["token" := JStr (token row)]> ∅))));
                      scheduledAt := None |};;;
                 ret NoContent
             end
       end
   end)%handler.

End WithPlatform.
End Legacy.

(** ** Histories of requests *)

(** One request to the controller, or the clock moving on. *)
Inductive Call :=
  | CallSignUp (payload : SignUpPayload) (req : Request)
  | CallRefresh (tok : string) (req : Request)
  | CallRequestResetPassword (req : Request) (payload_email : string)
  | CallValidateTokenResetPassword (tok : string)
  | CallUpdateTokenResetPassword (req : Request) (tok : string) (payload_password : string)
  | CallConfirmEmail (tok : string)
  | Tick (dt : Z).

Definition set_now (f : Z → Z) (w : World) : World :=
  mkWorld (users w) (tokenStorage w) (environments w) (environmentData w)
          (outbox w) (f (now w)) (entropy w).

Definition handle {platform : Platform} (c : Call) : Handler Response :=
  match c with
  | CallSignUp payload req => AuthController.signUp payload req
  | CallRefresh tok req => AuthController.reAuthenticateFromRefreshToken tok req
  | CallRequestResetPassword req mail => AuthController.requestResetPassword req mail
  | CallValidateTokenResetPassword tok => AuthController.validateTokenResetPassword tok
  | CallUpdateTokenResetPassword req tok pw => AuthController.updateTokenResetPassword req tok pw
  | CallConfirmEmail tok => AuthController.confirmEmail tok
  | Tick dt => bind (modify (set_now (Z.add dt))) (λ _, ret NoContent)
  end.

(** The world after a history: whatever a request answers, its writes stay. *)
Definition run {platform : Platform} (cs : list Call) (w : World) : World :=
  fold_left (λ w c, (handle c w).2) cs w.

(** Every stored token was drawn from the supply of opaque values. *)
Definition issued (w : World) (k : string) : Prop :=
  ∃ n, (n < entropy w)%nat ∧ k = newOpaqueToken n.

Definition well_formed (w : World) : Prop :=
  ∀ k row, tokenStorage w !! k = Some row → issued w k.

(** A token that was issued and is no longer stored. *)
Definition consumed (k : string) (w : World) : Prop :=
  tokenStorage w !! k = None ∧ issued w k.

(** From [w] to [w'] the supply only moves forward, and every token stored
    in [w'] was stored in [w] or was drawn from the supply in between. *)
Definition supply_step (w w' : World) : Prop :=
  (entropy w ≤ entropy w')%nat ∧
  ∀ k, is_Some (tokenStorage w' !! k) →
       is_Some (tokenStorage w !! k) ∨
       ∃ n, (entropy w ≤ n)%nat ∧ (n < entropy w')%nat ∧ k = newOpaqueToken n.

(** A handler that creates tokens only by drawing them from the supply. *)
Definition disciplined {A} (m : Handler A) : Prop :=
  ∀ w, supply_step w (m w).2.

(** The reset-password tokens of a user that are in the store. *)
Definition reset_tokens_of (uid : string) (w : World) : gmap string TokenStorage :=
  filter (λ kv, type kv.2 = TokenTypes.ResetPassword ∧ relationId kv.2 = uid)
         (tokenStorage w).

(** A platform to run examples with. *)
Definition examplePlatform : Platform :=
  {| Crypt_hash := λ p, "hash:" +:+ p;
     getFirstName := λ n, n;
     signSession := λ k c e,
       match k with AccessToken => "access:" | RefreshToken => "refresh:" end +:+ sub c;
     verifySession := λ t e n, None |}.

(** Whether [mail] belongs to an active user of tenant [eid]. *)
Definition known_active (mail eid : string) (w : World) : bool :=
  match (UserService.getByEmail mail eid w).1 with
  | Returns (Some u) => active u
  | _ => false
  end.

(** ** Worlds to run the handlers in *)

Definition tenantE : Environment :=
  {| env_id := "E"; publicKey := "pk-E";
     authProvider := AuthProviders.EmailAndPassword;
     refreshTokenExpiration := Some "30d";
     appURL := "https://e.example"; appName := "E" |}.

(** A magic-link tenant with refresh disabled. *)
Definition tenantM : Environment :=
  {| env_id := "M"; publicKey := "pk-M";
     authProvider := AuthProviders.MagicLogin;
     refreshTokenExpiration := None;
     appURL := "https://m.example"; appName := "M" |}.

Definition tenantO : Environment :=
  {| env_id := "O"; publicKey := "pk-O";
     authProvider := AuthProviders.Other;
     refreshTokenExpiration := None;
     appURL := "https://o.example"; appName := "O" |}.

Definition alice : User :=
  {| id := "u-alice"; email := "alice@x.com"; fullName := "Alice A";
     password := Some "hash:old"; thonLabsUser := false; emailConfirmed := true;
     active := true; lastSignIn := Some 500%Z; environmentId := Some "E" |}.

(** Invited to tenant [E], has never signed in. *)
Definition bob : User :=
  {| id := "u-bob"; email := "bob@x.com"; fullName := "Bob B";
     password := None; thonLabsUser := false; emailConfirmed := false;
     active := true; lastSignIn := None; environmentId := Some "E" |}.

(** Two users of tenant [E], nothing in the token store. *)
Definition worldWithoutTokens : World :=
  {| users := [alice; bob];
     tokenStorage := ∅;
     environments := [tenantE; tenantM; tenantO];
     environmentData :=
       <[("E", "enableSignUp") := JBool true]>
       (<[("M", "enableSignUp") := JBool true]> ∅);
     outbox := [];
     now := 1000%Z;
     entropy := 0 |}.

Definition request_with (k v : string) : Request :=
  {| headers := <[k := v]> ∅ |}.

Definition reqE : Request := request_with "tl-public-key" "pk-E".
Definition reqM : Request := request_with "tl-public-key" "pk-M".

(** [alice] holds a reset-password token issued earlier. *)
Definition staleResetToken : TokenStorage :=
  {| token := newOpaqueToken 0;
     type := TokenTypes.ResetPassword;
     relationId := "u-alice";
     tok_environmentId := Some "E";
     expires := 2000%Z;
     createdAt := 200%Z |}.

Definition worldWithResetToken : World :=
  {| users := [alice; bob];
     tokenStorage := <[newOpaqueToken 0 := staleResetToken]> ∅;
     environments := [tenantE; tenantM; tenantO];
     environmentData := ∅;
     outbox := [];
     now := 1000%Z;
     entropy := 1 |}.

(** [bob] let his confirmation link expire. *)
Definition expiredConfirmToken : TokenStorage :=
  {| token := newOpaqueToken 0;
     type := TokenTypes.ConfirmEmail;
     relationId := "u-bob";
     tok_environmentId := Some "E";
     expires := 900%Z;
     createdAt := 100%Z |}.

Definition worldWithExpiredToken : World :=
  {| users := [alice; bob];
     tokenStorage := <[newOpaqueToken 0 := expiredConfirmToken]> ∅;
     environments := [tenantE; tenantM; tenantO];
     environmentData := ∅;
     outbox := [];
     now := 1000%Z;
     entropy := 1 |}.

(** [bob] holds a live invitation to tenant [E]. *)
Definition inviteToken : TokenStorage :=
  {| token := newOpaqueToken 0;
     type := TokenTypes.InviteUser;
     relationId := "u-bob";
     tok_environmentId := Some "E";
     expires := 5000%Z;
     createdAt := 100%Z |}.

Definition worldWithInvite : World :=
  {| users := [alice; bob];
     tokenStorage := <[newOpaqueToken 0 := inviteToken]> ∅;
     environments := [tenantE; tenantM; tenantO];
     environmentData := ∅;
     outbox := [];
     now := 1000%Z;
     entropy := 1 |}.

(** The follow-up credential the invitation flow owes to a tenant. *)
Definition followUp_kind (p : AuthProviders.t) : option TokenTypes.t :=
  match p with
  | AuthProviders.EmailAndPassword => Some TokenTypes.ResetPassword
  | AuthProviders.MagicLogin => Some TokenTypes.MagicLogin
  | AuthProviders.Other => None
  end.

(** The row a signup persists. *)
Definition signedUp (hash : string → string) (payload : SignUpPayload) (w : World) : User :=
  {| id := newOpaqueToken (entropy w);
     email := sp_email payload;
     fullName := sp_fullName payload;
     password := if truthy_opt_string (sp_password payload)
                 then hash <$> sp_password payload else None;
     thonLabsUser := false;
     emailConfirmed := false;
     active := true;
     lastSignIn := None;
     environmentId := None |}.

Definition annWithPassword : SignUpPayload :=
  {| sp_fullName := "Ann A"; sp_email := "a@x.com"; sp_password := Some "p" |}.

Definition benWithoutPassword : SignUpPayload :=
  {| sp_fullName := "Ben B"; sp_email := "b@x.com"; sp_password := None |}.

(** A database without users. *)
Definition worldWithoutUsers : World :=
  {| users := [];
     tokenStorage := ∅;
     environments := [tenantE];
     environmentData := ∅;
     outbox := [];
     now := 1000%Z;
     entropy := 0 |}.

(** ** [AuthController.login]

    [authService.authenticateFromEmailAndPassword] and
    [authService.sendMagicLink] are not among the sources: the handler is
    taken over any two services of their shape. *)

Inductive LoginResponse :=
  | SessionData (d : option AuthTokens)
  | EmailSentAck.

Module AuthControllerLogin.
Section WithServices.

Variable authenticateFromEmailAndPassword :
  string → string → string → Handler (option (DataReturn AuthTokens)).
Variable sendMagicLink :
  string → Environment → Handler (option (DataReturn unit)).

Definition login (payload_email : string) (payload_password : option string)
    (req : Request) : Handler LoginResponse :=
  (envR <- EnvironmentService.getByPublicKeyFromRequest req;;
   if bool_decide (statusCode envR = Some StatusCodes.Unauthorized)
   then UnauthorizedException (error envR)
   else
     match data envR with
     | None => throw TypeError
     | Some environment =>
         if bool_decide (authProvider environment = AuthProviders.EmailAndPassword)
            && truthy_opt_string payload_password
         then
           result <- authenticateFromEmailAndPassword payload_email
                       (default "" payload_password) (env_id environment);;
           if bool_decide (is_Some (result ≫= error))
           then exceptionsMapper (result ≫= statusCode) (result ≫= error)
           else
             match result with
             | None => throw TypeError
             | Some r => ret (SessionData (data r))
             end
         else if bool_decide (authProvider environment = AuthProviders.MagicLogin)
         then
           result <- sendMagicLink payload_email environment;;
           if bool_decide (is_Some (result ≫= error))
           then exceptionsMapper (result ≫= statusCode) (result ≫= error)
           else ret EmailSentAck
         else
           throw (HttpException StatusCodes.Unauthorized
                    (Message (Some ErrorMessages.InvalidCredentials)))
     end)%handler.

End WithServices.
End AuthControllerLogin.

(** ** The earlier revision of the controller, continued *)

Module LegacyController.
Section WithPlatform.
Context {platform : Platform}.

Definition validateTokenResetPassword (req : Request) (tok : string)
    : Handler Response :=
  (envR <- EnvironmentService.getByPublicKeyFromRequest req;;
   match data envR with
   | None => UnauthorizedException (Some ErrorMessages.Unauthorized)
   | Some environment =>
       tokenValidation <- AuthService.validateUserTokenExpiration tok TokenTypes.ResetPassword;;
       if bool_decide (is_Some (error tokenValidation))
       then exceptionsMapper (statusCode tokenValidation) (error tokenValidation)
       else ret NoContent
   end)%handler.

(** The result of [Promise.all] is dropped: what the password update
    answers is not looked at. *)
Definition updateTokenResetPassword (req : Request) (tok : string)
    (payload_password : string) : Handler Response :=
  (envR <- EnvironmentService.getByPublicKeyFromRequest req;;
   match data envR with
   | None => UnauthorizedException (Some ErrorMessages.Unauthorized)
   | Some environment =>
       tokenValidation <- AuthService.validateUserTokenExpiration tok TokenTypes.ResetPassword;;
       if bool_decide (is_Some (statusCode tokenValidation))
       then exceptionsMapper (statusCode tokenValidation) (error tokenValidation)
       else
         match data tokenValidation with
         | None => TokenStorageService.delete tok;;; throw TypeError
         | Some row =>
             TokenStorageService.delete tok;;;
             UserService.updatePassword (relationId row)
               (Some (env_id environment)) payload_password;;;
             ret NoContent
         end
   end)%handler.

Definition confirmEmail (req : Request) (tok : string) : Handler Response :=
  (envR <- EnvironmentService.getByPublicKeyFromRequest req;;
   match data envR with
   | None => UnauthorizedException (Some ErrorMessages.Unauthorized)
   | Some environment =>
       tokenValidation <- AuthService.validateUserTokenExpiration tok TokenTypes.ConfirmEmail;;
       if bool_decide (is_Some (statusCode tokenValidation))
       then exceptionsMapper (statusCode tokenValidation) (error tokenValidation)
       else
         match data tokenValidation with
         | None => throw TypeError
         | Some row =>
             UserService.updateEmailConfirmation (relationId row)
               (Some (env_id environment));;;
             ret NoContent
         end
   end)%handler.

End WithPlatform.
End LegacyController.

(** ** [SchemaValidatorGuard] *)

Module ValidatorSources.
Inductive t := body | query | params | headers.
#[global] Instance eq_dec : EqDecision t.
Proof. solve_decision. Defined.
End ValidatorSources.

(** What [schema.parse] does with a payload: it returns, or it throws an
    error that may carry [issues]. *)
Inductive ParseOutcome :=
  | Parsed
  | ParseThrows (issues : option (list string)).

Record SchemaValidatorProps := mkSchemaValidatorProps {
  schema : JsObject → ParseOutcome;
  validatorSources : list ValidatorSources.t;
}.

(** The decorator: [validatorSources] defaults to [['body']]. *)
Definition SchemaValidator (schema : JsObject → ParseOutcome)
    (validatorSources : option (list ValidatorSources.t)) : SchemaValidatorProps :=
  {| schema := schema;
     validatorSources := default [ValidatorSources.body] validatorSources |}.

(** The parts of the HTTP request the guard reads; a part may be missing. *)
Record HttpRequest := mkHttpRequest {
  part : ValidatorSources.t → option JsObject;
}.

(** What the guard has written to the response. *)
Record HttpResponse := mkHttpResponse {
  res_status : option StatusCodes.t;
  res_errors : option (list string);
}.

Module SchemaValidatorGuard.

(** [payload = { ...payload, ...req[validatorSource] }], source after
    source: spreading a missing part adds nothing, and a property of the
    part replaces the one the payload has. *)
Definition mergeSources (req : HttpRequest) (sources : list ValidatorSources.t)
    : JsObject :=
  fold_left (λ payload validatorSource,
               default ∅ (part req validatorSource) ∪ payload)
            sources ∅.

Definition canActivate (schemaValidatorProps : option SchemaValidatorProps)
    (req : HttpRequest) (res : HttpResponse) : bool * HttpResponse :=
  match schemaValidatorProps with
  | None => (true, res)
  | Some props =>
      let payload := mergeSources req (validatorSources props) in
      match schema props payload with
      | Parsed => (true, res)
      | ParseThrows issues =>
          (false, {| res_status := Some StatusCodes.BadRequest;
                     res_errors := Some (default [] issues) |})
      end
  end.

End SchemaValidatorGuard.

(** ** [EmailTemplateService] *)

Record EmailTemplate := mkEmailTemplate {
  et_id : string;
  et_type : EmailTemplates.t;
  et_content : string;
  et_name : string;
  et_subject : string;
  et_fromEmail : string;
  et_fromName : string;
  et_preview : string;
  et_replyTo : string;
  et_environmentId : string;
}.

(** One entry of [emailTemplatesMapper]. *)
Record TemplateDefaults := mkTemplateDefaults {
  td_content : string;
  td_name : string;
  td_subject : string;
  td_fromEmail : string;
  td_preview : string;
  td_replyTo : string;
}.

(** The mapper, the rendering of a template, lodash's [unescape],
    [getRootDomain] and the host name of a URL ([new URL(...)] throws on a
    string that is no URL) are imported by the source and taken as they
    come. *)
Class TemplatePlatform := {
  emailTemplatesMapper : list (EmailTemplates.t * TemplateDefaults);
  render : string → string;
  unescape : string → string;
  getRootDomain : string → string;
  url_hostname : string → option string;
}.

(** The [emailTemplate] table, the environments with their projects, and
    the supply of row identifiers. *)
Record TemplateWorld := mkTemplateWorld {
  emailTemplates : list EmailTemplate;
  tw_environments : list Environment;
  tw_nextId : nat;
}.

Definition with_et_id (i : string) (t : EmailTemplate) : EmailTemplate :=
  mkEmailTemplate i (et_type t) (et_content t) (et_name t) (et_subject t)
    (et_fromEmail t) (et_fromName t) (et_preview t) (et_replyTo t)
    (et_environmentId t).

(** The columns of a template other than its identifier. *)
Definition without_id (t : EmailTemplate) : EmailTemplate := with_et_id "" t.

Module EmailTemplateService.
Section WithPlatform.
Context {templatePlatform : TemplatePlatform}.

Definition getByType (ty : EmailTemplates.t) (eid : string) (tw : TemplateWorld)
    : option EmailTemplate :=
  find (λ t, bool_decide (et_type t = ty) && bool_decide (et_environmentId t = eid))
       (emailTemplates tw).

(** [environmentService.getDetailedById] is not among the sources: the
    environment of that id with its project, or null. *)
Definition getDetailedById (eid : string) (tw : TemplateWorld) : option Environment :=
  find (λ e, bool_decide (env_id e = eid)) (tw_environments tw).

(** [databaseService.emailTemplate.create]: the row gets the next
    identifier. *)
Definition emailTemplate_create (t : EmailTemplate) (tw : TemplateWorld) : TemplateWorld :=
  {| emailTemplates := emailTemplates tw ++ [with_et_id (pretty (tw_nextId tw)) t];
     tw_environments := tw_environments tw;
     tw_nextId := S (tw_nextId tw) |}.

Definition emailTemplate_deleteMany (eid : string) (tw : TemplateWorld) : TemplateWorld :=
  {| emailTemplates :=
       filter (λ t, et_environmentId t ≠ eid) (emailTemplates tw);
     tw_environments := tw_environments tw;
     tw_nextId := tw_nextId tw |}.

(** The row the loop creates for one entry of the mapper. *)
Definition defaultTemplate (environment : Environment) (emailDomain : string)
    (eid : string) (entry : EmailTemplates.t * TemplateDefaults) : EmailTemplate :=
  {| et_id := "";
     et_type := entry.1;
     et_content := unescape (render (td_content entry.2));
     et_name := td_name entry.2;
     et_subject := td_subject entry.2;
     et_fromEmail := td_fromEmail entry.2 +:+ "@" +:+ emailDomain;
     et_fromName := appName environment +:+ " Team";
     et_preview := td_preview entry.2;
     et_replyTo := td_replyTo entry.2;
     et_environmentId := eid |}.

(** The [try] block deletes first; reading the URL of a missing
    environment and parsing a string that is no URL both throw after the
    deletion, and the [catch] answers [Internal]. On success nothing is
    returned. *)
Definition createDefaultTemplates (eid : string) (tw : TemplateWorld)
    : option (DataReturn unit) * TemplateWorld :=
  let tw1 := emailTemplate_deleteMany eid tw in
  match getDetailedById eid tw1 with
  | None => (Some (withError StatusCodes.Internal ErrorMessages.InternalError), tw1)
  | Some environment =>
      match url_hostname (appURL environment) with
      | None => (Some (withError StatusCodes.Internal ErrorMessages.InternalError), tw1)
      | Some hostname =>
          let emailDomain := getRootDomain hostname in
          (None,
           fold_left (λ tw' entry,
                        emailTemplate_create
                          (defaultTemplate environment emailDomain eid entry) tw')
                     emailTemplatesMapper tw1)
      end
  end.

End WithPlatform.
End EmailTemplateService.

(** The templates of one environment. *)
Definition templates_of (eid : string) (tw : TemplateWorld) : list EmailTemplate :=
  filter (λ t, et_environmentId t = eid) (emailTemplates tw).

(** [alice] signs up again on her tenant. *)
Definition aliceAgain : CreatePayload :=
  {| cp_fullName := "Alice Again"; cp_email := "alice@x.com";
     cp_password := Some "pw"; cp_environmentId := "E" |}.

(** A newcomer who sends an empty password. *)
Definition carolEmptyPassword : CreatePayload :=
  {| cp_fullName := "Carol C"; cp_email := "carol@x.com";
     cp_password := Some ""; cp_environmentId := "E" |}.

(** A request that presents no tenant key. *)
Definition reqWithoutKey : Request := {| headers := ∅ |}.

(** Tenant [O] has no [enableSignUp] setting. *)
Definition reqO : Request := request_with "tl-public-key" "pk-O".

(** [bob]'s invitation, expired. *)
Definition expiredInviteToken : TokenStorage :=
  {| token := newOpaqueToken 0;
     type := TokenTypes.InviteUser;
     relationId := "u-bob";
     tok_environmentId := Some "E";
     expires := 900%Z;
     createdAt := 100%Z |}.

Definition worldWithExpiredInvite : World :=
  {| users := [alice; bob];
     tokenStorage := <[newOpaqueToken 0 := expiredInviteToken]> ∅;
     environments := [tenantE; tenantM; tenantO];
     environmentData := ∅;
     outbox := [];
     now := 1000%Z;
     entropy := 1 |}.

(** A live confirm-email token of a user who is in no tenant. *)
Definition strayConfirmToken : TokenStorage :=
  {| token := newOpaqueToken 0;
     type := TokenTypes.ConfirmEmail;
     relationId := "u-stray";
     tok_environmentId := Some "E";
     expires := 5000%Z;
     createdAt := 100%Z |}.

Definition worldWithStrayToken : World :=
  {| users := [alice; bob];
     tokenStorage := <[newOpaqueToken 0 := strayConfirmToken]> ∅;
     environments := [tenantE; tenantM; tenantO];
     environmentData := ∅;
     outbox := [];
     now := 1000%Z;
     entropy := 1 |}.

(** [alice] signs up again through the controller. *)
Definition aliceSignsUpAgain : SignUpPayload :=
  {| sp_fullName := "Alice Again"; sp_email := "alice@x.com"; sp_password := Some "pw" |}.

(** A tenant whose refresh lifetime is the empty string. *)
Definition tenantBlank : Environment :=
  {| env_id := "B"; publicKey := "pk-B";
     authProvider := AuthProviders.EmailAndPassword;
     refreshTokenExpiration := Some "";
     appURL := "https://b.example"; appName := "B" |}.

Definition worldWithBlankTenant : World :=
  {| users := [];
     tokenStorage := ∅;
     environments := [tenantBlank];
     environmentData := ∅;
     outbox := [];
     now := 1000%Z;
     entropy := 0 |}.

(** Services to run [login] with: the password service answers with a
    session, the magic-link service with nothing. *)
Definition exampleAuthenticate : string → string → string → Handler (option (DataReturn AuthTokens)) :=
  λ mail pw eid,
    ret (Some (withData {| accessToken := "access:" +:+ mail; refreshToken := None |})).

Definition exampleSendMagicLink : string → Environment → Handler (option (DataReturn unit)) :=
  λ mail e, ret None.

(** [mallory] is a user of tenant [E] who has been deactivated. *)
Definition mallory : User :=
  {| id := "u-mallory"; email := "mallory@x.com"; fullName := "Mallory M";
     password := Some "hash:m"; thonLabsUser := false; emailConfirmed := true;
     active := false; lastSignIn := None; environmentId := Some "E" |}.

Definition worldWithInactiveUser : World :=
  {| users := [mallory];
     tokenStorage := ∅;
     environments := [tenantE; tenantM];
     environmentData := ∅;
     outbox := [];
     now := 1000%Z;
     entropy := 0 |}.

(** [bob] holds a live confirmation link. *)
Definition liveConfirmToken : TokenStorage :=
  {| token := newOpaqueToken 0;
     type := TokenTypes.ConfirmEmail;
     relationId := "u-bob";
     tok_environmentId := None;
     expires := 5000%Z;
     createdAt := 100%Z |}.

Definition worldWithConfirmToken : World :=
  {| users := [alice; bob];
     tokenStorage := <[newOpaqueToken 0 := liveConfirmToken]> ∅;
     environments := [tenantE; tenantM; tenantO];
     environmentData := ∅;
     outbox := [];
     now := 1000%Z;
     entropy := 1 |}.

(** A schema that asks for an [email] property, and a request whose body
    has it while its params carry another one. *)
Definition requiresEmail : JsObject → ParseOutcome :=
  λ payload,
    match payload !! "email" with
    | Some (JStr _) => Parsed
    | _ => ParseThrows (Some ["email: Required"])
    end.

Definition requestWithBody : HttpRequest :=
  {| part := λ s,
       match s with
       | ValidatorSources.body => Some (<["email" := JStr "a@x.com"]> ∅)
       | ValidatorSources.params => Some (<["email" := JNum 7]> ∅)
       | _ => None
       end |}.

Definition untouchedResponse : HttpResponse :=
  {| res_status := None; res_errors := None |}.

(** A tenant whose application URL was saved without its scheme. *)
Definition tenantN : Environment :=
  {| env_id := "N"; publicKey := "pk-N";
     authProvider := AuthProviders.EmailAndPassword;
     refreshTokenExpiration := None;
     appURL := "n.example"; appName := "N" |}.

(** The host names of the examples: [strip_prefix p s] is what follows [p]
    in [s], and [leading_host s] splits [s] after its leading lower-case
    letters, digits, dots and hyphens. *)
Fixpoint strip_prefix (p s : string) : option string :=
  match p, s with
  | EmptyString, _ => Some s
  | String a p', String b s' =>
      if bool_decide (a = b) then strip_prefix p' s' else None
  | String _ _, EmptyString => None
  end.

Definition host_char (c : Ascii.ascii) : bool :=
  let n := Ascii.nat_of_ascii c in
  ((97 <=? n)%nat && (n <=? 122)%nat) || ((48 <=? n)%nat && (n <=? 57)%nat)
  || (n =? 46)%nat || (n =? 45)%nat.

Fixpoint leading_host (s : string) : string * string :=
  match s with
  | EmptyString => (EmptyString, EmptyString)
  | String c rest =>
      if host_char c
      then (String c (leading_host rest).1, (leading_host rest).2)
      else (EmptyString, s)
  end.

(** The host name of a string [https://host] or [http://host], with
    nothing or a path (a slash, character 47) after the host, as [new URL]
    gives it; a string with no scheme is no URL, and [new URL] throws. The
    examples present no string of another shape. *)
Definition example_url_hostname (u : string) : option string :=
  match (match strip_prefix "https://" u with
         | Some rest => Some rest
         | None => strip_prefix "http://" u
         end) with
  | None => None
  | Some rest =>
      let host := (leading_host rest).1 in
      match host, (leading_host rest).2 with
      | EmptyString, _ => None
      | _, EmptyString => Some host
      | _, String c _ => if (Ascii.nat_of_ascii c =? 47)%nat then Some host else None
      end
  end.

(** A template platform and a table to run the template service on. *)
Definition exampleTemplatePlatform : TemplatePlatform :=
  {| emailTemplatesMapper :=
       [ (EmailTemplates.Welcome,
          {| td_content := "<Welcome/>"; td_name := "Welcome"; td_subject := "Welcome";
             td_fromEmail := "hello"; td_preview := "Hi"; td_replyTo := "no-reply" |});
         (EmailTemplates.ForgotPassword,
          {| td_content := "<ForgotPassword/>"; td_name := "Forgot Password";
             td_subject := "Reset your password"; td_fromEmail := "security";
             td_preview := "Reset"; td_replyTo := "no-reply" |}) ];
     render := λ c, c;
     unescape := λ c, c;
     getRootDomain := λ h, h;
     url_hostname := example_url_hostname |}.

Definition customWelcome : EmailTemplate :=
  {| et_id := "t-1"; et_type := EmailTemplates.Welcome; et_content := "custom";
     et_name := "Custom"; et_subject := "Custom"; et_fromEmail := "me@e.example";
     et_fromName := "Me"; et_preview := ""; et_replyTo := "";
     et_environmentId := "E" |}.

Definition otherTenantTemplate : EmailTemplate :=
  {| et_id := "t-2"; et_type := EmailTemplates.Welcome; et_content := "theirs";
     et_name := "Theirs"; et_subject := "Theirs"; et_fromEmail := "them@m.example";
     et_fromName := "Them"; et_preview := ""; et_replyTo := "";
     et_environmentId := "M" |}.

Definition schemelessTenantTemplate : EmailTemplate :=
  {| et_id := "t-3"; et_type := EmailTemplates.Welcome; et_content := "ours";
     et_name := "Ours"; et_subject := "Ours"; et_fromEmail := "us@n.example";
     et_fromName := "Us"; et_preview := ""; et_replyTo := "";
     et_environmentId := "N" |}.

(** Three tenants with one template each; the next row gets identifier
    [4]. *)
Definition exampleTemplateWorld : TemplateWorld :=
  {| emailTemplates := [customWelcome; otherTenantTemplate; schemelessTenantTemplate];
     tw_environments := [tenantE; tenantM; tenantN];
     tw_nextId := 4 |}.

(** [alice]'s reset-password token after its expiry. *)
Definition worldAfterExpiry : World := set_now (Z.add 5000) worldWithResetToken.

(** * Properties *)

(** ** The handler monad *)

Lemma bind_returns {A B} (m : Handler A) (k : A → Handler B) w a w' :
  m w = (Returns a, w') → bind m k w = k a w'.
Proof. intros Hm. unfold bind. by rewrite Hm. Qed.

Lemma bind_throws {A B} (m : Handler A) (k : A → Handler B) w e w' :
  m w = (Throws e, w') → bind m k w = (Throws e, w').
Proof. intros Hm. unfold bind. by rewrite Hm. Qed.

Lemma bind_gets {A B} (f : World → A) (k : A → Handler B) w :
  bind (gets f) k w = k (f w) w.
Proof. reflexivity. Qed.

Lemma bind_modify {B} (f : World → World) (k : unit → Handler B) w :
  bind (modify f) k w = k tt (f w).
Proof. reflexivity. Qed.

Lemma bind_ret {A B} (a : A) (k : A → Handler B) w :
  bind (ret a) k w = k a w.
Proof. reflexivity. Qed.

(** ** The supply of opaque values *)

Lemma newOpaqueToken_inj n m : newOpaqueToken n = newOpaqueToken m → n = m.
Proof. unfold newOpaqueToken. apply (inj pretty). Qed.

Lemma supply_step_refl w : supply_step w w.
Proof. split; [lia | auto]. Qed.

Lemma supply_step_trans w1 w2 w3 :
  supply_step w1 w2 → supply_step w2 w3 → supply_step w1 w3.
Proof.
  intros [Hle12 H12] [Hle23 H23]. split; [lia |].
  intros k Hk. destruct (H23 k Hk) as [Hin | (n & Hn1 & Hn2 & ->)].
  - destruct (H12 k Hin) as [Hin' | (n & Hn1 & Hn2 & ->)]; [by left |].
    right. exists n. repeat split; [done | lia].
  - right. exists n. repeat split; [lia | done].
Qed.

Lemma well_formed_step w w' : well_formed w → supply_step w w' → well_formed w'.
Proof.
  intros Hwf [Hle Hstep] k row Hk.
  destruct (Hstep k) as [[row' Hin] | (n & Hn1 & Hn2 & ->)]; [by eexists | |].
  - destruct (Hwf k row' Hin) as (n & Hn & ->). exists n. split; [lia | done].
  - exists n. done.
Qed.

Lemma consumed_step k w w' : consumed k w → supply_step w w' → consumed k w'.
Proof.
  intros [Hnone (n & Hn & ->)] [Hle Hstep]. split.
  - destruct (tokenStorage w' !! newOpaqueToken n) as [row|] eqn:Hk; [| done].
    destruct (Hstep (newOpaqueToken n)) as [[row' Hin] | (m & Hm1 & Hm2 & Heq)].
    + by eexists.
    + congruence.
    + apply newOpaqueToken_inj in Heq. lia.
  - exists n. split; [lia | done].
Qed.

(** ** Every handler draws its tokens from the supply *)

Lemma disciplined_same {A} (m : Handler A) :
  (∀ w, (m w).2 = w) → disciplined m.
Proof. intros Hm w. rewrite Hm. apply supply_step_refl. Qed.

Lemma disciplined_ret {A} (a : A) : disciplined (ret a).
Proof. by apply disciplined_same. Qed.

Lemma disciplined_throw {A} e : disciplined (@throw A e).
Proof. by apply disciplined_same. Qed.

Lemma disciplined_gets {A} (f : World → A) : disciplined (gets f).
Proof. by apply disciplined_same. Qed.

Lemma disciplined_exceptionsMapper {A} sc e : disciplined (@exceptionsMapper A sc e).
Proof. destruct sc; apply disciplined_throw. Qed.

Lemma disciplined_bind {A B} (m : Handler A) (k : A → Handler B) :
  disciplined m → (∀ a, disciplined (k a)) → disciplined (bind m k).
Proof.
  intros Hm Hk w. unfold bind. specialize (Hm w).
  destruct (m w) as [[a | e] w1]; simpl in *; [| done].
  eapply supply_step_trans; [exact Hm | apply Hk].
Qed.

Lemma disciplined_catch {A} (m : Handler A) (h : Exception → Handler A) :
  disciplined m → (∀ e, disciplined (h e)) → disciplined (catch m h).
Proof.
  intros Hm Hh w. unfold catch. specialize (Hm w).
  destruct (m w) as [[a | e] w1]; simpl in *; [done |].
  eapply supply_step_trans; [exact Hm | apply Hh].
Qed.

(** A write that leaves the token store and the supply alone. *)
Lemma disciplined_frame {A} (m : Handler A) :
  (∀ w, tokenStorage (m w).2 = tokenStorage w ∧ entropy (m w).2 = entropy w) →
  disciplined m.
Proof.
  intros Hm w. destruct (Hm w) as [Hts Hen]. split; [lia |].
  intros k Hk. left. by rewrite <- Hts.
Qed.

Lemma disciplined_send m : disciplined (EmailService.send m).
Proof. by apply disciplined_frame. Qed.

Lemma disciplined_tick dt : disciplined (modify (set_now (Z.add dt))).
Proof. by apply disciplined_frame. Qed.

Lemma disciplined_user_update uid f : disciplined (user_update uid f).
Proof.
  apply disciplined_frame. intros w. unfold user_update.
  by destruct (existsb _ _).
Qed.

Lemma disciplined_user_create d : disciplined (user_create d).
Proof.
  intros w. split; simpl; [lia |]. intros k Hk. by left.
Qed.

Section Disciplined.
Context {platform : Platform}.

Lemma disciplined_create p : disciplined (TokenStorageService.create p).
Proof.
  intros w. split; simpl; [lia |]. intros k Hk.
  destruct (decide (newOpaqueToken (entropy w) = k)) as [<- | Hne].
  - right. exists (entropy w). repeat split; lia.
  - left. by rewrite lookup_insert_ne in Hk.
Qed.

Lemma disciplined_delete tok : disciplined (TokenStorageService.delete tok).
Proof.
  intros w. split; simpl; [lia |]. intros k [row Hk]. left.
  apply lookup_delete_Some in Hk as [_ Hk]. by eexists.
Qed.

Lemma disciplined_deleteMany ty rid : disciplined (TokenStorageService.deleteMany ty rid).
Proof.
  intros w. split; simpl; [lia |]. intros k [row Hk]. left.
  apply map_lookup_filter_Some in Hk as [Hk _]. by eexists.
Qed.

Lemma disciplined_updatePassword uid eid pw :
  disciplined (UserService.updatePassword uid eid pw).
Proof.
  apply disciplined_frame. intros w. unfold UserService.updatePassword.
  by destruct (existsb _ _).
Qed.

Lemma disciplined_updateEmailConfirmation uid eid :
  disciplined (UserService.updateEmailConfirmation uid eid).
Proof.
  apply disciplined_frame. intros w. unfold UserService.updateEmailConfirmation.
  by destruct (existsb _ _).
Qed.

End Disciplined.

Create HintDb disciplined.

#[local] Hint Resolve disciplined_ret disciplined_throw disciplined_gets
  disciplined_exceptionsMapper disciplined_send disciplined_tick
  disciplined_user_update disciplined_user_create disciplined_create
  disciplined_delete disciplined_deleteMany disciplined_updatePassword
  disciplined_updateEmailConfirmation : disciplined.

(** Walks down a handler: binds, branches and the primitives above. *)
Ltac disciplined_walk :=
  repeat first
    [ progress eauto with disciplined
    | apply disciplined_bind; [| intros ?]
    | apply disciplined_catch; [| intros ?]
    | match goal with
      | |- disciplined (match ?x with _ => _ end) => destruct x
      end ].

Section DisciplinedHandlers.
Context {platform : Platform}.

Lemma disciplined_sendConfirmationEmail uid eid :
  disciplined (UserService.sendConfirmationEmail uid eid).
Proof.
  unfold UserService.sendConfirmationEmail, UserService.getById.
  disciplined_walk.
Qed.

Lemma disciplined_UserService_create payload :
  disciplined (UserService.create payload).
Proof.
  unfold UserService.create, UserService.getByEmail, EnvironmentService.getById.
  disciplined_walk.
Qed.

Lemma disciplined_AuthService_reAuthenticate tok eid :
  disciplined (AuthService.reAuthenticateFromRefreshToken tok eid).
Proof.
  unfold AuthService.reAuthenticateFromRefreshToken, UserService.getById,
    EnvironmentService.getById, TokenStorageService.createAuthTokens.
  disciplined_walk.
Qed.

Lemma disciplined_signUp payload req :
  disciplined (AuthController.signUp payload req).
Proof.
  pose proof disciplined_UserService_create.
  unfold AuthController.signUp, UnauthorizedException,
    EnvironmentService.getByPublicKeyFromRequest, EnvironmentDataService.get,
    TokenStorageService.createAuthTokens.
  disciplined_walk.
Qed.

Lemma disciplined_reAuthenticateFromRefreshToken tok req :
  disciplined (AuthController.reAuthenticateFromRefreshToken tok req).
Proof.
  pose proof disciplined_AuthService_reAuthenticate.
  unfold AuthController.reAuthenticateFromRefreshToken, EnvironmentService.getById.
  disciplined_walk.
Qed.

Lemma disciplined_requestResetPassword req mail :
  disciplined (AuthController.requestResetPassword req mail).
Proof.
  unfold AuthController.requestResetPassword, UnauthorizedException,
    UserService.getByEmail, EnvironmentService.getByPublicKeyFromRequest.
  disciplined_walk.
Qed.

Lemma disciplined_validateTokenResetPassword tok :
  disciplined (AuthController.validateTokenResetPassword tok).
Proof.
  unfold AuthController.validateTokenResetPassword,
    AuthService.validateUserTokenExpiration, UserService.isActiveUser.
  disciplined_walk.
Qed.

Lemma disciplined_updateTokenResetPassword req tok pw :
  disciplined (AuthController.updateTokenResetPassword req tok pw).
Proof.
  unfold AuthController.updateTokenResetPassword, UnauthorizedException,
    AuthService.validateUserTokenExpiration,
    EnvironmentService.getByPublicKeyFromRequest.
  disciplined_walk.
Qed.

Lemma disciplined_confirmEmail tok :
  disciplined (AuthController.confirmEmail tok).
Proof.
  pose proof disciplined_sendConfirmationEmail.
  unfold AuthController.confirmEmail, AuthController.confirmEmail_over,
    AuthController.confirmEmail_tokenValidation_over,
    AuthService.validateUserTokenExpiration, AuthService.generateResetPasswordToken,
    AuthService.generateMagicLoginToken, UserService.getById,
    EnvironmentService.getById.
  disciplined_walk.
Qed.

Lemma disciplined_handle c : disciplined (handle c).
Proof.
  destruct c; simpl;
    auto using disciplined_signUp, disciplined_reAuthenticateFromRefreshToken,
      disciplined_requestResetPassword, disciplined_validateTokenResetPassword,
      disciplined_updateTokenResetPassword, disciplined_confirmEmail.
  disciplined_walk.
Qed.

Lemma run_supply_step cs w : supply_step w (run cs w).
Proof.
  revert w. induction cs as [| c cs IH]; intros w; simpl.
  - apply supply_step_refl.
  - eapply supply_step_trans; [apply disciplined_handle | apply IH].
Qed.

(** Reachable worlds are well formed. *)
Lemma run_well_formed cs w : well_formed w → well_formed (run cs w).
Proof. intros Hwf. eapply well_formed_step; [done | apply run_supply_step]. Qed.

Lemma well_formed_empty_store w : tokenStorage w = ∅ → well_formed w.
Proof. intros Hts k row. by rewrite Hts, lookup_empty. Qed.

(** Whatever the history, a world that started with an empty store is well
    formed. *)
Lemma reachable_well_formed cs w : tokenStorage w = ∅ → well_formed (run cs w).
Proof. intros Hts. by apply run_well_formed, well_formed_empty_store. Qed.

(** A consumed token stays consumed, whatever requests follow. *)
Lemma run_consumed k cs w : consumed k w → consumed k (run cs w).
Proof. intros Hc. eapply consumed_step; [done | apply run_supply_step]. Qed.

End DisciplinedHandlers.

(** ** Reset-password request: the answer does not tell accounts apart *)

Section RequestResetPassword.

Lemma requestResetPassword_unknown w req mail e :
  EnvironmentService.getByPublicKeyFromRequest req w = (Returns (withData e), w) →
  known_active mail (env_id e) w = false →
  AuthController.requestResetPassword req mail w = (Returns NoContent, w).
Proof.
  intros Henv Hact. unfold AuthController.requestResetPassword.
  rewrite (bind_returns _ _ _ _ _ Henv). simpl.
  unfold known_active, UserService.getByEmail in *. rewrite bind_gets.
  simpl in Hact. destruct (find _ _) as [u |]; [| done].
  by rewrite Hact.
Qed.

(** The world once the request of an active user has been served. *)
Lemma requestResetPassword_known w req mail e u :
  EnvironmentService.getByPublicKeyFromRequest req w = (Returns (withData e), w) →
  UserService.getByEmail mail (env_id e) w = (Returns (Some u), w) →
  active u = true →
  ∃ row,
    row = {| token := newOpaqueToken (entropy w);
             type := TokenTypes.ResetPassword;
             relationId := id u;
             tok_environmentId := Some (env_id e);
             expires := (now w + 1800000)%Z;
             createdAt := now w |} ∧
    AuthController.requestResetPassword req mail w =
      (Returns NoContent,
       set_outbox (λ o, o ++ [ {| mail_userId := Some (id u);
                                  to := email u;
                                  emailTemplateType := EmailTemplates.ForgotPassword;
                                  mail_environmentId := env_id e;
                                  mail_data := Some (<["token" := JStr (token row)]> ∅);
                                  scheduledAt := None |} ])
         (set_entropy S
            (set_tokenStorage (insert (token row) row)
               (set_tokenStorage
                  (filter (λ kv, ¬ (type kv.2 = TokenTypes.ResetPassword
                                    ∧ relationId kv.2 = id u))) w)))).
Proof.
  intros Henv Hu Hact. eexists. split; [reflexivity |].
  unfold AuthController.requestResetPassword.
  rewrite (bind_returns _ _ _ _ _ Henv). simpl.
  rewrite (bind_returns _ _ _ _ _ Hu). rewrite Hact.
  reflexivity.
Qed.

Lemma requestResetPassword_returns w req mail e :
  EnvironmentService.getByPublicKeyFromRequest req w = (Returns (withData e), w) →
  (AuthController.requestResetPassword req mail w).1 = Returns NoContent.
Proof.
  intros Henv. destruct (known_active mail (env_id e) w) eqn:Hact.
  - unfold known_active in Hact.
    destruct (UserService.getByEmail mail (env_id e) w) as [r w1] eqn:Hu.
    assert (w1 = w) as -> by (by inversion Hu).
    simpl in Hact. destruct r as [[u |] | ?]; try done.
    destruct (requestResetPassword_known w req mail e u Henv Hu Hact)
      as (row & _ & ->). done.
  - by rewrite (requestResetPassword_unknown w req mail e Henv Hact).
Qed.

(** C1: with a valid tenant key the reset-password request gives the same
    answer, the empty acknowledgment, in any two worlds, whether or not the
    email belongs to an active user of the tenant there, and never an
    error about the user; when the user is absent or inactive the world is
    left as it was: no token is issued and no email is sent. *)
Theorem requestResetPassword_same_ack w1 w2 req mail e1 e2 :
  EnvironmentService.getByPublicKeyFromRequest req w1 = (Returns (withData e1), w1) →
  EnvironmentService.getByPublicKeyFromRequest req w2 = (Returns (withData e2), w2) →
  (AuthController.requestResetPassword req mail w1).1 =
    (AuthController.requestResetPassword req mail w2).1 ∧
  (AuthController.requestResetPassword req mail w1).1 = Returns NoContent ∧
  (known_active mail (env_id e1) w1 = false →
   AuthController.requestResetPassword req mail w1 = (Returns NoContent, w1)).
Proof.
  intros Henv1 Henv2.
  rewrite (requestResetPassword_returns w1 req mail e1 Henv1).
  rewrite (requestResetPassword_returns w2 req mail e2 Henv2).
  split; [done |]. split; [done |].
  apply requestResetPassword_unknown, Henv1.
Qed.

(** The earlier revision answers [NotFound] for an unknown email. *)
Lemma Legacy_requestResetPassword_unknown {platform : Platform} w req mail e :
  EnvironmentService.getByPublicKeyFromRequest req w = (Returns (withData e), w) →
  UserService.getByEmail mail (env_id e) w = (Returns None, w) →
  Legacy.requestResetPassword req mail w =
    (Throws (HttpException StatusCodes.NotFound
               (Message (Some ErrorMessages.UserNotFound))), w).
Proof.
  intros Henv Hu. unfold Legacy.requestResetPassword.
  rewrite (bind_returns _ _ _ _ _ Henv). simpl.
  by rewrite (bind_returns _ _ _ _ _ Hu).
Qed.

End RequestResetPassword.

(** [alice@x.com] is an active user of [E] in one world and unknown in the
    other: the answers are the same, and the second world is untouched. *)
Lemma requestResetPassword_same_ack_witness :
  (AuthController.requestResetPassword reqE "alice@x.com" worldWithoutTokens).1 =
    (AuthController.requestResetPassword reqE "alice@x.com" worldWithoutUsers).1 ∧
  AuthController.requestResetPassword reqE "alice@x.com" worldWithoutUsers =
    (Returns NoContent, worldWithoutUsers).
Proof.
  split.
  - apply (requestResetPassword_same_ack worldWithoutTokens worldWithoutUsers
             reqE "alice@x.com" tenantE tenantE); reflexivity.
  - apply (requestResetPassword_same_ack worldWithoutUsers worldWithoutTokens
             reqE "alice@x.com" tenantE tenantE); reflexivity.
Defined.

(** ** Refresh on a tenant without refresh *)

(** C2: on a tenant whose refresh-token lifetime is null the refresh
    request throws [Unauthorized] whatever token is presented and whatever
    the verification of session tokens would say; the world is unchanged
    and no session pair is returned. *)
Theorem refresh_disabled_Unauthorized {platform : Platform} w tok req e :
  EnvironmentService.getById (headers req !! "tl-env-id") w = (Returns (withData e), w) →
  refreshTokenExpiration e = None →
  AuthController.reAuthenticateFromRefreshToken tok req w =
    (Throws (HttpException StatusCodes.Unauthorized (Message None)), w).
Proof.
  intros Henv Hnull. unfold AuthController.reAuthenticateFromRefreshToken.
  rewrite (bind_returns _ _ _ _ _ Henv). simpl. by rewrite Hnull.
Qed.

Lemma refresh_disabled_Unauthorized_witness :
  AuthController.reAuthenticateFromRefreshToken (platform := examplePlatform)
    "any-refresh-token" (request_with "tl-env-id" "M") worldWithoutTokens =
    (Throws (HttpException StatusCodes.Unauthorized (Message None)), worldWithoutTokens).
Proof.
  apply (refresh_disabled_Unauthorized (platform := examplePlatform)
           worldWithoutTokens "any-refresh-token" (request_with "tl-env-id" "M") tenantM);
    reflexivity.
Defined.

(** ** Validation against the store *)

Lemma validate_absent tok ty w :
  tokenStorage w !! tok = None →
  AuthService.validateUserTokenExpiration tok ty w =
    (Returns (withError StatusCodes.NotFound ErrorMessages.InvalidToken), w).
Proof.
  intros Hnone.
  unfold AuthService.validateUserTokenExpiration, AuthService.validation, gets.
  by rewrite Hnone.
Qed.

Lemma validate_live_inv tok ty w row :
  AuthService.validateUserTokenExpiration tok ty w = (Returns (withData row), w) →
  tokenStorage w !! tok = Some row ∧ type row = ty ∧ (expires row <? now w)%Z = false.
Proof.
  unfold AuthService.validateUserTokenExpiration, AuthService.validation, gets.
  intros Hv.
  destruct (tokenStorage w !! tok) as [row' |]; [| by inversion Hv].
  destruct (decide (type row' = ty)) as [Hty | Hty].
  - rewrite bool_decide_eq_true_2 in Hv by done.
    destruct (expires row' <? now w)%Z eqn:Hexp; inversion Hv; by subst.
  - rewrite bool_decide_eq_false_2 in Hv by done. by inversion Hv.
Qed.

Lemma well_formed_singleton w n row :
  tokenStorage w = <[newOpaqueToken n := row]> ∅ →
  (n < entropy w)%nat →
  well_formed w.
Proof.
  intros Hts Hn k row' Hk. rewrite Hts in Hk.
  apply lookup_insert_Some in Hk as [[<- _] | [_ Hk]]; [by exists n |].
  by rewrite lookup_empty in Hk.
Qed.

(** ** A new reset-password token replaces the older ones *)

(** C3: when a reset-password token is requested for a user who is found
    and active, every reset-password token that user held before validates
    as [NotFound] afterwards, and the store holds exactly one
    reset-password token of that user: the one just issued. *)
Theorem requestResetPassword_invalidates_older w req mail e u :
  well_formed w →
  EnvironmentService.getByPublicKeyFromRequest req w = (Returns (withData e), w) →
  UserService.getByEmail mail (env_id e) w = (Returns (Some u), w) →
  active u = true →
  let w' := (AuthController.requestResetPassword req mail w).2 in
  (∀ k row,
     tokenStorage w !! k = Some row →
     type row = TokenTypes.ResetPassword →
     relationId row = id u →
     AuthService.validateUserTokenExpiration k TokenTypes.ResetPassword w' =
       (Returns (withError StatusCodes.NotFound ErrorMessages.InvalidToken), w')) ∧
  reset_tokens_of (id u) w' =
    {[ newOpaqueToken (entropy w) :=
         {| token := newOpaqueToken (entropy w);
            type := TokenTypes.ResetPassword;
            relationId := id u;
            tok_environmentId := Some (env_id e);
            expires := (now w + 1800000)%Z;
            createdAt := now w |} ]}.
Proof.
  intros Hwf Henv Hu Hact w'.
  destruct (requestResetPassword_known w req mail e u Henv Hu Hact)
    as (new & Hnew & Hrun).
  subst w'. rewrite Hrun. simpl. rewrite <- Hnew. split.
  - intros k row Hk Hty Hrel. apply validate_absent. simpl.
    destruct (Hwf k row Hk) as (n & Hn & ->).
    assert (token new ≠ newOpaqueToken n) as Hne.
    { rewrite Hnew. simpl. intros Heq%newOpaqueToken_inj. lia. }
    rewrite lookup_insert_ne by done.
    apply map_lookup_filter_None_2. right. intros row' Hk'. simpl.
    assert (row' = row) as -> by congruence. tauto.
  - unfold reset_tokens_of. simpl.
    replace (newOpaqueToken (entropy w)) with (token new) by (by rewrite Hnew).
    apply map_eq. intros k. destruct (decide (token new = k)) as [<- | Hne].
    + rewrite lookup_singleton_eq. apply map_lookup_filter_Some_2.
      * apply lookup_insert_eq.
      * by rewrite Hnew.
    + rewrite lookup_singleton_ne by done.
      apply map_lookup_filter_None_2. right. intros row Hk.
      rewrite lookup_insert_ne in Hk by done.
      by apply map_lookup_filter_Some in Hk as [_ Hk].
Qed.

Lemma requestResetPassword_invalidates_older_witness :
  AuthService.validateUserTokenExpiration (newOpaqueToken 0) TokenTypes.ResetPassword
    (AuthController.requestResetPassword reqE "alice@x.com" worldWithResetToken).2 =
    (Returns (withError StatusCodes.NotFound ErrorMessages.InvalidToken),
     (AuthController.requestResetPassword reqE "alice@x.com" worldWithResetToken).2).
Proof.
  assert (well_formed worldWithResetToken) as Hwf.
  { apply (well_formed_singleton worldWithResetToken 0 staleResetToken);
      [reflexivity | simpl; lia]. }
  destruct (requestResetPassword_invalidates_older
              worldWithResetToken reqE "alice@x.com" tenantE alice Hwf
              eq_refl eq_refl eq_refl) as [Holder _].
  apply (Holder (newOpaqueToken 0) staleResetToken); reflexivity.
Defined.

(** ** A reset link is single-shot *)

(** C4: a PATCH whose token validates as live deletes the token whether the
    password update succeeds or fails (the update fails when the token's
    user is not a user of the request's tenant), and after the call the
    token validates as [NotFound] for every kind, whatever requests
    follow. *)
Theorem updateTokenResetPassword_single_shot {platform : Platform}
    w req tok pw e row :
  well_formed w →
  EnvironmentService.getByPublicKeyFromRequest req w = (Returns (withData e), w) →
  AuthService.validateUserTokenExpiration tok TokenTypes.ResetPassword w =
    (Returns (withData row), w) →
  let out := AuthController.updateTokenResetPassword req tok pw w in
  out.1 = (if existsb (UserService.in_tenant (relationId row) (Some (env_id e))) (users w)
           then Returns NoContent
           else Throws (HttpException StatusCodes.NotFound
                          (Message (Some ErrorMessages.UserNotFound)))) ∧
  tokenStorage out.2 !! tok = None ∧
  ∀ cs ty,
    (AuthService.validateUserTokenExpiration tok ty (run cs out.2)).1 =
      Returns (withError StatusCodes.NotFound ErrorMessages.InvalidToken).
Proof.
  intros Hwf Henv Hlive out.
  destruct (validate_live_inv _ _ _ _ Hlive) as (Hk & _ & _).
  assert (out = (if existsb (UserService.in_tenant (relationId row) (Some (env_id e)))
                      (users w)
                 then (Returns NoContent,
                       set_users
                         (map (λ u, if UserService.in_tenant (relationId row)
                                         (Some (env_id e)) u
                                    then with_password (Some (Crypt_hash pw)) u
                                    else u))
                         (set_tokenStorage (delete tok) w))
                 else (Throws (HttpException StatusCodes.NotFound
                                 (Message (Some ErrorMessages.UserNotFound))),
                       set_tokenStorage (delete tok) w))) as Hout.
  { subst out. unfold AuthController.updateTokenResetPassword.
    rewrite (bind_returns _ _ _ _ _ Henv). simpl.
    rewrite (bind_returns _ _ _ _ _ Hlive). simpl.
    unfold TokenStorageService.delete. rewrite bind_modify.
    unfold bind, UserService.updatePassword. simpl.
    by destruct (existsb _ _). }
  assert (consumed tok out.2) as Hcons.
  { rewrite Hout. destruct (Hwf tok row Hk) as (n & Hn & ->).
    destruct (existsb _ _); (split; [apply lookup_delete_eq | by exists n]). }
  split; [| split].
  - rewrite Hout. by destruct (existsb _ _).
  - apply Hcons.
  - intros cs ty. destruct (run_consumed tok cs out.2 Hcons) as [Hnone _].
    by rewrite (validate_absent _ _ _ Hnone).
Qed.

(** The token of [alice], a user of tenant [E], is presented through tenant
    [M]: the password update fails and the token is gone all the same. *)
Lemma updateTokenResetPassword_single_shot_witness :
  (AuthController.updateTokenResetPassword (platform := examplePlatform)
     reqM (newOpaqueToken 0) "new-password" worldWithResetToken).1 =
    Throws (HttpException StatusCodes.NotFound
              (Message (Some ErrorMessages.UserNotFound))) ∧
  tokenStorage
    (AuthController.updateTokenResetPassword (platform := examplePlatform)
       reqM (newOpaqueToken 0) "new-password" worldWithResetToken).2
    !! newOpaqueToken 0 = None.
Proof.
  assert (well_formed worldWithResetToken) as Hwf.
  { apply (well_formed_singleton worldWithResetToken 0 staleResetToken);
      [reflexivity | simpl; lia]. }
  destruct (updateTokenResetPassword_single_shot (platform := examplePlatform)
              worldWithResetToken reqM (newOpaqueToken 0) "new-password"
              tenantM staleResetToken Hwf eq_refl eq_refl) as (Hres & Hgone & _).
  split; [exact Hres | exact Hgone].
Defined.

(** ** Confirm email: which validation decides *)

Section ConfirmEmailValidation.
Context {platform : Platform}.

Lemma confirmEmail_tokenValidation_eq tok w :
  AuthController.confirmEmail_tokenValidation tok w =
    (Returns
       (if bool_decide (statusCode (AuthService.validation w tok TokenTypes.ConfirmEmail)
                        = Some StatusCodes.NotFound)
        then AuthService.validation w tok TokenTypes.InviteUser
        else AuthService.validation w tok TokenTypes.ConfirmEmail), w).
Proof.
  unfold AuthController.confirmEmail_tokenValidation,
    AuthController.confirmEmail_tokenValidation_over,
    AuthService.validateUserTokenExpiration.
  rewrite bind_gets. by case_bool_decide.
Qed.

Lemma confirmEmail_NotFound tok w :
  AuthController.confirmEmail_tokenValidation tok w =
    (Returns (withError StatusCodes.NotFound ErrorMessages.InvalidToken), w) →
  AuthController.confirmEmail tok w =
    (Throws (HttpException StatusCodes.NotFound
               (Message (Some ErrorMessages.InvalidToken))), w).
Proof.
  intros Hv. unfold AuthController.confirmEmail, AuthController.confirmEmail_over.
  fold (AuthController.confirmEmail_tokenValidation tok).
  by rewrite (bind_returns _ _ _ _ _ Hv).
Qed.

Lemma confirmEmail_absent tok w :
  tokenStorage w !! tok = None →
  AuthController.confirmEmail tok w =
    (Throws (HttpException StatusCodes.NotFound
               (Message (Some ErrorMessages.InvalidToken))), w).
Proof.
  intros Hnone. apply confirmEmail_NotFound.
  rewrite confirmEmail_tokenValidation_eq.
  unfold AuthService.validation. by rewrite Hnone.
Qed.

Lemma confirmEmail_over_first v tok w d w1 :
  v tok TokenTypes.ConfirmEmail w = (Returns d, w1) →
  statusCode d ≠ Some StatusCodes.NotFound →
  AuthController.confirmEmail_tokenValidation_over v tok w = (Returns d, w1).
Proof.
  intros Hv Hne. unfold AuthController.confirmEmail_tokenValidation_over.
  rewrite (bind_returns _ _ _ _ _ Hv).
  by rewrite bool_decide_eq_false_2.
Qed.

Lemma confirmEmail_over_second v tok w d w1 :
  v tok TokenTypes.ConfirmEmail w = (Returns d, w1) →
  statusCode d = Some StatusCodes.NotFound →
  AuthController.confirmEmail_tokenValidation_over v tok w =
    v tok TokenTypes.InviteUser w1.
Proof.
  intros Hv Hnf. unfold AuthController.confirmEmail_tokenValidation_over.
  rewrite (bind_returns _ _ _ _ _ Hv).
  by rewrite bool_decide_eq_true_2.
Qed.

Lemma confirmEmail_over_answered tok d w :
  AuthController.confirmEmail_tokenValidation_over (λ _ _, ret d) tok w =
    (Returns d, w).
Proof.
  unfold AuthController.confirmEmail_tokenValidation_over, bind, ret.
  by case_bool_decide.
Qed.

Lemma confirmEmail_over_continue v tok w d w1 :
  AuthController.confirmEmail_tokenValidation_over v tok w = (Returns d, w1) →
  AuthController.confirmEmail_over v tok w =
    AuthController.confirmEmail_over (λ _ _, ret d) tok w1.
Proof.
  intros Hv. unfold AuthController.confirmEmail_over.
  rewrite (bind_returns _ _ _ _ _ Hv).
  by rewrite (bind_returns _ _ _ _ _ (confirmEmail_over_answered tok d w1)).
Qed.

Lemma confirmEmail_over_throws v tok w e w1 :
  AuthController.confirmEmail_tokenValidation_over v tok w = (Throws e, w1) →
  AuthController.confirmEmail_over v tok w = (Throws e, w1).
Proof.
  intros Hv. unfold AuthController.confirmEmail_over, bind. by rewrite Hv.
Qed.

Lemma confirmEmail_live_validation tok w row :
  tokenStorage w !! tok = Some row →
  (now w ≤ expires row)%Z →
  type row = TokenTypes.ConfirmEmail ∨ type row = TokenTypes.InviteUser →
  AuthController.confirmEmail_tokenValidation tok w = (Returns (withData row), w).
Proof.
  intros Hk Hlive Hty. rewrite confirmEmail_tokenValidation_eq.
  assert ((expires row <? now w)%Z = false) as Hltb by (apply Z.ltb_ge; lia).
  unfold AuthService.validation. rewrite Hk.
  destruct Hty as [Hty | Hty]; rewrite Hty; simpl; by rewrite Hltb.
Qed.

(** What the flow does once the validation has answered with a record:
    the confirmation is applied to the record's user, and the presented
    token is deleted; at most one token, drawn from the supply, is
    stored. *)
Lemma confirmEmail_over_record tok row w :
  let out := AuthController.confirmEmail_over (λ _ _, ret (withData row)) tok w in
  users out.2 =
    users (UserService.updateEmailConfirmation (relationId row)
             (tok_environmentId row) w).2 ∧
  (tokenStorage out.2 = delete tok (tokenStorage w) ∨
   ∃ r, tokenStorage out.2 =
          <[newOpaqueToken (entropy w) := r]> (delete tok (tokenStorage w))) ∧
  out.1 ≠ Throws (HttpException StatusCodes.NotFound
                    (Message (Some ErrorMessages.InvalidToken))).
Proof.
  intros out. subst out. unfold AuthController.confirmEmail_over.
  rewrite (bind_returns _ _ _ _ _ (confirmEmail_over_answered tok _ w)).
  simpl. unfold bind, UserService.updateEmailConfirmation.
  destruct (existsb _ (users w)); simpl.
  2: { split; [done |]. split; [by left | discriminate]. }
  repeat match goal with
         | |- context [match ?x with _ => _ end] => destruct x; simpl
         end;
    (split; [done |]; split; [first [by left | right; by eexists] | discriminate]).
Qed.

(** C6: the confirmation flow asks the validator about the presented token
    as [confirm-email] first; when that answer is anything but [NotFound]
    the flow carries on with it from the world the call left and asks
    nothing more; only when it is [NotFound] does the flow ask about the
    token as [invite-user], and it then carries on with that second answer;
    a failing call ends the flow. With the auth service's validator, a live
    stored token of either kind drives the flow: the confirmation is applied
    to the user of its record, the token is deleted, and the outcome is not
    the [NotFound] failure. A stored token of any other kind is reported
    exactly as an absent one, [NotFound], and the world is left as it
    was. *)
Theorem confirmEmail_kind_fallback tok w :
  (∀ v d w1,
     v tok TokenTypes.ConfirmEmail w = (Returns d, w1) →
     statusCode d ≠ Some StatusCodes.NotFound →
     AuthController.confirmEmail_over v tok w =
       AuthController.confirmEmail_over (λ _ _, ret d) tok w1) ∧
  (∀ v d w1 d2 w2,
     v tok TokenTypes.ConfirmEmail w = (Returns d, w1) →
     statusCode d = Some StatusCodes.NotFound →
     v tok TokenTypes.InviteUser w1 = (Returns d2, w2) →
     AuthController.confirmEmail_over v tok w =
       AuthController.confirmEmail_over (λ _ _, ret d2) tok w2) ∧
  (∀ v e w1,
     v tok TokenTypes.ConfirmEmail w = (Throws e, w1) →
     AuthController.confirmEmail_over v tok w = (Throws e, w1)) ∧
  (∀ v d w1 e w2,
     v tok TokenTypes.ConfirmEmail w = (Returns d, w1) →
     statusCode d = Some StatusCodes.NotFound →
     v tok TokenTypes.InviteUser w1 = (Throws e, w2) →
     AuthController.confirmEmail_over v tok w = (Throws e, w2)) ∧
  (∀ row,
     tokenStorage w !! tok = Some row →
     (now w ≤ expires row)%Z →
     type row = TokenTypes.ConfirmEmail ∨ type row = TokenTypes.InviteUser →
     let out := AuthController.confirmEmail tok w in
     out = AuthController.confirmEmail_over (λ _ _, ret (withData row)) tok w ∧
     users out.2 =
       users (UserService.updateEmailConfirmation (relationId row)
                (tok_environmentId row) w).2 ∧
     (well_formed w → tokenStorage out.2 !! tok = None) ∧
     out.1 ≠ Throws (HttpException StatusCodes.NotFound
                       (Message (Some ErrorMessages.InvalidToken)))) ∧
  (∀ row,
     tokenStorage w !! tok = Some row →
     type row ≠ TokenTypes.ConfirmEmail →
     type row ≠ TokenTypes.InviteUser →
     AuthController.confirmEmail tok w =
       (Throws (HttpException StatusCodes.NotFound
                  (Message (Some ErrorMessages.InvalidToken))), w)) ∧
  (tokenStorage w !! tok = None →
   AuthController.confirmEmail tok w =
     (Throws (HttpException StatusCodes.NotFound
                (Message (Some ErrorMessages.InvalidToken))), w)).
Proof.
  split; [| split; [| split; [| split; [| split; [| split]]]]].
  - intros v d w1 Hv Hne. apply confirmEmail_over_continue.
    by apply confirmEmail_over_first.
  - intros v d w1 d2 w2 Hv Hnf Hv2. apply confirmEmail_over_continue.
    by rewrite (confirmEmail_over_second _ _ _ _ _ Hv Hnf).
  - intros v e w1 Hv. apply confirmEmail_over_throws.
    unfold AuthController.confirmEmail_tokenValidation_over, bind. by rewrite Hv.
  - intros v d w1 e w2 Hv Hnf Hv2. apply confirmEmail_over_throws.
    by rewrite (confirmEmail_over_second _ _ _ _ _ Hv Hnf).
  - intros row Hk Hlive Hty out.
    assert (out = AuthController.confirmEmail_over
                    (λ _ _, ret (withData row)) tok w) as Hout.
    { subst out. unfold AuthController.confirmEmail.
      apply confirmEmail_over_continue.
      apply (confirmEmail_live_validation tok w row Hk Hlive Hty). }
    split; [exact Hout |]. rewrite Hout.
    destruct (confirmEmail_over_record tok row w) as (Husers & Hstore & Hres).
    split; [exact Husers |]. split; [| exact Hres].
    intros Hwf. destruct Hstore as [-> | [r ->]].
    + apply lookup_delete_eq.
    + destruct (Hwf tok row Hk) as (n & Hn & ->).
      rewrite lookup_insert_ne.
      * apply lookup_delete_eq.
      * intros Heq. apply newOpaqueToken_inj in Heq. lia.
  - intros row Hk Hne1 Hne2. apply confirmEmail_NotFound.
    rewrite confirmEmail_tokenValidation_eq.
    unfold AuthService.validation. rewrite Hk.
    rewrite (bool_decide_eq_false_2 (type row = TokenTypes.ConfirmEmail)) by done.
    by rewrite (bool_decide_eq_false_2 (type row = TokenTypes.InviteUser)).
  - apply confirmEmail_absent.
Qed.

End ConfirmEmailValidation.

(** [bob]'s live invitation drives the confirmation flow: it is the second
    question, asked as [invite-user], that finds it; his email ends
    confirmed and the invitation is gone. A live reset-password token
    presented to the same flow is answered as if no such token existed. *)
Lemma confirmEmail_kind_fallback_witness :
  let out := AuthController.confirmEmail (platform := examplePlatform)
               (newOpaqueToken 0) worldWithInvite in
  out = AuthController.confirmEmail_over (platform := examplePlatform)
          (λ _ _, ret (withData inviteToken)) (newOpaqueToken 0) worldWithInvite ∧
  map emailConfirmed (users out.2) = [emailConfirmed alice; true] ∧
  tokenStorage out.2 !! newOpaqueToken 0 = None ∧
  AuthController.confirmEmail (platform := examplePlatform)
    (newOpaqueToken 0) worldWithResetToken =
    (Throws (HttpException StatusCodes.NotFound
               (Message (Some ErrorMessages.InvalidToken))), worldWithResetToken).
Proof.
  assert (well_formed worldWithInvite) as Hwf.
  { apply (well_formed_singleton worldWithInvite 0 inviteToken);
      [reflexivity | simpl; lia]. }
  destruct (confirmEmail_kind_fallback (platform := examplePlatform)
              (newOpaqueToken 0) worldWithInvite)
    as (_ & Hsecond & _ & _ & Hdrives & _ & _).
  destruct (confirmEmail_kind_fallback (platform := examplePlatform)
              (newOpaqueToken 0) worldWithResetToken)
    as (_ & _ & _ & _ & _ & Hother & _).
  destruct (Hdrives inviteToken eq_refl ltac:(simpl; lia) (or_intror eq_refl))
    as (_ & Husers & Hgone & _).
  cbv zeta. split; [| split; [| split]].
  - apply (Hsecond AuthService.validateUserTokenExpiration
             (withError StatusCodes.NotFound ErrorMessages.InvalidToken)
             worldWithInvite (withData inviteToken) worldWithInvite);
      reflexivity.
  - rewrite Husers. reflexivity.
  - exact (Hgone Hwf).
  - apply (Hother staleResetToken); [reflexivity | discriminate | discriminate].
Defined.

(** ** Confirm email: the expired link *)

Section ConfirmEmailExpired.
Context {platform : Platform}.

Lemma sendConfirmationEmail_resolved uid eid w u :
  UserService.getById uid w = (Returns (Some u), w) →
  UserService.sendConfirmationEmail uid eid w =
    (Returns (withData u),
     set_outbox
       (λ o, o ++ [ {| mail_userId := Some (id u);
                       to := email u;
                       emailTemplateType := EmailTemplates.ConfirmEmail;
                       mail_environmentId := default "" eid;
                       mail_data :=
                         Some (<["token" := JStr (newOpaqueToken (entropy w))]>
                               (<["userFirstName" := JStr (getFirstName (fullName u))]> ∅));
                       scheduledAt := None |} ])
       (set_entropy S
          (set_tokenStorage
             (insert (newOpaqueToken (entropy w))
                {| token := newOpaqueToken (entropy w);
                   type := TokenTypes.ConfirmEmail;
                   relationId := id u;
                   tok_environmentId := eid;
                   expires := (now w + 18000000)%Z;
                   createdAt := now w |}) w))).
Proof.
  intros Hu. unfold UserService.sendConfirmationEmail.
  by rewrite (bind_returns _ _ _ _ _ Hu).
Qed.

Lemma confirmEmail_expired_validation tok w row :
  tokenStorage w !! tok = Some row →
  type row = TokenTypes.ConfirmEmail →
  (expires row < now w)%Z →
  AuthController.confirmEmail_tokenValidation tok w =
    (Returns (mkDataReturn (Some row) (Some StatusCodes.Expired)
                (Some ErrorMessages.TokenExpired) None), w).
Proof.
  intros Hk Hty Hexp. rewrite confirmEmail_tokenValidation_eq.
  unfold AuthService.validation. rewrite Hk, Hty. simpl.
  by rewrite (proj2 (Z.ltb_lt _ _) Hexp).
Qed.

(** C5: an expired confirm-email token whose record carries the id of a
    user that still resolves is answered by the confirmation flow with the
    distinct "email resent" outcome, not with the bare expiry failure;
    exactly one confirmation email goes out, to that user, carrying a
    freshly issued confirm-email token, which is stored; the stale token is
    deleted; and presenting it again gives [NotFound]. *)
Theorem confirmEmail_expired_retry tok w row u :
  tokenStorage w !! tok = Some row →
  type row = TokenTypes.ConfirmEmail →
  (expires row < now w)%Z →
  relationId row ≠ "" →
  UserService.getById (relationId row) w = (Returns (Some u), w) →
  let out := AuthController.confirmEmail tok w in
  let fresh := newOpaqueToken (entropy w) in
  out.1 = Throws (HttpException StatusCodes.NotAcceptable EmailResent) ∧
  out.1 ≠ Throws (HttpException StatusCodes.Expired
                    (Message (Some ErrorMessages.TokenExpired))) ∧
  outbox out.2 =
    outbox w ++
    [ {| mail_userId := Some (id u);
         to := email u;
         emailTemplateType := EmailTemplates.ConfirmEmail;
         mail_environmentId := default "" (tok_environmentId row);
         mail_data :=
           Some (<["token" := JStr fresh]>
                 (<["userFirstName" := JStr (getFirstName (fullName u))]> ∅));
         scheduledAt := None |} ] ∧
  (well_formed w →
   tokenStorage out.2 !! fresh =
     Some {| token := fresh;
             type := TokenTypes.ConfirmEmail;
             relationId := id u;
             tok_environmentId := tok_environmentId row;
             expires := (now w + 18000000)%Z;
             createdAt := now w |}) ∧
  tokenStorage out.2 !! tok = None ∧
  AuthController.confirmEmail tok out.2 =
    (Throws (HttpException StatusCodes.NotFound
               (Message (Some ErrorMessages.InvalidToken))), out.2).
Proof.
  intros Hk Hty Hexp Hrel Hu out fresh.
  pose proof (confirmEmail_expired_validation tok w row Hk Hty Hexp) as Hv.
  assert (truthy_string (relationId row) = true) as Htruthy.
  { unfold truthy_string. by rewrite bool_decide_eq_false_2. }
  assert (out = (Throws (HttpException StatusCodes.NotAcceptable EmailResent),
                 set_tokenStorage (delete tok)
                   (UserService.sendConfirmationEmail (relationId row)
                      (tok_environmentId row) w).2)) as Hout.
  { subst out. unfold AuthController.confirmEmail, AuthController.confirmEmail_over.
    fold (AuthController.confirmEmail_tokenValidation tok).
    rewrite (bind_returns _ _ _ _ _ Hv). simpl. rewrite Hty. simpl.
    rewrite Htruthy. simpl. unfold bind.
    by rewrite (sendConfirmationEmail_resolved _ _ _ _ Hu). }
  assert (tokenStorage out.2 !! tok = None) as Hgone.
  { rewrite Hout. apply lookup_delete_eq. }
  split; [by rewrite Hout |]. split; [by rewrite Hout |].
  split; [| split; [| split]].
  - rewrite Hout. by rewrite (sendConfirmationEmail_resolved _ _ _ _ Hu).
  - intros Hwf. rewrite Hout.
    rewrite (sendConfirmationEmail_resolved _ _ _ _ Hu). simpl.
    destruct (Hwf tok row Hk) as (n & Hn & ->).
    rewrite lookup_delete_ne.
    + by rewrite lookup_insert_eq.
    + intros Heq. apply newOpaqueToken_inj in Heq. lia.
  - exact Hgone.
  - by apply confirmEmail_absent.
Qed.

End ConfirmEmailExpired.

(** [bob]'s expired link: the retry outcome, one confirmation email
    carrying the fresh token, which is stored, and the link is gone. *)
Lemma confirmEmail_expired_retry_witness :
  let out := AuthController.confirmEmail (platform := examplePlatform)
               (newOpaqueToken 0) worldWithExpiredToken in
  out.1 = Throws (HttpException StatusCodes.NotAcceptable EmailResent) ∧
  map emailTemplateType (outbox out.2) = [EmailTemplates.ConfirmEmail] ∧
  (type <$> tokenStorage out.2 !! newOpaqueToken 1) = Some TokenTypes.ConfirmEmail ∧
  tokenStorage out.2 !! newOpaqueToken 0 = None ∧
  AuthController.confirmEmail (platform := examplePlatform)
    (newOpaqueToken 0) out.2 =
    (Throws (HttpException StatusCodes.NotFound
               (Message (Some ErrorMessages.InvalidToken))), out.2).
Proof.
  assert (well_formed worldWithExpiredToken) as Hwf.
  { apply (well_formed_singleton worldWithExpiredToken 0 expiredConfirmToken);
      [reflexivity | simpl; lia]. }
  destruct (confirmEmail_expired_retry (platform := examplePlatform)
              (newOpaqueToken 0) worldWithExpiredToken expiredConfirmToken bob
              eq_refl eq_refl eq_refl ltac:(discriminate) eq_refl)
    as (Hout & _ & Hmail & Hfresh & Hgone & Hagain).
  cbv zeta. split; [exact Hout |]. split; [| split; [| split]].
  - rewrite Hmail. reflexivity.
  - change (newOpaqueToken 1) with (newOpaqueToken (entropy worldWithExpiredToken)).
    by rewrite (Hfresh Hwf).
  - exact Hgone.
  - exact Hagain.
Defined.

(** ** Confirm email: the invitation's follow-up credential *)

Lemma find_map_stable {A} (p : A → bool) (f : A → A) (l : list A) :
  (∀ x, p (f x) = p x) → find p (map f l) = f <$> find p l.
Proof.
  intros Hp. induction l as [| x l IH]; simpl; [done |].
  rewrite Hp. by destruct (p x).
Qed.

Lemma find_existsb {A} (p q : A → bool) (l : list A) x :
  find p l = Some x → q x = true → existsb q l = true.
Proof.
  intros Hfind Hq. apply existsb_exists. exists x. split; [| done].
  by apply find_some in Hfind as [Hin _].
Qed.

Lemma validation_live_inv w tok ty row :
  AuthService.validation w tok ty = withData row →
  tokenStorage w !! tok = Some row ∧ type row = ty ∧ (expires row <? now w)%Z = false.
Proof.
  unfold AuthService.validation. intros Hv.
  destruct (tokenStorage w !! tok) as [row' |]; [| by inversion Hv].
  destruct (decide (type row' = ty)) as [Hty | Hty].
  - rewrite bool_decide_eq_true_2 in Hv by done.
    destruct (expires row' <? now w)%Z eqn:Hexp; inversion Hv; by subst.
  - rewrite bool_decide_eq_false_2 in Hv by done. by inversion Hv.
Qed.

Section ConfirmEmailInvite.
Context {platform : Platform}.

Lemma confirmEmail_validated_inv tok w row :
  AuthController.confirmEmail_tokenValidation tok w = (Returns (withData row), w) →
  tokenStorage w !! tok = Some row ∧
  (type row = TokenTypes.ConfirmEmail ∨ type row = TokenTypes.InviteUser).
Proof.
  rewrite confirmEmail_tokenValidation_eq. intros Hv.
  assert ((if bool_decide (statusCode (AuthService.validation w tok TokenTypes.ConfirmEmail)
                           = Some StatusCodes.NotFound)
           then AuthService.validation w tok TokenTypes.InviteUser
           else AuthService.validation w tok TokenTypes.ConfirmEmail) = withData row)
    as Hd by (by inversion Hv).
  case_bool_decide; apply validation_live_inv in Hd as (Hk & Hty & _); auto.
Qed.

(** C7: when the confirmation flow has validated a token and confirmed the
    email of its user, the token is deleted and the answer depends on the
    kind: for an invite-user token whose user has never signed in, the body
    carries a freshly stored follow-up token, of kind reset-password (with
    the user's email) on a password tenant and of kind magic-login on a
    magic-link tenant, and the outcome is an [Internal] error when the
    tenant's provider is neither; for a confirm-email token, or when the
    user has signed in before, the body is empty and no token is stored. *)
Theorem confirmEmail_invite_followup tok w row u e :
  well_formed w →
  AuthController.confirmEmail_tokenValidation tok w = (Returns (withData row), w) →
  UserService.getById (relationId row) w = (Returns (Some u), w) →
  environmentId u = tok_environmentId row →
  EnvironmentService.getById (tok_environmentId row) w = (Returns (withData e), w) →
  let out := AuthController.confirmEmail tok w in
  let minted := newOpaqueToken (entropy w) in
  let owed := if bool_decide (type row = TokenTypes.InviteUser ∧ lastSignIn u = None)
              then Some (authProvider e) else None in
  out.1 =
    match owed with
    | Some AuthProviders.EmailAndPassword =>
        Returns (Json StatusCodes.OK
                   (Some {| tokenType := TokenTypes.ResetPassword;
                            followUp_token := Some minted;
                            followUp_email := Some (email u) |}))
    | Some AuthProviders.MagicLogin =>
        Returns (Json StatusCodes.OK
                   (Some {| tokenType := TokenTypes.MagicLogin;
                            followUp_token := Some minted;
                            followUp_email := None |}))
    | Some AuthProviders.Other =>
        Throws (HttpException StatusCodes.Internal
                  (Message (Some ErrorMessages.InternalError)))
    | None => Returns (Json StatusCodes.OK None)
    end ∧
  tokenStorage out.2 !! tok = None ∧
  (emailConfirmed <$> find (λ u', bool_decide (id u' = relationId row)) (users out.2))
    = Some true ∧
  (type <$> tokenStorage out.2 !! minted) = owed ≫= followUp_kind ∧
  (relationId <$> tokenStorage out.2 !! minted) = (owed ≫= followUp_kind) ≫= λ _, Some (id u).
Proof.
  intros Hwf Hv Hu Henv_u Henv out minted owed.
  destruct (confirmEmail_validated_inv _ _ _ Hv) as [Hk Hty].
  assert (id u = relationId row) as Hid.
  { unfold UserService.getById, gets in Hu.
    assert (find (λ u0, bool_decide (id u0 = relationId row)) (users w) = Some u)
      as Hf by (by inversion Hu).
    apply find_some in Hf as [_ Hf]. by apply bool_decide_eq_true_1 in Hf. }
  assert (UserService.in_tenant (relationId row) (tok_environmentId row) u = true)
    as Hin.
  { unfold UserService.in_tenant.
    by rewrite !bool_decide_eq_true_2. }
  set (g := λ u0 : User,
              if UserService.in_tenant (relationId row) (tok_environmentId row) u0
              then with_emailConfirmed true u0 else u0).
  set (w2 := set_tokenStorage (delete tok) (set_users (map g) w)).
  set (w3 := λ ty,
         set_entropy S
           (set_tokenStorage
              (insert minted
                 {| token := minted; type := ty; relationId := id u;
                    tok_environmentId := tok_environmentId row;
                    expires := (now w + 1800000)%Z; createdAt := now w |}) w2)).
  assert (UserService.updateEmailConfirmation (relationId row) (tok_environmentId row) w
          = (Returns None, set_users (map g) w)) as HA.
  { unfold UserService.updateEmailConfirmation.
    assert (existsb (UserService.in_tenant (relationId row) (tok_environmentId row))
              (users w) = true) as ->; [| done].
    unfold UserService.getById, gets in Hu.
    eapply find_existsb; [| exact Hin]. by inversion Hu. }
  assert (UserService.getById (relationId row) w2
          = (Returns (Some (with_emailConfirmed true u)), w2)) as HC.
  { unfold UserService.getById, gets in *. simpl.
    rewrite find_map_stable.
    - assert (find (λ u0, bool_decide (id u0 = relationId row)) (users w) = Some u)
        as -> by (by inversion Hu).
      simpl. unfold g. by rewrite Hin.
    - intros x. unfold g. by destruct (UserService.in_tenant _ _ x). }
  assert (EnvironmentService.getById (tok_environmentId row) w2
          = (Returns (withData e), w2)) as HD.
  { unfold EnvironmentService.getById, gets in *. simpl.
    by inversion Henv as [He]; rewrite !He. }
  assert (out = match owed with
                | Some AuthProviders.EmailAndPassword =>
                    (Returns (Json StatusCodes.OK
                                (Some {| tokenType := TokenTypes.ResetPassword;
                                         followUp_token := Some minted;
                                         followUp_email := Some (email u) |})),
                     w3 TokenTypes.ResetPassword)
                | Some AuthProviders.MagicLogin =>
                    (Returns (Json StatusCodes.OK
                                (Some {| tokenType := TokenTypes.MagicLogin;
                                         followUp_token := Some minted;
                                         followUp_email := None |})),
                     w3 TokenTypes.MagicLogin)
                | Some AuthProviders.Other =>
                    (Throws (HttpException StatusCodes.Internal
                               (Message (Some ErrorMessages.InternalError))), w2)
                | None => (Returns (Json StatusCodes.OK None), w2)
                end) as Hout.
  { subst out. unfold AuthController.confirmEmail, AuthController.confirmEmail_over.
  fold (AuthController.confirmEmail_tokenValidation tok).
    rewrite (bind_returns _ _ _ _ _ Hv). simpl.
    rewrite (bind_returns _ _ _ _ _ HA). simpl.
    unfold TokenStorageService.delete. rewrite bind_modify. simpl.
    fold w2.
    rewrite (bind_returns _ _ _ _ _ HC).
    rewrite (bind_returns _ _ _ _ _ HD).
    subst owed. simpl.
    destruct Hty as [Hty | Hty]; rewrite Hty; simpl; [done |].
    destruct (lastSignIn u) as [t |] eqn:Hlast; simpl; [done |].
    destruct (authProvider e); reflexivity. }
  assert (minted ≠ tok) as Hne.
  { destruct (Hwf tok row Hk) as (n & Hn & ->).
    intros Heq%newOpaqueToken_inj. lia. }
  assert (tokenStorage w !! minted = None) as Hfresh.
  { destruct (tokenStorage w !! minted) as [r |] eqn:Hm; [| done].
    destruct (Hwf _ _ Hm) as (n & Hn & Heq).
    apply newOpaqueToken_inj in Heq. lia. }
  assert (find (λ u', bool_decide (id u' = relationId row)) (map g (users w))
          = Some (with_emailConfirmed true u)) as Hfind.
  { unfold UserService.getById, gets in HC. simpl in HC. by inversion HC. }
  assert (delete tok (tokenStorage w) !! minted = None) as Hfresh2.
  { by rewrite lookup_delete_ne. }
  rewrite Hout. clear Hout.
  destruct owed as [[| |] |]; simpl;
    rewrite ?Hfind, ?lookup_insert_eq, ?Hfresh2; simpl;
    repeat split; try done;
    first [ apply lookup_delete_eq
          | by rewrite lookup_insert_ne by done; apply lookup_delete_eq ].
Qed.

End ConfirmEmailInvite.

(** [bob] accepts his invitation to the password tenant [E]. *)
Lemma confirmEmail_invite_followup_witness :
  (AuthController.confirmEmail (platform := examplePlatform)
     (newOpaqueToken 0) worldWithInvite).1 =
    Returns (Json StatusCodes.OK
               (Some {| tokenType := TokenTypes.ResetPassword;
                        followUp_token := Some (newOpaqueToken 1);
                        followUp_email := Some "bob@x.com" |})).
Proof.
  assert (well_formed worldWithInvite) as Hwf.
  { apply (well_formed_singleton worldWithInvite 0 inviteToken);
      [reflexivity | simpl; lia]. }
  destruct (confirmEmail_invite_followup (platform := examplePlatform)
              (newOpaqueToken 0) worldWithInvite inviteToken bob tenantE
              Hwf eq_refl eq_refl eq_refl eq_refl) as (Hres & _).
  exact Hres.
Defined.

(** ** Signup *)

Lemma created_object_id u : prop_str (delete "password" (toObject u)) "id" = id u.
Proof.
  unfold prop_str, toObject. rewrite lookup_delete_ne by done.
  by rewrite lookup_insert_eq.
Qed.

Lemma created_object_email u : prop_str (delete "password" (toObject u)) "email" = email u.
Proof.
  unfold prop_str, toObject. rewrite lookup_delete_ne by done.
  rewrite lookup_insert_ne by done. by rewrite lookup_insert_eq.
Qed.

Lemma created_object_fullName u :
  prop_str (delete "password" (toObject u)) "fullName" = fullName u.
Proof.
  unfold prop_str, toObject. rewrite lookup_delete_ne by done.
  do 2 rewrite lookup_insert_ne by done. by rewrite lookup_insert_eq.
Qed.

(** The object [create] and [createOwner] build for a new row has no
    [password] property. *)
Lemma created_object_no_password u : delete "password" (toObject u) !! "password" = None.
Proof. apply lookup_delete_eq. Qed.

Section SignUp.
Context {platform : Platform}.

Lemma UserService_create_new payload w :
  UserService.getByEmail (cp_email payload) (cp_environmentId payload) w
    = (Returns None, w) →
  UserService.create payload w =
    (let u := signedUp Crypt_hash
                {| sp_fullName := cp_fullName payload;
                   sp_email := cp_email payload;
                   sp_password := cp_password payload |} w in
     (Returns (withData (delete "password" (toObject u))),
      set_entropy S (set_users (λ us, us ++ [u]) w))).
Proof.
  intros Hnone. unfold UserService.create, EnvironmentService.getById.
  rewrite bind_gets. simpl. by rewrite (bind_returns _ _ _ _ _ Hnone).
Qed.

Lemma UserService_create_conflict payload w u :
  UserService.getByEmail (cp_email payload) (cp_environmentId payload) w
    = (Returns (Some u), w) →
  UserService.create payload w =
    (Returns (mkDataReturn None (Some StatusCodes.Conflict)
                (Some ErrorMessages.EmailInUse) (Some ErrorCodes.EmailInUse)), w).
Proof.
  intros Hsome. unfold UserService.create, EnvironmentService.getById.
  rewrite bind_gets. simpl. by rewrite (bind_returns _ _ _ _ _ Hsome).
Qed.

(** The run of a signup that goes through. *)
Lemma signUp_run payload req w e :
  EnvironmentService.getByPublicKeyFromRequest req w = (Returns (withData e), w) →
  truthy (environmentData w !! (env_id e, "enableSignUp")) = true →
  UserService.getByEmail (sp_email payload) (env_id e) w = (Returns None, w) →
  let u := signedUp Crypt_hash payload w in
  let withPassword := truthy_opt_string (sp_password payload) in
  let row := {| token := newOpaqueToken (S (entropy w));
                type := if withPassword then TokenTypes.ConfirmEmail
                        else TokenTypes.MagicLogin;
                relationId := id u;
                tok_environmentId := Some (env_id e);
                expires := (now w + ms (if withPassword then Hours 5 else Minutes 30))%Z;
                createdAt := now w |} in
  let claims := mkClaims (id u) (env_id e) (now w) in
  AuthController.signUp payload req w =
    ((if withPassword
      then Returns (Tokens (Some {| accessToken := signSession AccessToken claims e;
                                    refreshToken :=
                                      match refreshTokenExpiration e with
                                      | Some _ => Some (signSession RefreshToken claims e)
                                      | None => None
                                      end |}))
      else Returns NoContent),
     set_outbox
       (λ o, o ++ [ {| mail_userId := Some (id u);
                       to := email u;
                       emailTemplateType := EmailTemplates.Welcome;
                       mail_environmentId := env_id e;
                       mail_data := None;
                       scheduledAt := Some (minutes_from (now w) 5) |} ])
       (set_outbox
          (λ o, o ++ [ {| mail_userId := Some (id u);
                          to := email u;
                          emailTemplateType := if withPassword
                                               then EmailTemplates.ConfirmEmail
                                               else EmailTemplates.MagicLink;
                          mail_environmentId := env_id e;
                          mail_data :=
                            Some (<["token" := JStr (token row)]>
                                  (<["userFirstName" := JStr (getFirstName (fullName u))]> ∅));
                          scheduledAt := None |} ])
          (set_entropy S
             (set_tokenStorage (insert (token row) row)
                (set_entropy S (set_users (λ us, us ++ [u]) w)))))).
Proof.
  intros Henv Henabled Hnone u withPassword row claims.
  unfold AuthController.signUp.
  rewrite (bind_returns _ _ _ _ _ Henv). simpl.
  unfold EnvironmentDataService.get. rewrite bind_gets. simpl.
  rewrite Henabled. simpl.
  pose proof (UserService_create_new
                {| cp_fullName := sp_fullName payload;
                   cp_email := sp_email payload;
                   cp_password := sp_password payload;
                   cp_environmentId := env_id e |} w Hnone) as Hcreate.
  simpl in Hcreate.
  rewrite (bind_returns _ _ _ _ _ Hcreate). simpl.
  rewrite !created_object_id, !created_object_email, !created_object_fullName.
  subst withPassword row claims u.
  destruct payload as [fn mail pw]. simpl.
  destruct (truthy_opt_string pw) eqn:Hpw; reflexivity.
Qed.

Lemma getByPublicKeyFromRequest_returns req w :
  ∃ d, EnvironmentService.getByPublicKeyFromRequest req w = (Returns d, w) ∧
       ∀ e, data d = Some e → d = withData e.
Proof.
  unfold EnvironmentService.getByPublicKeyFromRequest, gets.
  eexists. split; [reflexivity |]. intros e.
  destruct (headers req !! "tl-public-key") as [k |]; [| done].
  destruct (find _ _) as [e' |]; [| done].
  simpl. by intros [= ->].
Qed.

Lemma getByEmail_returns mail eid w :
  ∃ r, UserService.getByEmail mail eid w = (Returns r, w).
Proof. by eexists. Qed.

(** A signup that answers went through a known tenant with sign-up
    enabled, for an email the tenant-scoped lookup does not find. *)
Lemma signUp_success_inv payload req w r :
  (AuthController.signUp payload req w).1 = Returns r →
  ∃ e,
    EnvironmentService.getByPublicKeyFromRequest req w = (Returns (withData e), w) ∧
    truthy (environmentData w !! (env_id e, "enableSignUp")) = true ∧
    UserService.getByEmail (sp_email payload) (env_id e) w = (Returns None, w).
Proof.
  destruct (getByPublicKeyFromRequest_returns req w) as (d & Henv & Hd).
  unfold AuthController.signUp. rewrite (bind_returns _ _ _ _ _ Henv).
  destruct (data d) as [e |] eqn:Hdata; [| done].
  rewrite (Hd e eq_refl) in Henv. intros Hr. exists e.
  unfold EnvironmentDataService.get in Hr. rewrite bind_gets in Hr. simpl in Hr.
  destruct (truthy (environmentData w !! (env_id e, "enableSignUp"))) eqn:Hen;
    [| done].
  simpl in Hr.
  destruct (getByEmail_returns (sp_email payload) (env_id e) w) as ([u |] & Hu).
  - pose proof (UserService_create_conflict
                  {| cp_fullName := sp_fullName payload;
                     cp_email := sp_email payload;
                     cp_password := sp_password payload;
                     cp_environmentId := env_id e |} w u Hu) as Hc.
    by rewrite (bind_returns _ _ _ _ _ Hc) in Hr.
  - done.
Qed.

(** C8: a signup that answers comes from a tenant with sign-up enabled and
    persists one user. With a password the answer is the session pair
    minted for that user (the access token, and the refresh token when the
    tenant's refresh lifetime is set) and a confirm-email token of the user
    is stored; without a password the answer is empty, with no session
    credential, and a magic-login token of the user is stored instead. *)
Theorem signUp_credentials payload req w r :
  (AuthController.signUp payload req w).1 = Returns r →
  ∃ e,
    EnvironmentService.getByPublicKeyFromRequest req w = (Returns (withData e), w) ∧
    truthy (environmentData w !! (env_id e, "enableSignUp")) = true ∧
    let out := AuthController.signUp payload req w in
    let u := signedUp Crypt_hash payload w in
    let stored := tokenStorage out.2 !! newOpaqueToken (S (entropy w)) in
    let claims := mkClaims (id u) (env_id e) (now w) in
    users out.2 = users w ++ [u] ∧
    (relationId <$> stored) = Some (id u) ∧
    if truthy_opt_string (sp_password payload)
    then
      r = Tokens (Some {| accessToken := signSession AccessToken claims e;
                          refreshToken :=
                            match refreshTokenExpiration e with
                            | Some _ => Some (signSession RefreshToken claims e)
                            | None => None
                            end |}) ∧
      (type <$> stored) = Some TokenTypes.ConfirmEmail
    else
      r = NoContent ∧
      (type <$> stored) = Some TokenTypes.MagicLogin.
Proof.
  intros Hr.
  destruct (signUp_success_inv payload req w r Hr) as (e & Henv & Hen & Hnone).
  exists e. split; [done |]. split; [done |].
  pose proof (signUp_run payload req w e Henv Hen Hnone) as Hrun.
  simpl in Hrun. rewrite Hrun in Hr. rewrite Hrun. simpl.
  rewrite lookup_insert_eq. simpl.
  destruct (truthy_opt_string (sp_password payload)); simpl in *;
    inversion Hr; done.
Qed.

End SignUp.

(** On the password tenant [E] a signup with a password stores a
    confirm-email token; on the magic-link tenant [M] a signup without one
    stores a magic-login token. *)
Lemma signUp_credentials_witness :
  (type <$> tokenStorage
     (AuthController.signUp (platform := examplePlatform)
        annWithPassword reqE worldWithoutTokens).2 !! newOpaqueToken 1)
    = Some TokenTypes.ConfirmEmail ∧
  (type <$> tokenStorage
     (AuthController.signUp (platform := examplePlatform)
        benWithoutPassword reqM worldWithoutTokens).2 !! newOpaqueToken 1)
    = Some TokenTypes.MagicLogin.
Proof.
  split.
  - destruct (signUp_credentials (platform := examplePlatform)
                annWithPassword reqE worldWithoutTokens _ eq_refl)
      as (e & _ & _ & _ & _ & Hkind).
    change (truthy_opt_string (sp_password annWithPassword)) with true in Hkind.
    exact (proj2 Hkind).
  - destruct (signUp_credentials (platform := examplePlatform)
                benWithoutPassword reqM worldWithoutTokens _ eq_refl)
      as (e & _ & _ & _ & _ & Hkind).
    change (truthy_opt_string (sp_password benWithoutPassword)) with false in Hkind.
    exact (proj2 Hkind).
Defined.

(** ** The tenant of a signed-up user *)

Lemma find_app_None {A} (p : A → bool) (l l' : list A) :
  find p l = None → find p (l ++ l') = find p l'.
Proof.
  induction l as [| x l IH]; simpl; [done |].
  destruct (p x); [done | exact IH].
Qed.

Section SignUpTenant.
Context {platform : Platform}.

(** The row a signup persists carries no tenant: the tenant-scoped lookup
    of the email still finds nothing after the signup, and the same signup
    goes through a second time. *)
Lemma signUp_user_not_scoped payload req w e :
  EnvironmentService.getByPublicKeyFromRequest req w = (Returns (withData e), w) →
  truthy (environmentData w !! (env_id e, "enableSignUp")) = true →
  UserService.getByEmail (sp_email payload) (env_id e) w = (Returns None, w) →
  let out := AuthController.signUp payload req w in
  environmentId (signedUp Crypt_hash payload w) = None ∧
  UserService.getByEmail (sp_email payload) (env_id e) out.2 = (Returns None, out.2) ∧
  ∃ r, (AuthController.signUp payload req out.2).1 = Returns r.
Proof.
  intros Henv Hen Hnone out.
  pose proof (signUp_run payload req w e Henv Hen Hnone) as Hrun. simpl in Hrun.
  assert (UserService.getByEmail (sp_email payload) (env_id e) out.2
          = (Returns None, out.2)) as Hstill.
  { subst out. rewrite Hrun. unfold UserService.getByEmail, gets in *. simpl.
    rewrite find_app_None by (by inversion Hnone).
    simpl. by rewrite andb_false_r. }
  split; [done |]. split; [done |].
  assert (EnvironmentService.getByPublicKeyFromRequest req out.2
          = (Returns (withData e), out.2)) as Henv'.
  { subst out. rewrite Hrun.
    unfold EnvironmentService.getByPublicKeyFromRequest, gets in *. simpl.
    by inversion Henv as [He]; rewrite !He. }
  assert (truthy (environmentData out.2 !! (env_id e, "enableSignUp")) = true) as Hen'.
  { subst out. by rewrite Hrun. }
  pose proof (signUp_run payload req out.2 e Henv' Hen' Hstill) as Hrun'.
  simpl in Hrun'. rewrite Hrun'. simpl.
  destruct (truthy_opt_string (sp_password payload)); by eexists.
Qed.

End SignUpTenant.

(** C9 (the code departs from the claim): after the signup of [a@x.com] on
    tenant [E] the persisted row has no environment id, the lookup of
    [a@x.com] under [E] finds nothing, and the same signup is accepted
    again, leaving two rows with that email. *)
Theorem signUp_loses_tenant :
  let out := AuthController.signUp (platform := examplePlatform)
               annWithPassword reqE worldWithoutTokens in
  let again := AuthController.signUp (platform := examplePlatform)
                 annWithPassword reqE out.2 in
  map environmentId (filter (λ u, email u = "a@x.com") (users out.2)) = [None] ∧
  UserService.getByEmail "a@x.com" "E" out.2 = (Returns None, out.2) ∧
  again.1 = Returns (Tokens (Some {| accessToken := "access:2";
                                     refreshToken := Some "refresh:2" |})) ∧
  length (filter (λ u, email u = "a@x.com") (users again.2)) = 2.
Proof. vm_compute. repeat split; reflexivity. Qed.

(** The sibling path: the owner is attached to a tenant after creation. *)
Lemma setEnvironment_scopes w uid eid u :
  UserService.getById uid w = (Returns (Some u), w) →
  ∃ w', UserService.setEnvironment uid eid w = (Returns tt, w') ∧
        UserService.getById uid w'
          = (Returns (Some (with_environmentId (Some eid) u)), w').
Proof.
  intros Hu. unfold UserService.setEnvironment, user_update.
  unfold UserService.getById, gets in *.
  assert (find (λ u0, bool_decide (id u0 = uid)) (users w) = Some u) as Hf
    by (by inversion Hu).
  assert (existsb (λ u0, bool_decide (id u0 = uid)) (users w) = true) as ->.
  { eapply find_existsb; [exact Hf |]. by apply find_some in Hf as [_ ?]. }
  eexists. split; [reflexivity |]. simpl.
  rewrite find_map_stable.
  - rewrite Hf. simpl. apply find_some in Hf as [_ Hid]. by rewrite Hid.
  - intros x. destruct (bool_decide (id x = uid)) eqn:Hx; simpl; by rewrite ?Hx.
Qed.

(** ** Password material in the objects handed back *)

Section PasswordMaterial.
Context {platform : Platform}.

(** What [create] hands back never has a [password] property, and the
    row it stores holds the hash, not the plain password. *)
Lemma UserService_create_no_password payload w d obj :
  (UserService.create payload w).1 = Returns d →
  data d = Some obj →
  obj !! "password" = None.
Proof.
  destruct (getByEmail_returns (cp_email payload) (cp_environmentId payload) w)
    as ([u |] & Hu).
  - rewrite (UserService_create_conflict payload w u Hu). simpl.
    by intros [= <-].
  - rewrite (UserService_create_new payload w Hu). simpl.
    intros [= <-]. simpl. intros [= <-]. apply lookup_delete_eq.
Qed.

Lemma createOwner_fresh w pw :
  UserService.getOurByEmail "gustavo@gsales.io" w = (Returns None, w) →
  ∃ obj w',
    UserService.createOwner pw w = (Returns (withData obj), w') ∧
    obj !! "password" = None ∧
    (password <$> last (users w')) = Some (Some (Crypt_hash pw)).
Proof.
  intros Hnone. unfold UserService.createOwner.
  rewrite (bind_returns _ _ _ _ _ Hnone).
  eexists _, _. split; [reflexivity |]. split; [apply lookup_delete_eq |].
  simpl. by rewrite last_snoc.
Qed.

(** When the owner already exists [createOwner] hands the stored row back
    as it is, password hash included. *)
Lemma createOwner_existing w pw o :
  UserService.getOurByEmail "gustavo@gsales.io" w = (Returns (Some o), w) →
  UserService.createOwner pw w = (Returns (withData (toObject o)), w) ∧
  toObject o !! "password" = Some (opt_str (password o)).
Proof.
  intros Hsome. unfold UserService.createOwner.
  rewrite (bind_returns _ _ _ _ _ Hsome). split; [done |].
  unfold toObject. do 3 rewrite lookup_insert_ne by done.
  by rewrite lookup_insert_eq.
Qed.

End PasswordMaterial.

(** C10 (the code departs from the claim): the first [createOwner] on a
    database without users hands back an object with no [password]
    property; the second one finds the owner and hands back an object
    whose [password] property is the hash stored by the first. *)
Theorem createOwner_leaks_hash {platform : Platform} :
  let first := UserService.createOwner "s3cret" worldWithoutUsers in
  let second := UserService.createOwner "another-password" first.2 in
  (∃ obj, first.1 = Returns (withData obj) ∧ obj !! "password" = None) ∧
  (∃ obj, second.1 = Returns (withData obj) ∧
          obj !! "password" = Some (JStr (Crypt_hash "s3cret"))).
Proof.
  split.
  - eexists. split; [reflexivity |]. apply lookup_delete_eq.
  - eexists. split; [reflexivity |].
    unfold toObject. do 3 rewrite lookup_insert_ne by done.
    by rewrite lookup_insert_eq.
Qed.

(** * Further properties of the user service *)

Lemma toObject_id u : prop_str (toObject u) "id" = id u.
Proof. unfold prop_str, toObject. by rewrite lookup_insert_eq. Qed.

Lemma existsb_find {A} (p : A → bool) (l : list A) :
  existsb p l = true → ∃ x, find p l = Some x.
Proof.
  induction l as [| x l IH]; simpl; [done |].
  destruct (p x); [by eexists | exact IH].
Qed.

Section UserServiceMore.
Context {platform : Platform}.

(** X1: [create] answers [Conflict] with the [EmailInUse] message and code
    when the tenant already has a user with that email, and writes
    nothing. *)
Theorem UserService_create_rejects_duplicate payload w u :
  UserService.getByEmail (cp_email payload) (cp_environmentId payload) w
    = (Returns (Some u), w) →
  UserService.create payload w =
    (Returns {| data := None;
                statusCode := Some StatusCodes.Conflict;
                error := Some ErrorMessages.EmailInUse;
                code := Some ErrorCodes.EmailInUse |}, w).
Proof. apply UserService_create_conflict. Qed.

(** X2: when the tenant has no user with that email, [create] appends one
    row, not a platform user, whose password column holds the hash of the
    given password, or null when the password is missing or the empty
    string; the object handed back names that row and has no [password]
    property. *)
Theorem UserService_create_stores_hash payload w :
  UserService.getByEmail (cp_email payload) (cp_environmentId payload) w
    = (Returns None, w) →
  ∃ obj u,
    (UserService.create payload w).1 = Returns (withData obj) ∧
    users (UserService.create payload w).2 = users w ++ [u] ∧
    email u = cp_email payload ∧
    thonLabsUser u = false ∧
    password u = match cp_password payload with
                 | Some p => if bool_decide (p = "") then None else Some (Crypt_hash p)
                 | None => None
                 end ∧
    obj !! "password" = None ∧
    prop_str obj "id" = id u.
Proof.
  intros Hnone. rewrite (UserService_create_new payload w Hnone). simpl.
  eexists _, _. split; [reflexivity |]. split; [reflexivity |]. simpl.
  split; [done |]. split; [done |]. split; [| split].
  - destruct (cp_password payload) as [p |]; [| done]. simpl.
    unfold truthy_string. by case_bool_decide.
  - apply lookup_delete_eq.
  - apply created_object_id.
Qed.

Lemma getOurByEmail_returns mail w :
  ∃ r, UserService.getOurByEmail mail w = (Returns r, w).
Proof. by eexists. Qed.

Lemma createOwner_run_fresh w pw :
  UserService.getOurByEmail "gustavo@gsales.io" w = (Returns None, w) →
  let u := {| id := newOpaqueToken (entropy w);
              email := "gustavo@gsales.io";
              fullName := "Gustavo Owner";
              password := Some (Crypt_hash pw);
              thonLabsUser := true;
              emailConfirmed := true;
              active := true;
              lastSignIn := None;
              environmentId := None |} in
  UserService.createOwner pw w =
    (Returns (withData (delete "password" (toObject u))),
     set_entropy S (set_users (λ us, us ++ [u]) w)).
Proof.
  intros Hnone. unfold UserService.createOwner.
  by rewrite (bind_returns _ _ _ _ _ Hnone).
Qed.

(** X3: [createOwner] creates the owner at most once: a second call,
    whatever password it brings, writes nothing, and one call adds at most
    one row. *)
Theorem createOwner_at_most_once w pw1 pw2 :
  let w1 := (UserService.createOwner pw1 w).2 in
  (UserService.createOwner pw2 w1).2 = w1 ∧
  (length (users w1) ≤ S (length (users w)))%nat.
Proof.
  intros w1. subst w1.
  destruct (getOurByEmail_returns "gustavo@gsales.io" w) as ([o |] & Hown).
  - destruct (createOwner_existing w pw1 o Hown) as [-> _]. simpl.
    destruct (createOwner_existing w pw2 o Hown) as [-> _]. simpl.
    split; [done | lia].
  - rewrite (createOwner_run_fresh w pw1 Hown). simpl.
    set (u := {| id := newOpaqueToken (entropy w); email := "gustavo@gsales.io";
                 fullName := "Gustavo Owner"; password := Some (Crypt_hash pw1);
                 thonLabsUser := true; emailConfirmed := true; active := true;
                 lastSignIn := None; environmentId := None |}).
    set (w1 := set_entropy S (set_users (λ us, us ++ [u]) w)).
    assert (UserService.getOurByEmail "gustavo@gsales.io" w1 = (Returns (Some u), w1))
      as Hown1.
    { unfold UserService.getOurByEmail, gets in *. simpl.
      assert (find (λ u0, bool_decide (email u0 = "gustavo@gsales.io")
                          && thonLabsUser u0) (users w) = None) as Hf
        by (by inversion Hown).
      by rewrite (find_app_None _ _ _ Hf). }
    destruct (createOwner_existing w1 pw2 u Hown1) as [-> _]. simpl.
    split; [done |]. rewrite length_app. simpl. lia.
Qed.

(** X4: the owner [createOwner] answers with can be attached to an
    environment: [setEnvironment] on the id of the returned object
    succeeds, and the lookup by that id then gives a row of that
    environment. *)
Theorem createOwner_then_setEnvironment w pw eid :
  ∃ obj w1 w2 u,
    UserService.createOwner pw w = (Returns (withData obj), w1) ∧
    UserService.setEnvironment (prop_str obj "id") eid w1 = (Returns tt, w2) ∧
    UserService.getById (prop_str obj "id") w2 = (Returns (Some u), w2) ∧
    environmentId u = Some eid.
Proof.
  assert (∀ w1 uid, existsb (λ u0, bool_decide (id u0 = uid)) (users w1) = true →
            ∃ w2 u, UserService.setEnvironment uid eid w1 = (Returns tt, w2) ∧
                    UserService.getById uid w2 = (Returns (Some u), w2) ∧
                    environmentId u = Some eid) as Hset.
  { intros w1 uid Hex. destruct (existsb_find _ _ Hex) as [u0 Hu0].
    destruct (setEnvironment_scopes w1 uid eid u0) as (w2 & Hs & Hg).
    - unfold UserService.getById, gets. by rewrite Hu0.
    - by eexists w2, _. }
  unfold UserService.createOwner, UserService.getOurByEmail. rewrite bind_gets.
  destruct (find _ (users w)) as [o |] eqn:Hfind.
  - destruct (Hset w (id o)) as (w2 & u & Hs & Hg & He).
    { apply existsb_exists. exists o. split; [| by apply bool_decide_eq_true_2].
      by apply find_some in Hfind as [? _]. }
    exists (toObject o), w, w2, u. rewrite toObject_id. done.
  - simpl. eexists _, _. rewrite created_object_id. simpl.
    edestruct Hset as (w2 & u & Hs & Hg & He); [| by eexists w2, u].
    simpl. rewrite existsb_app. simpl.
    rewrite bool_decide_eq_true_2 by done. by rewrite orb_true_r.
Qed.

(** X5: the tenant-scoped lookup gives only a user with that email in that
    tenant, so lookups of one email under two tenants never give the same
    row; a user without environment is found under no tenant. *)
Theorem getByEmail_tenant_scoped mail eid w u :
  UserService.getByEmail mail eid w = (Returns (Some u), w) →
  u ∈ users w ∧ email u = mail ∧ environmentId u = Some eid ∧
  ∀ eid' u', eid' ≠ eid →
             UserService.getByEmail mail eid' w = (Returns (Some u'), w) → u' ≠ u.
Proof.
  unfold UserService.getByEmail, gets. intros Hu.
  assert (find (λ u0, bool_decide (email u0 = mail)
                      && bool_decide (environmentId u0 = Some eid)) (users w) = Some u)
    as Hf by (by inversion Hu).
  apply find_some in Hf as [Hin Hp].
  apply andb_true_iff in Hp as [Hm He].
  apply bool_decide_eq_true_1 in Hm. apply bool_decide_eq_true_1 in He.
  split; [by apply list_elem_of_In |]. split; [done |]. split; [done |].
  intros eid' u' Hne Hu' ->.
  assert (find (λ u0, bool_decide (email u0 = mail)
                      && bool_decide (environmentId u0 = Some eid')) (users w) = Some u)
    as Hf' by (by inversion Hu').
  apply find_some in Hf' as [_ Hp'].
  apply andb_true_iff in Hp' as [_ He'].
  apply bool_decide_eq_true_1 in He'. congruence.
Qed.

End UserServiceMore.

Lemma UserService_create_rejects_duplicate_witness :
  UserService.create (platform := examplePlatform) aliceAgain worldWithoutTokens =
    (Returns {| data := None;
                statusCode := Some StatusCodes.Conflict;
                error := Some ErrorMessages.EmailInUse;
                code := Some ErrorCodes.EmailInUse |}, worldWithoutTokens).
Proof.
  apply (UserService_create_rejects_duplicate (platform := examplePlatform)
           aliceAgain worldWithoutTokens alice).
  reflexivity.
Defined.

(** An empty password is stored as no password. *)
Lemma UserService_create_stores_hash_witness :
  ∃ (obj : JsObject) (u : User),
    users (UserService.create (platform := examplePlatform)
             carolEmptyPassword worldWithoutTokens).2
      = users worldWithoutTokens ++ [u] ∧
    password u = None ∧ obj !! "password" = None.
Proof.
  destruct (UserService_create_stores_hash (platform := examplePlatform)
              carolEmptyPassword worldWithoutTokens eq_refl)
    as (obj & u & _ & Hus & _ & _ & Hpw & Hobj & _).
  exists obj, u. split; [exact Hus |]. split; [exact Hpw | exact Hobj].
Defined.

Lemma getByEmail_tenant_scoped_witness :
  email alice = "alice@x.com" ∧ environmentId alice = Some "E".
Proof.
  destruct (getByEmail_tenant_scoped "alice@x.com" "E" worldWithoutTokens alice eq_refl)
    as (_ & Hm & He & _).
  split; [exact Hm | exact He].
Defined.

(** * Further properties of the controller *)

Section ControllerGuards.
Context {platform : Platform}.

(** X6: without a resolved tenant, signup, the reset-password request and
    the reset-password update throw [Unauthorized] and write nothing; the
    token presented to the update is not even looked at. *)
Theorem unresolved_tenant_Unauthorized w req d payload mail tok pw :
  EnvironmentService.getByPublicKeyFromRequest req w = (Returns d, w) →
  data d = None →
  let refused := (Throws (HttpException StatusCodes.Unauthorized
                            (Message (Some ErrorMessages.Unauthorized))), w) in
  AuthController.signUp payload req w = refused ∧
  AuthController.requestResetPassword req mail w = refused ∧
  AuthController.updateTokenResetPassword req tok pw w = refused.
Proof.
  intros Henv Hdata refused.
  unfold AuthController.signUp, AuthController.requestResetPassword,
    AuthController.updateTokenResetPassword.
  rewrite !(bind_returns _ _ _ _ _ Henv), Hdata. done.
Qed.

(** X7: on a tenant whose [enableSignUp] setting is missing or falsy,
    signup throws [Forbidden] and writes nothing. *)
Theorem signUp_disabled_Forbidden w req e payload :
  EnvironmentService.getByPublicKeyFromRequest req w = (Returns (withData e), w) →
  truthy (environmentData w !! (env_id e, "enableSignUp")) = false →
  AuthController.signUp payload req w =
    (Throws (HttpException StatusCodes.Forbidden
               (Message (Some ErrorMessages.Forbidden))), w).
Proof.
  intros Henv Hoff. unfold AuthController.signUp.
  rewrite (bind_returns _ _ _ _ _ Henv). simpl.
  unfold EnvironmentDataService.get. rewrite bind_gets. simpl.
  by rewrite Hoff.
Qed.

(** X8: a signup for an email the tenant already has throws [Conflict]
    with the [EmailInUse] message; no user, no token and no email come of
    it. *)
Theorem signUp_duplicate_Conflict w req e payload u :
  EnvironmentService.getByPublicKeyFromRequest req w = (Returns (withData e), w) →
  truthy (environmentData w !! (env_id e, "enableSignUp")) = true →
  UserService.getByEmail (sp_email payload) (env_id e) w = (Returns (Some u), w) →
  AuthController.signUp payload req w =
    (Throws (HttpException StatusCodes.Conflict
               (Message (Some ErrorMessages.EmailInUse))), w).
Proof.
  intros Henv Hon Hu. unfold AuthController.signUp.
  rewrite (bind_returns _ _ _ _ _ Henv). simpl.
  unfold EnvironmentDataService.get. rewrite bind_gets. simpl.
  rewrite Hon. simpl.
  pose proof (UserService_create_conflict
                {| cp_fullName := sp_fullName payload;
                   cp_email := sp_email payload;
                   cp_password := sp_password payload;
                   cp_environmentId := env_id e |} w u Hu) as Hc.
  by rewrite (bind_returns _ _ _ _ _ Hc).
Qed.

(** X9: a signup that goes through triggers exactly two emails to the new
    user: first the confirmation (with a password) or the magic link
    (without), carrying the token just stored, which expires after five
    hours or thirty minutes; then the welcome email, scheduled five
    minutes later and carrying no data. *)
Theorem signUp_emails w req e payload :
  EnvironmentService.getByPublicKeyFromRequest req w = (Returns (withData e), w) →
  truthy (environmentData w !! (env_id e, "enableSignUp")) = true →
  UserService.getByEmail (sp_email payload) (env_id e) w = (Returns None, w) →
  let out := AuthController.signUp payload req w in
  let withPassword := truthy_opt_string (sp_password payload) in
  ∃ first welcome row,
    outbox out.2 = outbox w ++ [first; welcome] ∧
    to first = sp_email payload ∧ to welcome = sp_email payload ∧
    emailTemplateType first = (if withPassword then EmailTemplates.ConfirmEmail
                               else EmailTemplates.MagicLink) ∧
    (mail_data first ≫= (.!! "token")) = Some (JStr (token row)) ∧
    tokenStorage out.2 !! token row = Some row ∧
    expires row = (now w + (if withPassword then 18000000 else 1800000))%Z ∧
    emailTemplateType welcome = EmailTemplates.Welcome ∧
    scheduledAt welcome = Some (now w + 300000)%Z ∧
    mail_data welcome = None.
Proof.
  intros Henv Hon Hnone out withPassword.
  pose proof (signUp_run payload req w e Henv Hon Hnone) as Hrun.
  simpl in Hrun. subst out. rewrite Hrun. simpl.
  eexists _, _,
    {| token := newOpaqueToken (S (entropy w));
       type := if withPassword then TokenTypes.ConfirmEmail else TokenTypes.MagicLogin;
       relationId := newOpaqueToken (entropy w);
       tok_environmentId := Some (env_id e);
       expires := (now w + ms (if withPassword then Hours 5 else Minutes 30))%Z;
       createdAt := now w |}.
  rewrite <- app_assoc. simpl.
  split; [reflexivity |]. simpl.
  split; [done |]. split; [done |]. split; [done |]. split; [done |].
  split; [apply lookup_insert_eq |].
  subst withPassword.
  by destruct (truthy_opt_string (sp_password payload)).
Qed.

(** X10: the reset-password request of an active user leaves every other
    token alone: the user's tokens of other kinds and the tokens of other
    users are still stored; and the one email it sends goes to the user
    and carries the token just stored, which expires thirty minutes
    later. *)
Theorem requestResetPassword_keeps_other_tokens w req mail e u :
  well_formed w →
  EnvironmentService.getByPublicKeyFromRequest req w = (Returns (withData e), w) →
  UserService.getByEmail mail (env_id e) w = (Returns (Some u), w) →
  active u = true →
  let w' := (AuthController.requestResetPassword req mail w).2 in
  (∀ k row,
     tokenStorage w !! k = Some row →
     type row ≠ TokenTypes.ResetPassword ∨ relationId row ≠ id u →
     tokenStorage w' !! k = Some row) ∧
  ∃ sent row,
    outbox w' = outbox w ++ [sent] ∧
    to sent = email u ∧
    emailTemplateType sent = EmailTemplates.ForgotPassword ∧
    (mail_data sent ≫= (.!! "token")) = Some (JStr (token row)) ∧
    tokenStorage w' !! token row = Some row ∧
    expires row = (now w + 1800000)%Z.
Proof.
  intros Hwf Henv Hu Hact w'.
  destruct (requestResetPassword_known w req mail e u Henv Hu Hact)
    as (new & Hnew & Hrun).
  subst w'. rewrite Hrun. simpl. split.
  - intros k row Hk Hother.
    destruct (Hwf k row Hk) as (n & Hn & ->).
    assert (token new ≠ newOpaqueToken n) as Hne.
    { rewrite Hnew. simpl. intros Heq%newOpaqueToken_inj. lia. }
    rewrite lookup_insert_ne by done.
    apply map_lookup_filter_Some_2; [done |]. simpl. tauto.
  - eexists _, new. split; [reflexivity |]. simpl.
    rewrite !lookup_insert_eq. rewrite Hnew. done.
Qed.

(** X11: the reset-password pre-check reads and never writes; it answers
    without error exactly when the token is a stored reset-password token
    that has not expired and whose user is an active user of the token's
    tenant. *)
Theorem validateTokenResetPassword_read_only tok w :
  (AuthController.validateTokenResetPassword tok w).2 = w ∧
  ((AuthController.validateTokenResetPassword tok w).1 = Returns NoContent ↔
   ∃ row u,
     tokenStorage w !! tok = Some row ∧
     type row = TokenTypes.ResetPassword ∧
     (now w ≤ expires row)%Z ∧
     find (UserService.in_tenant (relationId row) (tok_environmentId row)) (users w)
       = Some u ∧
     active u = true).
Proof.
  unfold AuthController.validateTokenResetPassword,
    AuthService.validateUserTokenExpiration, UserService.isActiveUser.
  rewrite bind_gets. unfold AuthService.validation.
  destruct (tokenStorage w !! tok) as [row |] eqn:Hk; simpl.
  2: { split; [done |]. split; [done | by intros (? & ? & ? & _)]. }
  destruct (decide (type row = TokenTypes.ResetPassword)) as [Hty | Hty].
  2: { rewrite (bool_decide_eq_false_2 (type row = TokenTypes.ResetPassword)) by done.
       simpl. split; [done |]. split; [done |].
       intros (row' & u & Hrow & Hty' & _). congruence. }
  rewrite (bool_decide_eq_true_2 (type row = TokenTypes.ResetPassword)) by done.
  destruct (expires row <? now w)%Z eqn:Hexp; simpl.
  { split; [done |]. split; [done |].
    intros (row' & u & Hrow & _ & Hlive & _).
    apply Z.ltb_lt in Hexp. assert (row' = row) as -> by congruence. lia. }
  apply Z.ltb_ge in Hexp. rewrite bind_gets.
  destruct (find _ (users w)) as [u |] eqn:Hu.
  2: { simpl. split; [done |]. split; [done |].
       intros (row' & u & Hrow & _ & _ & Hfind & _).
       assert (row' = row) as -> by congruence. congruence. }
  destruct (active u) eqn:Hact; simpl.
  - split; [done |]. split; [| done]. intros _. by exists row, u.
  - split; [done |]. split; [done |].
    intros (row' & u' & Hrow & _ & _ & Hfind & Hact').
    assert (row' = row) as -> by congruence. congruence.
Qed.

(** X12: when the token presented to the reset-password update does not
    validate (absent, of another kind, or expired), the failure of the
    validation is thrown and nothing is written: an expired token stays
    in the store and no password changes. *)
Theorem updateTokenResetPassword_invalid_token_untouched w req e tok pw s :
  EnvironmentService.getByPublicKeyFromRequest req w = (Returns (withData e), w) →
  statusCode (AuthService.validation w tok TokenTypes.ResetPassword) = Some s →
  AuthController.updateTokenResetPassword req tok pw w =
    (Throws (HttpException s
               (Message (error (AuthService.validation w tok TokenTypes.ResetPassword)))),
     w).
Proof.
  intros Henv Hs. unfold AuthController.updateTokenResetPassword.
  rewrite (bind_returns _ _ _ _ _ Henv). simpl.
  unfold AuthService.validateUserTokenExpiration. rewrite bind_gets.
  rewrite Hs. done.
Qed.

(** X13: when the validation fails and its answer carries no confirm-email
    record with a user id (as for an expired invite-user token), the
    confirmation flow throws the failure and nothing else happens: no
    email is re-sent and the token stays in the store. *)
Theorem confirmEmail_failure_without_resend w tok d s :
  AuthController.confirmEmail_tokenValidation tok w = (Returns d, w) →
  statusCode d = Some s →
  type <$> data d ≠ Some TokenTypes.ConfirmEmail
  ∨ truthy_opt_string (relationId <$> data d) = false →
  AuthController.confirmEmail tok w =
    (Throws (HttpException s (Message (error d))), w).
Proof.
  intros Hv Hs Hcase. unfold AuthController.confirmEmail, AuthController.confirmEmail_over.
  fold (AuthController.confirmEmail_tokenValidation tok).
  rewrite (bind_returns _ _ _ _ _ Hv), Hs. simpl.
  destruct Hcase as [Hty | Hrel].
  - by rewrite (bool_decide_eq_false_2 _ Hty).
  - rewrite Hrel, andb_false_r. done.
Qed.

(** X14: when the token validates but the confirmation of the email
    answers with a failure, the flow has already deleted the token when it
    throws that failure; no follow-up token is minted. *)
Theorem confirmEmail_confirmation_fails w tok row r w1 s :
  AuthController.confirmEmail_tokenValidation tok w = (Returns (withData row), w) →
  UserService.updateEmailConfirmation (relationId row) (tok_environmentId row) w
    = (Returns (Some r), w1) →
  statusCode r = Some s →
  AuthController.confirmEmail tok w =
    (Throws (HttpException s (Message (error r))), set_tokenStorage (delete tok) w1).
Proof.
  intros Hv Hupd Hs. unfold AuthController.confirmEmail, AuthController.confirmEmail_over.
  fold (AuthController.confirmEmail_tokenValidation tok).
  rewrite (bind_returns _ _ _ _ _ Hv). simpl.
  rewrite (bind_returns _ _ _ _ _ Hupd). simpl. by rewrite Hs.
Qed.

End ControllerGuards.

Section RefreshGate.
Context {platform : Platform}.

Lemma AuthService_reAuthenticate_returns tok eid w :
  ∃ d, AuthService.reAuthenticateFromRefreshToken tok eid w = (Returns d, w).
Proof.
  unfold AuthService.reAuthenticateFromRefreshToken, EnvironmentService.getById,
    UserService.getById, TokenStorageService.createAuthTokens.
  rewrite bind_gets.
  destruct (data _) as [environment |]; [| by eexists].
  rewrite bind_gets.
  destruct (verifySession _ _ _) as [claims |]; [| by eexists].
  rewrite bind_gets.
  destruct (find _ _) as [u |]; by eexists.
Qed.

(** X15: for a resolved tenant, the refresh request is refused with the
    bare [Unauthorized] exactly when the tenant's refresh lifetime is
    falsy: null, or the empty string. *)
Theorem refresh_gate_iff w tok req e :
  EnvironmentService.getById (headers req !! "tl-env-id") w = (Returns (withData e), w) →
  (AuthController.reAuthenticateFromRefreshToken tok req w).1 =
    Throws (HttpException StatusCodes.Unauthorized (Message None))
  ↔ truthy_opt_string (refreshTokenExpiration e) = false.
Proof.
  intros Henv. unfold AuthController.reAuthenticateFromRefreshToken.
  rewrite (bind_returns _ _ _ _ _ Henv). simpl.
  destruct (truthy_opt_string (refreshTokenExpiration e)); simpl; [| done].
  split; [| done].
  destruct (AuthService_reAuthenticate_returns tok (env_id e) w) as [d Hd].
  rewrite (bind_returns _ _ _ _ _ Hd).
  destruct (error d) as [err |] eqn:Herr; simpl; [| done].
  by destruct (statusCode d).
Qed.

End RefreshGate.

Lemma refresh_gate_iff_witness :
  (AuthController.reAuthenticateFromRefreshToken (platform := examplePlatform)
     "any-refresh-token" (request_with "tl-env-id" "B") worldWithBlankTenant).1 =
    Throws (HttpException StatusCodes.Unauthorized (Message None)).
Proof.
  apply (refresh_gate_iff (platform := examplePlatform) worldWithBlankTenant
           "any-refresh-token" (request_with "tl-env-id" "B") tenantBlank eq_refl).
  reflexivity.
Defined.

Lemma unresolved_tenant_Unauthorized_witness :
  AuthController.signUp (platform := examplePlatform) annWithPassword reqWithoutKey
    worldWithoutTokens =
    (Throws (HttpException StatusCodes.Unauthorized
               (Message (Some ErrorMessages.Unauthorized))), worldWithoutTokens).
Proof.
  destruct (unresolved_tenant_Unauthorized (platform := examplePlatform)
              worldWithoutTokens reqWithoutKey _ annWithPassword "a@x.com"
              (newOpaqueToken 0) "pw" eq_refl eq_refl) as (Hsign & _).
  exact Hsign.
Defined.

Lemma signUp_disabled_Forbidden_witness :
  AuthController.signUp (platform := examplePlatform) annWithPassword reqO
    worldWithoutTokens =
    (Throws (HttpException StatusCodes.Forbidden
               (Message (Some ErrorMessages.Forbidden))), worldWithoutTokens).
Proof.
  apply (signUp_disabled_Forbidden (platform := examplePlatform)
           worldWithoutTokens reqO tenantO annWithPassword); reflexivity.
Defined.

Lemma signUp_duplicate_Conflict_witness :
  AuthController.signUp (platform := examplePlatform) aliceSignsUpAgain reqE
    worldWithoutTokens =
    (Throws (HttpException StatusCodes.Conflict
               (Message (Some ErrorMessages.EmailInUse))), worldWithoutTokens).
Proof.
  apply (signUp_duplicate_Conflict (platform := examplePlatform)
           worldWithoutTokens reqE tenantE aliceSignsUpAgain alice); reflexivity.
Defined.

Lemma signUp_emails_witness :
  map emailTemplateType
    (outbox (AuthController.signUp (platform := examplePlatform)
               benWithoutPassword reqM worldWithoutTokens).2)
    = [EmailTemplates.MagicLink; EmailTemplates.Welcome].
Proof.
  destruct (signUp_emails (platform := examplePlatform) worldWithoutTokens reqM
              tenantM benWithoutPassword eq_refl eq_refl eq_refl)
    as (first & welcome & row & Hout & _ & _ & Hfirst & _ & _ & _ & Hwelcome & _).
  rewrite Hout. simpl. by rewrite Hfirst, Hwelcome.
Defined.

(** [alice] asks for a reset while [bob]'s invitation is in the store. *)
Lemma requestResetPassword_keeps_other_tokens_witness :
  tokenStorage (AuthController.requestResetPassword reqE "alice@x.com" worldWithInvite).2
    !! newOpaqueToken 0 = Some inviteToken.
Proof.
  assert (well_formed worldWithInvite) as Hwf.
  { apply (well_formed_singleton worldWithInvite 0 inviteToken);
      [reflexivity | simpl; lia]. }
  destruct (requestResetPassword_keeps_other_tokens worldWithInvite reqE
              "alice@x.com" tenantE alice Hwf eq_refl eq_refl eq_refl)
    as [Hkeep _].
  apply Hkeep; [reflexivity | left; discriminate].
Defined.

(** The expired token is refused and is still in the store. *)
Lemma updateTokenResetPassword_invalid_token_untouched_witness :
  AuthController.updateTokenResetPassword (platform := examplePlatform)
    reqE (newOpaqueToken 0) "new-password" worldAfterExpiry =
    (Throws (HttpException StatusCodes.Expired
               (Message (Some ErrorMessages.TokenExpired))), worldAfterExpiry).
Proof.
  apply (updateTokenResetPassword_invalid_token_untouched (platform := examplePlatform)
           worldAfterExpiry reqE tenantE (newOpaqueToken 0) "new-password"
           StatusCodes.Expired); reflexivity.
Defined.

(** [bob]'s expired invitation. *)
Lemma confirmEmail_failure_without_resend_witness :
  AuthController.confirmEmail (platform := examplePlatform)
    (newOpaqueToken 0) worldWithExpiredInvite =
    (Throws (HttpException StatusCodes.Expired
               (Message (Some ErrorMessages.TokenExpired))), worldWithExpiredInvite).
Proof.
  apply (confirmEmail_failure_without_resend (platform := examplePlatform)
           worldWithExpiredInvite (newOpaqueToken 0)
           (mkDataReturn (Some expiredInviteToken) (Some StatusCodes.Expired)
              (Some ErrorMessages.TokenExpired) None)
           StatusCodes.Expired eq_refl eq_refl).
  left. discriminate.
Defined.

(** A live confirmation link of a user who is in no tenant. *)
Lemma confirmEmail_confirmation_fails_witness :
  AuthController.confirmEmail (platform := examplePlatform)
    (newOpaqueToken 0) worldWithStrayToken =
    (Throws (HttpException StatusCodes.NotFound
               (Message (Some ErrorMessages.UserNotFound))),
     set_tokenStorage (delete (newOpaqueToken 0)) worldWithStrayToken).
Proof.
  apply (confirmEmail_confirmation_fails (platform := examplePlatform)
           worldWithStrayToken (newOpaqueToken 0) strayConfirmToken
           (withError StatusCodes.NotFound ErrorMessages.UserNotFound)
           worldWithStrayToken StatusCodes.NotFound); reflexivity.
Defined.

(** * Login *)

Section Login.
Variable authenticate authenticate' :
  string → string → string → Handler (option (DataReturn AuthTokens)).
Variable sendMagicLink sendMagicLink' :
  string → Environment → Handler (option (DataReturn unit)).

(** X16: whatever the two services do, a login on a password tenant
    without a password (missing or empty), and a login on a tenant whose
    provider is neither password nor magic link, throw [Unauthorized] with
    the [InvalidCredentials] message and write nothing. *)
Theorem login_no_channel_Unauthorized w req e mail pw :
  EnvironmentService.getByPublicKeyFromRequest req w = (Returns (withData e), w) →
  (authProvider e = AuthProviders.EmailAndPassword ∧ truthy_opt_string pw = false)
  ∨ authProvider e = AuthProviders.Other →
  AuthControllerLogin.login authenticate sendMagicLink mail pw req w =
    (Throws (HttpException StatusCodes.Unauthorized
               (Message (Some ErrorMessages.InvalidCredentials))), w).
Proof.
  intros Henv Hcase. unfold AuthControllerLogin.login.
  rewrite (bind_returns _ _ _ _ _ Henv). simpl.
  by destruct Hcase as [[-> ->] | ->].
Qed.

(** X17: on a magic-link tenant the password and the password service play
    no part in a login: the outcome is the same whatever they are, and
    it is the "email sent" acknowledgment whenever the magic-link service
    reports no error. *)
Theorem login_magic_ignores_password w req e mail pw pw' :
  EnvironmentService.getByPublicKeyFromRequest req w = (Returns (withData e), w) →
  authProvider e = AuthProviders.MagicLogin →
  AuthControllerLogin.login authenticate sendMagicLink mail pw req w =
    AuthControllerLogin.login authenticate' sendMagicLink mail pw' req w ∧
  ∀ r w', sendMagicLink mail e w = (Returns r, w') →
          r ≫= error = None →
          AuthControllerLogin.login authenticate sendMagicLink mail pw req w =
            (Returns EmailSentAck, w').
Proof.
  intros Henv Hmagic. unfold AuthControllerLogin.login.
  rewrite !(bind_returns _ _ _ _ _ Henv). simpl. rewrite Hmagic. simpl.
  split; [done |]. intros r w' Hsend Hok.
  rewrite (bind_returns _ _ _ _ _ Hsend). by rewrite Hok.
Qed.

(** X18: on a password tenant a login with a password is decided by the
    password service alone: its error is thrown with its status code, its
    data is the answer otherwise, and the magic-link service plays no
    part. *)
Theorem login_password_branch w req e mail p :
  EnvironmentService.getByPublicKeyFromRequest req w = (Returns (withData e), w) →
  authProvider e = AuthProviders.EmailAndPassword →
  p ≠ "" →
  AuthControllerLogin.login authenticate sendMagicLink mail (Some p) req w =
    AuthControllerLogin.login authenticate sendMagicLink' mail (Some p) req w ∧
  ∀ r w', authenticate mail p (env_id e) w = (Returns (Some r), w') →
          AuthControllerLogin.login authenticate sendMagicLink mail (Some p) req w =
            match error r, statusCode r with
            | Some err, Some s => (Throws (HttpException s (Message (Some err))), w')
            | Some err, None => (Throws TypeError, w')
            | None, _ => (Returns (SessionData (data r)), w')
            end.
Proof.
  intros Henv Hpw Hp. unfold AuthControllerLogin.login.
  rewrite !(bind_returns _ _ _ _ _ Henv). simpl. rewrite Hpw. simpl.
  assert (truthy_string p = true) as ->.
  { unfold truthy_string. by rewrite bool_decide_eq_false_2. }
  simpl. split; [done |]. intros r w' Hauth.
  rewrite (bind_returns _ _ _ _ _ Hauth). simpl.
  destruct (error r); simpl; [| done]. by destruct (statusCode r).
Qed.

End Login.

Lemma login_no_channel_Unauthorized_witness :
  AuthControllerLogin.login exampleAuthenticate exampleSendMagicLink
    "alice@x.com" (Some "") reqE worldWithoutTokens =
    (Throws (HttpException StatusCodes.Unauthorized
               (Message (Some ErrorMessages.InvalidCredentials))), worldWithoutTokens).
Proof.
  apply (login_no_channel_Unauthorized exampleAuthenticate exampleSendMagicLink
           worldWithoutTokens reqE tenantE "alice@x.com" (Some "") eq_refl).
  left. split; reflexivity.
Defined.

Lemma login_magic_ignores_password_witness :
  AuthControllerLogin.login exampleAuthenticate exampleSendMagicLink
    "bob@x.com" (Some "a-password") reqM worldWithoutTokens =
    (Returns EmailSentAck, worldWithoutTokens).
Proof.
  destruct (login_magic_ignores_password exampleAuthenticate exampleAuthenticate
              exampleSendMagicLink worldWithoutTokens reqM tenantM "bob@x.com"
              (Some "a-password") None eq_refl eq_refl) as [_ Hack].
  apply (Hack None worldWithoutTokens); reflexivity.
Defined.

Lemma login_password_branch_witness :
  AuthControllerLogin.login exampleAuthenticate exampleSendMagicLink
    "alice@x.com" (Some "pw") reqE worldWithoutTokens =
    (Returns (SessionData (Some {| accessToken := "access:alice@x.com";
                                   refreshToken := None |})), worldWithoutTokens).
Proof.
  destruct (login_password_branch exampleAuthenticate exampleSendMagicLink
              exampleSendMagicLink worldWithoutTokens reqE tenantE "alice@x.com" "pw"
              eq_refl eq_refl ltac:(discriminate)) as [_ Hdata].
  apply (Hdata (withData {| accessToken := "access:alice@x.com"; refreshToken := None |})
           worldWithoutTokens).
  reflexivity.
Defined.

(** * The earlier revision of the controller *)

Section LegacyProperties.
Context {platform : Platform}.

(** X19: in the earlier revision the reset-password request tells accounts
    apart: an unknown email is answered with [NotFound] and nothing is
    written, while any user of the tenant, active or not, gets the empty
    acknowledgment and a stored reset-password token. *)
Theorem Legacy_requestResetPassword_tells_accounts_apart w req mail e :
  EnvironmentService.getByPublicKeyFromRequest req w = (Returns (withData e), w) →
  (UserService.getByEmail mail (env_id e) w = (Returns None, w) →
   Legacy.requestResetPassword req mail w =
     (Throws (HttpException StatusCodes.NotFound
                (Message (Some ErrorMessages.UserNotFound))), w)) ∧
  (∀ u, UserService.getByEmail mail (env_id e) w = (Returns (Some u), w) →
        let out := Legacy.requestResetPassword req mail w in
        out.1 = Returns NoContent ∧
        ∃ row, tokenStorage out.2 !! newOpaqueToken (entropy w) = Some row ∧
               type row = TokenTypes.ResetPassword ∧
               relationId row = id u).
Proof.
  intros Henv. split.
  - by apply Legacy_requestResetPassword_unknown.
  - intros u Hu out. subst out. unfold Legacy.requestResetPassword.
    rewrite (bind_returns _ _ _ _ _ Henv). simpl.
    rewrite (bind_returns _ _ _ _ _ Hu). simpl.
    split; [done |]. eexists. split; [apply lookup_insert_eq | done].
Qed.

(** X20: in the earlier revision the reset-password update does not look at
    what the password update answers: with a live token it deletes the
    token and returns normally, also when no user of the request's tenant
    matches and no password has changed. *)
Theorem Legacy_updateTokenResetPassword_ignores_failure w req tok pw e row :
  EnvironmentService.getByPublicKeyFromRequest req w = (Returns (withData e), w) →
  AuthService.validateUserTokenExpiration tok TokenTypes.ResetPassword w =
    (Returns (withData row), w) →
  let out := LegacyController.updateTokenResetPassword req tok pw w in
  out.1 = Returns NoContent ∧
  tokenStorage out.2 !! tok = None ∧
  (existsb (UserService.in_tenant (relationId row) (Some (env_id e))) (users w) = false →
   users out.2 = users w).
Proof.
  intros Henv Hlive out. subst out.
  unfold LegacyController.updateTokenResetPassword.
  rewrite (bind_returns _ _ _ _ _ Henv). simpl.
  rewrite (bind_returns _ _ _ _ _ Hlive). simpl.
  unfold TokenStorageService.delete. rewrite bind_modify.
  unfold bind, UserService.updatePassword. simpl.
  destruct (existsb _ _); simpl;
    (split; [done |]); (split; [apply lookup_delete_eq | done]).
Qed.

Lemma Legacy_confirmEmail_frame req tok w :
  let w' := (LegacyController.confirmEmail req tok w).2 in
  tokenStorage w' = tokenStorage w ∧ environments w' = environments w ∧ now w' = now w.
Proof.
  unfold LegacyController.confirmEmail, EnvironmentService.getByPublicKeyFromRequest,
    AuthService.validateUserTokenExpiration.
  rewrite bind_gets. destruct (data _) as [e |]; [| done].
  rewrite bind_gets.
  generalize (AuthService.validation w tok TokenTypes.ConfirmEmail). intros d.
  destruct (statusCode d) as [s |]; simpl; [done |].
  destruct (data d) as [row |]; [| done].
  unfold bind, UserService.updateEmailConfirmation.
  by destruct (existsb _ _).
Qed.

Lemma validation_frame w w' tok ty :
  tokenStorage w' = tokenStorage w →
  now w' = now w →
  AuthService.validation w' tok ty = AuthService.validation w tok ty.
Proof. intros Hts Hnow. unfold AuthService.validation. by rewrite Hts, Hnow. Qed.

Lemma Legacy_confirmEmail_answer req tok w w' :
  tokenStorage w' = tokenStorage w →
  environments w' = environments w →
  now w' = now w →
  (LegacyController.confirmEmail req tok w').1 = (LegacyController.confirmEmail req tok w).1.
Proof.
  intros Hts Henvs Hnow.
  unfold LegacyController.confirmEmail, EnvironmentService.getByPublicKeyFromRequest,
    AuthService.validateUserTokenExpiration.
  rewrite !bind_gets, Henvs.
  destruct (data _) as [e |]; [| done].
  rewrite !bind_gets, (validation_frame w w' tok _ Hts Hnow).
  generalize (AuthService.validation w tok TokenTypes.ConfirmEmail). intros d.
  destruct (statusCode d) as [s |]; simpl; [done |].
  destruct (data d) as [row |]; [| done].
  unfold bind, UserService.updateEmailConfirmation.
  by do 2 destruct (existsb _ _).
Qed.

(** X21: in the earlier revision the confirmation flow never touches the
    token store, so a confirmation link is not consumed: presenting it
    again gets the same answer as the first time. *)
Theorem Legacy_confirmEmail_keeps_token req tok w :
  let out := LegacyController.confirmEmail req tok w in
  tokenStorage out.2 = tokenStorage w ∧
  (LegacyController.confirmEmail req tok out.2).1 = out.1.
Proof.
  intros out. destruct (Legacy_confirmEmail_frame req tok w) as (Hts & Henvs & Hnow).
  split; [exact Hts |]. by apply Legacy_confirmEmail_answer.
Qed.

End LegacyProperties.

(** The deactivated [mallory] still gets a reset-password token. *)
Lemma Legacy_requestResetPassword_tells_accounts_apart_witness :
  (Legacy.requestResetPassword (platform := examplePlatform) reqE "nobody@x.com"
     worldWithInactiveUser).1 =
    Throws (HttpException StatusCodes.NotFound
              (Message (Some ErrorMessages.UserNotFound))) ∧
  (Legacy.requestResetPassword (platform := examplePlatform) reqE "mallory@x.com"
     worldWithInactiveUser).1 = Returns NoContent.
Proof.
  destruct (Legacy_requestResetPassword_tells_accounts_apart (platform := examplePlatform)
              worldWithInactiveUser reqE "nobody@x.com" tenantE eq_refl)
    as [Hunknown _].
  destruct (Legacy_requestResetPassword_tells_accounts_apart (platform := examplePlatform)
              worldWithInactiveUser reqE "mallory@x.com" tenantE eq_refl)
    as [_ Hknown].
  split.
  - by rewrite (Hunknown eq_refl).
  - by destruct (Hknown mallory eq_refl) as [Hack _].
Defined.

(** [alice]'s token presented through tenant [M]: the answer is a success
    and no password has changed. *)
Lemma Legacy_updateTokenResetPassword_ignores_failure_witness :
  let out := LegacyController.updateTokenResetPassword (platform := examplePlatform)
               reqM (newOpaqueToken 0) "new-password" worldWithResetToken in
  out.1 = Returns NoContent ∧ users out.2 = users worldWithResetToken.
Proof.
  destruct (Legacy_updateTokenResetPassword_ignores_failure (platform := examplePlatform)
              worldWithResetToken reqM (newOpaqueToken 0) "new-password" tenantM
              staleResetToken eq_refl eq_refl) as (Hack & _ & Husers).
  split; [exact Hack | by apply Husers].
Defined.

(** * The schema validator guard *)

Lemma mergeSources_snoc req sources s :
  SchemaValidatorGuard.mergeSources req (sources ++ [s]) =
    default ∅ (part req s) ∪ SchemaValidatorGuard.mergeSources req sources.
Proof. unfold SchemaValidatorGuard.mergeSources. by rewrite fold_left_app. Qed.

(** X22: in the payload the guard validates, a property comes from the last
    listed source that has it: a later source overrides an earlier one,
    a missing source contributes nothing, and a property that no listed
    source has is absent. *)
Theorem mergeSources_last_source_wins req sources s k :
  SchemaValidatorGuard.mergeSources req (sources ++ [s]) !! k =
    match part req s ≫= (.!! k) with
    | Some v => Some v
    | None => SchemaValidatorGuard.mergeSources req sources !! k
    end ∧
  ((∀ s', s' ∈ sources → part req s' ≫= (.!! k) = None) →
   SchemaValidatorGuard.mergeSources req sources !! k = None).
Proof.
  split.
  - rewrite mergeSources_snoc, lookup_union.
    destruct (part req s) as [o |]; simpl.
    + by destruct (o !! k), (SchemaValidatorGuard.mergeSources req sources !! k).
    + rewrite lookup_empty.
      by destruct (SchemaValidatorGuard.mergeSources req sources !! k).
  - induction sources as [| s' sources IH] using rev_ind; intros Hnone.
    + apply lookup_empty.
    + rewrite mergeSources_snoc, lookup_union.
      rewrite IH by (intros s0 Hs0; apply Hnone; set_solver).
      assert (part req s' ≫= (.!! k) = None) as Hs' by (apply Hnone; set_solver).
      destruct (part req s') as [o |]; simpl in *.
      * by rewrite Hs'.
      * by rewrite lookup_empty.
Qed.

Lemma mergeSources_ext req req' sources :
  (∀ s, s ∈ sources → part req s = part req' s) →
  SchemaValidatorGuard.mergeSources req sources
    = SchemaValidatorGuard.mergeSources req' sources.
Proof.
  induction sources as [| s sources IH] using rev_ind; intros Hsame; [done |].
  rewrite !mergeSources_snoc.
  rewrite IH by (intros s0 Hs0; apply Hsame; set_solver).
  rewrite Hsame by set_solver. done.
Qed.

(** X23: the verdict of the guard and what it writes to the response
    depend only on the listed sources of the request; with the decorator's
    default that is the body alone, whatever the query, the params and the
    headers hold. *)
Theorem canActivate_reads_listed_sources props req req' res :
  (∀ s, s ∈ validatorSources props → part req s = part req' s) →
  SchemaValidatorGuard.canActivate (Some props) req res =
    SchemaValidatorGuard.canActivate (Some props) req' res.
Proof.
  intros Hsame. unfold SchemaValidatorGuard.canActivate.
  by rewrite (mergeSources_ext req req' _ Hsame).
Qed.

(** X24: the guard lets a request through, leaving the response alone,
    exactly when there is no schema or the schema accepts the merged
    payload; otherwise the response is [BadRequest] with the issues of the
    error, or with an empty list when the error carries none. *)
Theorem canActivate_verdict props req res :
  let out := SchemaValidatorGuard.canActivate props req res in
  (out.1 = true ↔
   ∀ p, props = Some p →
        schema p (SchemaValidatorGuard.mergeSources req (validatorSources p)) = Parsed) ∧
  (out.1 = true → out.2 = res) ∧
  (out.1 = false →
   res_status out.2 = Some StatusCodes.BadRequest ∧ is_Some (res_errors out.2)) ∧
  (∀ p issues,
     props = Some p →
     schema p (SchemaValidatorGuard.mergeSources req (validatorSources p))
       = ParseThrows (Some issues) →
     out = (false, {| res_status := Some StatusCodes.BadRequest;
                      res_errors := Some issues |})) ∧
  (∀ p, props = Some p →
        schema p (SchemaValidatorGuard.mergeSources req (validatorSources p))
          = ParseThrows None →
        out = (false, {| res_status := Some StatusCodes.BadRequest;
                         res_errors := Some [] |})).
Proof.
  unfold SchemaValidatorGuard.canActivate.
  destruct props as [p |]; simpl.
  - destruct (schema p _) as [| issues] eqn:Hparse; simpl.
    + split; [| split; [done | split; [done | split]]].
      * split; [| done]. by intros _ p' [= <-].
      * intros p' issues [= <-] Hthrows. by rewrite Hthrows in Hparse.
      * intros p' [= <-] Hnone. by rewrite Hnone in Hparse.
    + split; [| split; [done | split; [| split]]].
      * split; [done |]. intros Hall. by rewrite (Hall p eq_refl) in Hparse.
      * by intros _.
      * intros p' issues' [= <-] Hthrows. rewrite Hthrows in Hparse.
        by inversion Hparse.
      * intros p' [= <-] Hnone. rewrite Hnone in Hparse. by inversion Hparse.
  - repeat split; done.
Qed.

(** Read from the params alone, the request has no [email] that is a
    string: the guard stops it and the response lists the schema's
    issue. *)
Lemma canActivate_verdict_witness :
  SchemaValidatorGuard.canActivate
    (Some (SchemaValidator requiresEmail (Some [ValidatorSources.params])))
    requestWithBody untouchedResponse
  = (false, {| res_status := Some StatusCodes.BadRequest;
               res_errors := Some ["email: Required"] |}).
Proof.
  destruct (canActivate_verdict
              (Some (SchemaValidator requiresEmail (Some [ValidatorSources.params])))
              requestWithBody untouchedResponse) as (_ & _ & _ & Hissues & _).
  apply (Hissues (SchemaValidator requiresEmail (Some [ValidatorSources.params])));
    reflexivity.
Defined.

Lemma mergeSources_last_source_wins_witness :
  SchemaValidatorGuard.mergeSources requestWithBody
    [ValidatorSources.body; ValidatorSources.params] !! "email" = Some (JNum 7).
Proof.
  destruct (mergeSources_last_source_wins requestWithBody [ValidatorSources.body]
              ValidatorSources.params "email") as [Hlast _].
  exact Hlast.
Defined.

(** With the default sources the params play no part: the request passes
    on its body. *)
Lemma canActivate_reads_listed_sources_witness :
  SchemaValidatorGuard.canActivate (Some (SchemaValidator requiresEmail None))
    requestWithBody untouchedResponse = (true, untouchedResponse).
Proof.
  rewrite (canActivate_reads_listed_sources (SchemaValidator requiresEmail None)
             requestWithBody
             {| part := λ s, match s with
                             | ValidatorSources.body =>
                                 Some (<["email" := JStr "a@x.com"]> ∅)
                             | _ => None
                             end |}
             untouchedResponse).
  - reflexivity.
  - intros s Hs. simpl in Hs. apply list_elem_of_singleton in Hs. by subst s.
Defined.

(** * The email template service *)

Lemma filter_map_stable {A} (P : A → Prop) `{!∀ x, Decision (P x)}
    (f : A → A) (l : list A) :
  (∀ x, P (f x) ↔ P x) → filter P (map f l) = map f (filter P l).
Proof.
  intros Hf. induction l as [| x l IH]; [done |].
  simpl. rewrite !filter_cons, IH.
  destruct (decide (P x)) as [Hx | Hx].
  - by rewrite decide_True by (by apply Hf).
  - by rewrite decide_False by (by rewrite Hf).
Qed.

Lemma filter_none {A} (P : A → Prop) `{!∀ x, Decision (P x)} (l : list A) :
  (∀ x, x ∈ l → ¬ P x) → filter P l = [].
Proof.
  induction l as [| x l IH]; intros Hl; [done |].
  rewrite filter_cons_False by (apply Hl; set_solver).
  apply IH. intros y Hy. apply Hl. set_solver.
Qed.

Lemma filter_all {A} (P : A → Prop) `{!∀ x, Decision (P x)} (l : list A) :
  (∀ x, x ∈ l → P x) → filter P l = l.
Proof.
  induction l as [| x l IH]; intros Hl; [done |].
  rewrite filter_cons_True by (apply Hl; set_solver).
  f_equal. apply IH. intros y Hy. apply Hl. set_solver.
Qed.

Lemma find_ext {A} (p q : A → bool) (l : list A) :
  (∀ x, p x = q x) → find p l = find q l.
Proof.
  intros Hpq. induction l as [| x l IH]; simpl; [done |].
  by rewrite Hpq, IH.
Qed.

Lemma find_map {A B} (p : B → bool) (f : A → B) (l : list A) :
  find p (map f l) = f <$> find (λ x, p (f x)) l.
Proof.
  induction l as [| x l IH]; simpl; [done |].
  by destruct (p (f x)).
Qed.

Section Templates.
Context {templatePlatform : TemplatePlatform}.

Lemma fold_create_environments environment emailDomain eid l tw :
  tw_environments
    (fold_left (λ tw' entry,
                  EmailTemplateService.emailTemplate_create
                    (EmailTemplateService.defaultTemplate environment emailDomain eid entry)
                    tw') l tw)
    = tw_environments tw.
Proof.
  revert tw. induction l as [| x l IH]; intros tw; simpl; [done |].
  by rewrite IH.
Qed.

Lemma fold_create_templates environment emailDomain eid l tw :
  map without_id
    (emailTemplates
       (fold_left (λ tw' entry,
                     EmailTemplateService.emailTemplate_create
                       (EmailTemplateService.defaultTemplate environment emailDomain eid entry)
                       tw') l tw))
    = map without_id (emailTemplates tw)
      ++ map (EmailTemplateService.defaultTemplate environment emailDomain eid) l.
Proof.
  revert tw. induction l as [| x l IH]; intros tw; simpl.
  - by rewrite app_nil_r.
  - rewrite IH. simpl. rewrite map_app, <- app_assoc. done.
Qed.

Lemma without_id_environment P `{!∀ x, Decision (P x)} (l : list EmailTemplate) :
  (∀ t, P (without_id t) ↔ P t) →
  map without_id (filter P l) = filter P (map without_id l).
Proof. intros HP. by rewrite filter_map_stable. Qed.

(** The table, identifiers aside, once the defaults have been created. *)
Lemma createDefaultTemplates_run eid tw environment hostname :
  EmailTemplateService.getDetailedById eid tw = Some environment →
  url_hostname (appURL environment) = Some hostname →
  (EmailTemplateService.createDefaultTemplates eid tw).1 = None ∧
  tw_environments (EmailTemplateService.createDefaultTemplates eid tw).2
    = tw_environments tw ∧
  map without_id (emailTemplates (EmailTemplateService.createDefaultTemplates eid tw).2)
    = map without_id (filter (λ t, et_environmentId t ≠ eid) (emailTemplates tw))
      ++ map (EmailTemplateService.defaultTemplate environment
                (getRootDomain hostname) eid) emailTemplatesMapper.
Proof.
  intros Henv Hhost. unfold EmailTemplateService.createDefaultTemplates.
  assert (EmailTemplateService.getDetailedById eid
            (EmailTemplateService.emailTemplate_deleteMany eid tw) = Some environment)
    as -> by exact Henv.
  rewrite Hhost. simpl.
  by rewrite fold_create_environments, fold_create_templates.
Qed.

Lemma fold_create_others environment emailDomain eid eid' l tw :
  eid' ≠ eid →
  filter (λ t, et_environmentId t = eid')
    (emailTemplates
       (fold_left (λ tw' entry,
                     EmailTemplateService.emailTemplate_create
                       (EmailTemplateService.defaultTemplate environment emailDomain eid entry)
                       tw') l tw))
    = filter (λ t, et_environmentId t = eid') (emailTemplates tw).
Proof.
  intros Hne. revert tw. induction l as [| x l IH]; intros tw; simpl; [done |].
  rewrite IH. simpl. rewrite filter_app.
  rewrite (filter_none _ [_]); [by rewrite app_nil_r |].
  intros t Ht. apply list_elem_of_singleton in Ht as ->. simpl. congruence.
Qed.

(** The table itself, identifiers included, once the defaults have been
    created. *)
Lemma createDefaultTemplates_table eid tw environment hostname :
  EmailTemplateService.getDetailedById eid tw = Some environment →
  url_hostname (appURL environment) = Some hostname →
  EmailTemplateService.createDefaultTemplates eid tw =
    (None,
     fold_left (λ tw' entry,
                  EmailTemplateService.emailTemplate_create
                    (EmailTemplateService.defaultTemplate environment
                       (getRootDomain hostname) eid entry) tw')
               emailTemplatesMapper
               (EmailTemplateService.emailTemplate_deleteMany eid tw)).
Proof.
  intros Henv Hhost. unfold EmailTemplateService.createDefaultTemplates.
  assert (EmailTemplateService.getDetailedById eid
            (EmailTemplateService.emailTemplate_deleteMany eid tw) = Some environment)
    as -> by exact Henv.
  by rewrite Hhost.
Qed.

Lemma createDefaultTemplates_fail eid tw :
  match EmailTemplateService.getDetailedById eid tw with
  | Some environment => url_hostname (appURL environment) = None
  | None => True
  end →
  EmailTemplateService.createDefaultTemplates eid tw =
    (Some (withError StatusCodes.Internal ErrorMessages.InternalError),
     EmailTemplateService.emailTemplate_deleteMany eid tw).
Proof.
  intros Hfail. unfold EmailTemplateService.createDefaultTemplates.
  assert (EmailTemplateService.getDetailedById eid
            (EmailTemplateService.emailTemplate_deleteMany eid tw)
          = EmailTemplateService.getDetailedById eid tw) as -> by done.
  destruct (EmailTemplateService.getDetailedById eid tw) as [environment |]; [| done].
  by rewrite Hfail.
Qed.

Lemma templates_of_deleted eid eid' (l : list EmailTemplate) :
  filter (λ t, et_environmentId t = eid') (filter (λ t, et_environmentId t ≠ eid) l)
    = if decide (eid' = eid) then [] else filter (λ t, et_environmentId t = eid') l.
Proof.
  rewrite list_filter_filter. destruct (decide (eid' = eid)) as [-> | Hne].
  - apply filter_none. intros t _ [? ?]. done.
  - apply list_filter_iff. intros t. split; [by intros [? _] |].
    intros Ht. split; [done | congruence].
Qed.

(** X25: when the environment is found and its URL parses,
    [createDefaultTemplates] returns nothing and leaves the environment
    with exactly the templates of the mapper, in the mapper's order,
    whatever templates it had before, each sent from the mapper's mailbox
    at the root domain of the URL and in the name of the project's team;
    the templates of every other environment are as they were. *)
Theorem createDefaultTemplates_replaces eid tw environment hostname :
  EmailTemplateService.getDetailedById eid tw = Some environment →
  url_hostname (appURL environment) = Some hostname →
  let out := EmailTemplateService.createDefaultTemplates eid tw in
  out.1 = None ∧
  map without_id (templates_of eid out.2) =
    map (λ entry,
           {| et_id := "";
              et_type := entry.1;
              et_content := unescape (render (td_content entry.2));
              et_name := td_name entry.2;
              et_subject := td_subject entry.2;
              et_fromEmail := td_fromEmail entry.2 +:+ "@" +:+ getRootDomain hostname;
              et_fromName := appName environment +:+ " Team";
              et_preview := td_preview entry.2;
              et_replyTo := td_replyTo entry.2;
              et_environmentId := eid |})
        emailTemplatesMapper ∧
  ∀ eid', eid' ≠ eid → templates_of eid' out.2 = templates_of eid' tw.
Proof.
  intros Henv Hhost out.
  destruct (createDefaultTemplates_run eid tw environment hostname Henv Hhost)
    as (Hres & _ & Htable).
  split; [exact Hres |].
  assert (∀ eid', map without_id (templates_of eid' out.2) =
            filter (λ t, et_environmentId t = eid')
              (map without_id (filter (λ t, et_environmentId t ≠ eid) (emailTemplates tw))
               ++ map (EmailTemplateService.defaultTemplate environment
                         (getRootDomain hostname) eid) emailTemplatesMapper)) as Hof.
  { intros eid'. unfold templates_of. rewrite without_id_environment by done.
    subst out. by rewrite Htable. }
  split.
  - rewrite Hof, filter_app.
    rewrite <- without_id_environment by done.
    rewrite templates_of_deleted, decide_True by done. simpl.
    apply filter_all. intros t Ht.
    apply list_elem_of_fmap in Ht as (entry & -> & _). done.
  - intros eid' Hne. subst out. unfold templates_of.
    rewrite (createDefaultTemplates_table eid tw environment hostname Henv Hhost).
    simpl. rewrite fold_create_others by done. simpl.
    by rewrite templates_of_deleted, decide_False.
Qed.

(** X26: [createDefaultTemplates] can be repeated: a second call answers as
    the first and leaves the same table, identifiers aside. *)
Theorem createDefaultTemplates_idempotent eid tw :
  let once := EmailTemplateService.createDefaultTemplates eid tw in
  let twice := EmailTemplateService.createDefaultTemplates eid once.2 in
  twice.1 = once.1 ∧
  map without_id (emailTemplates twice.2) = map without_id (emailTemplates once.2).
Proof.
  intros once twice.
  destruct (EmailTemplateService.getDetailedById eid tw) as [environment |] eqn:Henv.
  - destruct (url_hostname (appURL environment)) as [hostname |] eqn:Hhost.
    + destruct (createDefaultTemplates_run eid tw environment hostname Henv Hhost)
        as (Hres & Henvs & Htable).
      assert (EmailTemplateService.getDetailedById eid once.2 = Some environment)
        as Henv'.
      { unfold EmailTemplateService.getDetailedById in *. subst once. by rewrite Henvs. }
      destruct (createDefaultTemplates_run eid once.2 environment hostname Henv' Hhost)
        as (Hres' & _ & Htable').
      subst twice. split; [by rewrite Hres' |].
      rewrite Htable'. subst once. rewrite Htable. f_equal.
      rewrite without_id_environment by done. rewrite Htable, filter_app.
      rewrite <- without_id_environment by done.
      rewrite list_filter_filter_l by done.
      rewrite (filter_none _ (map _ emailTemplatesMapper)); [by rewrite app_nil_r |].
      intros t Ht. apply list_elem_of_fmap in Ht as (entry & -> & _). simpl. tauto.
    + assert (once = (Some (withError StatusCodes.Internal ErrorMessages.InternalError),
                      EmailTemplateService.emailTemplate_deleteMany eid tw)) as Honce.
      { subst once. apply createDefaultTemplates_fail. by rewrite Henv. }
      subst twice. rewrite Honce. simpl.
      rewrite createDefaultTemplates_fail.
      * simpl. split; [done |]. by rewrite list_filter_filter_l.
      * assert (EmailTemplateService.getDetailedById eid
                  (EmailTemplateService.emailTemplate_deleteMany eid tw)
                = Some environment) as -> by exact Henv.
        done.
  - assert (once = (Some (withError StatusCodes.Internal ErrorMessages.InternalError),
                    EmailTemplateService.emailTemplate_deleteMany eid tw)) as Honce.
    { subst once. apply createDefaultTemplates_fail. by rewrite Henv. }
    subst twice. rewrite Honce. simpl.
    rewrite createDefaultTemplates_fail.
    + simpl. split; [done |]. by rewrite list_filter_filter_l.
    + assert (EmailTemplateService.getDetailedById eid
                (EmailTemplateService.emailTemplate_deleteMany eid tw) = None)
        as -> by exact Henv.
      done.
Qed.

(** X27: when the environment is missing or its URL does not parse,
    [createDefaultTemplates] answers [Internal] after it has deleted: the
    environment is left without any template, and the templates of the
    other environments are as they were. *)
Theorem createDefaultTemplates_failure_deletes eid tw :
  match EmailTemplateService.getDetailedById eid tw with
  | Some environment => url_hostname (appURL environment) = None
  | None => True
  end →
  let out := EmailTemplateService.createDefaultTemplates eid tw in
  out.1 = Some (withError StatusCodes.Internal ErrorMessages.InternalError) ∧
  templates_of eid out.2 = [] ∧
  ∀ eid', eid' ≠ eid → templates_of eid' out.2 = templates_of eid' tw.
Proof.
  intros Hfail out. subst out. rewrite (createDefaultTemplates_fail eid tw Hfail).
  simpl. split; [done |]. unfold templates_of. simpl. split.
  - by rewrite templates_of_deleted, decide_True.
  - intros eid' Hne. by rewrite templates_of_deleted, decide_False.
Qed.

(** X28: after [createDefaultTemplates] has gone through, [getByType]
    finds for each type the template made from the mapper's entry of that
    type, and nothing for a type the mapper does not have. *)
Theorem getByType_after_createDefaultTemplates eid tw environment hostname ty :
  EmailTemplateService.getDetailedById eid tw = Some environment →
  url_hostname (appURL environment) = Some hostname →
  without_id <$>
    EmailTemplateService.getByType ty eid
      (EmailTemplateService.createDefaultTemplates eid tw).2
  = EmailTemplateService.defaultTemplate environment (getRootDomain hostname) eid
      <$> find (λ entry, bool_decide (entry.1 = ty)) emailTemplatesMapper.
Proof.
  intros Henv Hhost.
  destruct (createDefaultTemplates_run eid tw environment hostname Henv Hhost)
    as (_ & _ & Htable).
  unfold EmailTemplateService.getByType.
  rewrite <- (find_map_stable _ without_id) by done.
  rewrite Htable. rewrite find_app_None.
  - rewrite find_map. f_equal. simpl. apply find_ext. intros entry.
    rewrite (bool_decide_eq_true_2 (eid = eid)) by done. apply andb_true_r.
  - destruct (find _ _) as [t |] eqn:Hfind; [| done].
    apply find_some in Hfind as [Hin Hp].
    apply in_map_iff in Hin as (t0 & <- & Hin).
    apply list_elem_of_In, list_elem_of_filter in Hin as [Hne _].
    apply andb_true_iff in Hp as [_ Hp]. apply bool_decide_eq_true_1 in Hp.
    done.
Qed.

End Templates.

(** Tenant [E] had a custom welcome template: it is replaced by the two
    defaults, and tenant [M]'s template is still there. *)
Lemma createDefaultTemplates_replaces_witness :
  let out := EmailTemplateService.createDefaultTemplates
               (templatePlatform := exampleTemplatePlatform) "E" exampleTemplateWorld in
  map et_type (map without_id (templates_of "E" out.2))
    = [EmailTemplates.Welcome; EmailTemplates.ForgotPassword] ∧
  templates_of "M" out.2 = [otherTenantTemplate].
Proof.
  destruct (createDefaultTemplates_replaces (templatePlatform := exampleTemplatePlatform)
              "E" exampleTemplateWorld tenantE "e.example" eq_refl eq_refl)
    as (_ & Hmine & Hothers).
  cbv zeta. split.
  - rewrite Hmine. reflexivity.
  - rewrite (Hothers "M") by discriminate. reflexivity.
Defined.

(** Tenant [N]'s URL has no scheme and [new URL] refuses it: its template
    is gone, the answer is [Internal], and the templates of tenants [E] and
    [M] are the rows they were. *)
Lemma createDefaultTemplates_failure_deletes_witness :
  let out := EmailTemplateService.createDefaultTemplates
               (templatePlatform := exampleTemplatePlatform) "N" exampleTemplateWorld in
  templates_of "N" exampleTemplateWorld = [schemelessTenantTemplate] ∧
  out.1 = Some (withError StatusCodes.Internal ErrorMessages.InternalError) ∧
  templates_of "N" out.2 = [] ∧
  templates_of "E" out.2 = [customWelcome] ∧
  templates_of "M" out.2 = [otherTenantTemplate].
Proof.
  destruct (createDefaultTemplates_failure_deletes
              (templatePlatform := exampleTemplatePlatform) "N" exampleTemplateWorld
              eq_refl) as (Hres & Hgone & Hothers).
  cbv zeta. split; [reflexivity |]. split; [exact Hres |]. split; [exact Hgone |].
  split.
  - rewrite (Hothers "E") by discriminate. reflexivity.
  - rewrite (Hothers "M") by discriminate. reflexivity.
Defined.

Lemma getByType_after_createDefaultTemplates_witness :
  et_subject <$>
    EmailTemplateService.getByType EmailTemplates.ForgotPassword "E"
      (EmailTemplateService.createDefaultTemplates
         (templatePlatform := exampleTemplatePlatform) "E" exampleTemplateWorld).2
  = Some "Reset your password".
Proof.
  pose proof (getByType_after_createDefaultTemplates
                (templatePlatform := exampleTemplatePlatform) "E" exampleTemplateWorld
                tenantE "e.example" EmailTemplates.ForgotPassword eq_refl eq_refl) as Hget.
  destruct (EmailTemplateService.getByType _ _ _) as [t |]; [| discriminate Hget].
  simpl in *. by inversion Hget.
Defined.

(** [bob]'s confirmation link works twice. *)
Lemma Legacy_confirmEmail_keeps_token_witness :
  let out := LegacyController.confirmEmail reqE
               (newOpaqueToken 0) worldWithConfirmToken in
  out.1 = Returns NoContent ∧
  (LegacyController.confirmEmail reqE
     (newOpaqueToken 0) out.2).1 = Returns NoContent.
Proof.
  destruct (Legacy_confirmEmail_keeps_token reqE
              (newOpaqueToken 0) worldWithConfirmToken) as [_ Hagain].
  cbv zeta. split; [reflexivity |]. rewrite Hagain. reflexivity.
Defined.
